(** * daily-script-manager: the line filter and the VS Code project scaffolder

    A shallow embedding of [src/match-reader.py] and [src/vscode-project.py].

    Conventions.
    - Python text ([str]) is held as its UTF-8 bytes, a [string].
    - A Python call that can raise returns a [result]; code that also reads
      or changes the file system, prints or logs is a function of the
      [world] it runs in and returns the world it leaves behind.
    - The operating system and the Python library ([open], [pathlib],
      [shutil], [re], [json], [configparser], [subprocess]) are not part
      of the repository; they are modelled in the modules [Os], [Pathlib],
      [Re] and [Json], and taken as parameters where they are programs of
      their own (the shell command, the INI parser).
    - Definitions come first; the properties of [match-reader.py] are in
      [MatchReaderSpec], those of [vscode-project.py] in
      [VscodeProjectSpec]. *)

From Stdlib Require Import String Ascii List Bool DecimalString.
From stdpp Require Import base option list strings gmap fin_maps.

Local Open Scope string_scope.
Local Open Scope list_scope.

(** ** Python values, exceptions and results *)

Module Py.

(** The exception classes the two scripts can meet. *)
Inductive exn_class :=
  | FileNotFoundError
  | NotADirectoryError
  | IsADirectoryError
  | FileExistsError
  | PermissionError
  | TypeError
  | NoSectionError
  | NoOptionError
  | OtherError (name : string).

Record exn := mkExn { exn_cls : exn_class; exn_str : string }.

(** [issubclass(c, OSError)]. *)
Definition is_OSError (c : exn_class) : bool :=
  match c with
  | FileNotFoundError | NotADirectoryError | IsADirectoryError
  | FileExistsError | PermissionError => true
  | _ => false
  end.

(** [issubclass(c, FileNotFoundError)]. *)
Definition is_FileNotFoundError (c : exn_class) : bool :=
  match c with FileNotFoundError => true | _ => false end.

(** How a call ends: it returns, it raises an exception, or it raises
    [SystemExit] through [exit(code)]. *)
Inductive result (A : Type) :=
  | Ok (a : A)
  | Raise (e : exn)
  | Exit (code : nat).
Arguments Ok {A} a.
Arguments Raise {A} e.
Arguments Exit {A} code.

(** The values a caller-supplied function may return. *)
#[warnings="-register-all"]
Inductive pyval :=
  | PyNone
  | PyBool (b : bool)
  | PyInt (z : Z)
  | PyStr (s : string)
  | PyList (l : list pyval)
  | PyObject (cls : string) (truth : bool).

(** [isinstance(v, bool)]; [bool] cannot be subclassed, and an [int] is
    not a [bool]. *)
Definition isinstance_bool (v : pyval) : bool :=
  match v with PyBool _ => true | _ => false end.

(** Truth value testing, as [if v:] does it. *)
Definition truthy (v : pyval) : bool :=
  match v with
  | PyNone => false
  | PyBool b => b
  | PyInt z => negb (Z.eqb z 0)
  | PyStr s => negb (String.eqb s "")
  | PyList l => match l with [] => false | _ => true end
  | PyObject _ b => b
  end.

(** A Python function: its [__name__] and what a call with positional and
    keyword arguments does. Calls are taken to have no effect on the world. *)
Record pyfunc := mkFunc {
  fn_name : string;
  fn_call : list pyval -> list (string * pyval) -> result pyval
}.

End Py.
Export Py.

(** ** Text helpers: the [str] methods the scripts use *)

Module Text.

Definition LF : ascii := "010"%char.
Definition CR : ascii := "013"%char.

(** [c in s] for a one-character [c]. *)
Fixpoint contains (c : ascii) (s : string) : bool :=
  match s with
  | EmptyString => false
  | String d s' => Ascii.eqb c d || contains c s'
  end.

(** [s[:-1]]. *)
Fixpoint drop_last (s : string) : string :=
  match s with
  | EmptyString => EmptyString
  | String _ EmptyString => EmptyString
  | String c s' => String c (drop_last s')
  end.

(** [s.split(sep)] for a one-character separator: the pieces between the
    separators, empty pieces included; never an empty list. *)
Fixpoint split_char (sep : ascii) (s : string) : list string :=
  match s with
  | EmptyString => [EmptyString]
  | String c s' =>
      if Ascii.eqb c sep then EmptyString :: split_char sep s'
      else match split_char sep s' with
           | [] => [String c EmptyString]
           | piece :: pieces => String c piece :: pieces
           end
  end.

(** [l[-1]] and [l[0]] on a list that [split] returned. *)
Definition last_piece (l : list string) : string := List.last l EmptyString.
Definition first_piece (l : list string) : string := List.hd EmptyString l.

(** [sep.join(l)]. *)
Definition join (sep : string) (l : list string) : string := String.concat sep l.

Definition starts_with (p s : string) : bool := String.prefix p s.

(** Decimal rendering of a number, as [%d] and [str(int)] give it. *)
Definition decimal (n : nat) : string := NilZero.string_of_uint (Nat.to_uint n).

End Text.
Export Text.

(** ** The operating system: a file tree, the console and the log

    Modelled from the behaviour of POSIX and CPython, not from the
    repository. A location is the list of directory names from the root;
    symbolic links are not modelled, so [..] is resolved on the text. Every
    node carries its write permission: a directory's decides whether
    entries may be added to it or removed from it, a file's whether it may
    be opened for writing. Read and search permissions are always granted. *)

Module Os.

Inductive node :=
  | File (content : string) (writable : bool)
  | Dir (writable : bool).

#[global] Instance node_eq_dec : EqDecision node.
Proof. solve_decision. Defined.

Abbreviation fsmap := (gmap (list string) node).

(** What the process asked of the system, in order. *)
Inductive event :=
  | EvStat (path : string)
  | EvOpenRead (path : string)
  | EvOpenWrite (path : string)
  | EvMkdir (path : string)
  | EvTouch (path : string)
  | EvRmtree (path : string)
  | EvUnlink (path : string)
  | EvShell (command : string).

Record world := mkWorld {
  w_fs : fsmap;
  w_cwd : list string;
  w_stdout : list string;   (* lines written by print *)
  w_log : list string;      (* messages passed to logger.error *)
  w_trace : list event
}.

Definition set_fs (fs : fsmap) (w : world) : world :=
  mkWorld fs (w_cwd w) (w_stdout w) (w_log w) (w_trace w).
Definition add_stdout (line : string) (w : world) : world :=
  mkWorld (w_fs w) (w_cwd w) (w_stdout w ++ [line]) (w_log w) (w_trace w).
Definition add_log (msg : string) (w : world) : world :=
  mkWorld (w_fs w) (w_cwd w) (w_stdout w) (w_log w ++ [msg]) (w_trace w).
Definition add_event (ev : event) (w : world) : world :=
  mkWorld (w_fs w) (w_cwd w) (w_stdout w) (w_log w) (w_trace w ++ [ev]).

(** Path resolution: empty and [.] components are skipped, [..] steps back;
    the empty path names nothing. *)
Definition step_component (acc : list string) (c : string) : list string :=
  if String.eqb c "" || String.eqb c "." then acc
  else if String.eqb c ".." then removelast acc
  else acc ++ [c].

Definition resolve (cwd : list string) (path : string) : option (list string) :=
  if String.eqb path "" then None
  else Some (fold_left step_component (split_char "/" path)
               (if starts_with "/" path then [] else cwd)).

Definition node_at (fs : fsmap) (cwd : list string) (path : string) : option node :=
  match resolve cwd path with
  | None => None
  | Some k => fs !! k
  end.

Definition os_error (cls : exn_class) (errno : nat) (text path : string) : exn :=
  mkExn cls ("[Errno " +:+ decimal errno +:+ "] " +:+ text +:+ ": '" +:+ path +:+ "'").

Definition enoent := os_error FileNotFoundError 2 "No such file or directory".
Definition eacces := os_error PermissionError 13 "Permission denied".
Definition eexist := os_error FileExistsError 17 "File exists".
Definition enotdir := os_error NotADirectoryError 20 "Not a directory".
Definition eisdir := os_error IsADirectoryError 21 "Is a directory".

(** May an entry be added to, or removed from, the directory that holds
    location [k]? *)
Definition parent_error (fs : fsmap) (k : list string) (path : string) : option exn :=
  match k with
  | [] => Some (eacces path)
  | _ :: _ =>
      match fs !! removelast k with
      | None => Some (enoent path)
      | Some (File _ _) => Some (enotdir path)
      | Some (Dir false) => Some (eacces path)
      | Some (Dir true) => None
      end
  end.

(** Does the way to location [k] lead through a regular file? *)
Definition through_file (fs : fsmap) (k : list string) : bool :=
  existsb (fun n => match fs !! take n k with
                    | Some (File _ _) => true
                    | _ => false
                    end)
    (seq 0 (List.length k)).

(** The system finds nothing at [path] (ENOENT): no entry there, and no
    regular file on the way. *)
Definition not_found (fs : fsmap) (cwd : list string) (path : string) : Prop :=
  match resolve cwd path with
  | None => True
  | Some k => fs !! k = None /\ through_file fs k = false
  end.

(** The limits of the system, which the tree does not know: a name of at
    most [NAME_MAX] bytes, a path shorter than [PATH_MAX], no NUL byte. *)
Definition NAME_MAX : nat := 255.
Definition PATH_MAX : nat := 4096.
Definition NUL : ascii := "000"%char.

(** A path the system reads as [resolve] does: it is within the limits,
    and none of its components is [..], which the system follows in the
    tree ([x/..] fails where [x] is missing or a regular file) while
    [resolve] cancels it on the text. The operations below say what the
    system does on such paths; a statement that a call succeeds, or fails
    with one error and no other, takes it as a premise. *)
Definition taken_as_written (path : string) : bool :=
  (String.length path <? PATH_MAX)%nat
  && negb (contains NUL path)
  && forallb (fun c => (String.length c <=? NAME_MAX)%nat && negb (String.eqb c ".."))
       (split_char "/" path).

(** [open(path, 'r').read()], the text decoded. *)
Definition read_file (fs : fsmap) (cwd : list string) (path : string) : exn + string :=
  match resolve cwd path with
  | None => inl (enoent path)
  | Some k =>
      match fs !! k with
      | None => inl (if through_file fs k then enotdir path else enoent path)
      | Some (Dir _) => inl (eisdir path)
      | Some (File content _) => inr content
      end
  end.

(** [open(path, 'w')], the whole [content] written, and closed. *)
Definition write_file (content : string) (fs : fsmap) (cwd : list string) (path : string)
  : exn + fsmap :=
  match resolve cwd path with
  | None => inl (enoent path)
  | Some k =>
      match fs !! k with
      | Some (Dir _) => inl (eisdir path)
      | Some (File _ false) => inl (eacces path)
      | Some (File _ true) => inr (<[k := File content true]> fs)
      | None =>
          match parent_error fs k path with
          | Some e => inl e
          | None => inr (<[k := File content true]> fs)
          end
      end
  end.

(** [Path.touch()]: an existing entry is left as it is. *)
Definition touch (fs : fsmap) (cwd : list string) (path : string) : exn + fsmap :=
  match resolve cwd path with
  | None => inl (enoent path)
  | Some k =>
      match fs !! k with
      | Some _ => inr fs
      | None =>
          match parent_error fs k path with
          | Some e => inl e
          | None => inr (<[k := File "" true]> fs)
          end
      end
  end.

(** [Path.mkdir(parents=True, exist_ok=True)]: walk down from the root and
    create what is missing. *)
Fixpoint mkdir_from (path : string) (fs : fsmap) (pre rest : list string) : exn + fsmap :=
  match rest with
  | [] => inr fs
  | c :: rest' =>
      let k := pre ++ [c] in
      match fs !! k with
      | Some (Dir _) => mkdir_from path fs k rest'
      | Some (File _ _) =>
          inl (match rest' with [] => eexist path | _ => enotdir path end)
      | None =>
          match parent_error fs k path with
          | Some e => inl e
          | None => mkdir_from path (<[k := Dir true]> fs) k rest'
          end
      end
  end.

Definition mkdir_p (fs : fsmap) (cwd : list string) (path : string) : exn + fsmap :=
  match resolve cwd path with
  | None => inl (enoent path)
  | Some k => mkdir_from path fs [] k
  end.

(** [Path.unlink()]. *)
Definition unlink (fs : fsmap) (cwd : list string) (path : string) : exn + fsmap :=
  match resolve cwd path with
  | None => inl (enoent path)
  | Some k =>
      match fs !! k with
      | None => inl (enoent path)
      | Some (Dir _) => inl (eisdir path)
      | Some (File _ _) =>
          match parent_error fs k path with
          | Some e => inl e
          | None => inr (delete k fs)
          end
      end
  end.

(** A directory at or below [k] that holds an entry and may not give it up. *)
Definition holds_fast (fs : fsmap) (k : list string) : Prop :=
  map_Exists (fun d nd =>
    k `prefix_of` d /\ nd = Dir false /\
    map_Exists (fun c _ => c <> [] /\ removelast c = d) fs) fs.

(** [shutil.rmtree(path)]. When it fails the tree is left as it was: which
    entries an interrupted removal has already deleted depends on the order
    in which the directory is listed, which is not modelled. *)
Definition rmtree (fs : fsmap) (cwd : list string) (path : string) : exn + fsmap :=
  match resolve cwd path with
  | None => inl (enoent path)
  | Some k =>
      match fs !! k with
      | None => inl (enoent path)
      | Some (File _ _) => inl (enotdir path)
      | Some (Dir _) =>
          match parent_error fs k path with
          | Some e => inl e
          | None =>
              if bool_decide (holds_fast fs k) then inl (eacces path)
              else inr (filter (fun kv => ~ k `prefix_of` kv.1) fs)
          end
      end
  end.

(** *** Computations in a world *)

Definition M (A : Type) : Type := world -> result A * world.

Definition ret {A} (a : A) : M A := fun w => (Ok a, w).

Definition bind {A B} (c : M A) (k : A -> M B) : M B :=
  fun w =>
    match c w with
    | (Ok a, w') => k a w'
    | (Raise e, w') => (Raise e, w')
    | (Exit n, w') => (Exit n, w')
    end.

#[global] Instance M_ret : MRet M := @ret.
#[global] Instance M_bind : MBind M := fun A B k c => bind c k.

(** [raise e] and [exit(code)]. *)
Definition raise {A} (e : exn) : M A := fun w => (Raise e, w).
Definition sys_exit {A} (code : nat) : M A := fun w => (Exit code, w).

(** [print(line)] and [logger.error(msg)]. *)
Definition print (line : string) : M unit := fun w => (Ok tt, add_stdout line w).
Definition logger_error (msg : string) : M unit := fun w => (Ok tt, add_log msg w).

(** [Path.exists()]. *)
Definition path_exists (path : string) : M bool :=
  fun w => (Ok (bool_decide (is_Some (node_at (w_fs w) (w_cwd w) path))),
            add_event (EvStat path) w).

(** A file-system call that changes the tree or raises an [OSError]. *)
Definition fs_call (ev : event) (op : fsmap -> list string -> string -> exn + fsmap)
    (path : string) : M unit :=
  fun w =>
    let w' := add_event ev w in
    match op (w_fs w) (w_cwd w) path with
    | inl e => (Raise e, w')
    | inr fs' => (Ok tt, set_fs fs' w')
    end.

Definition os_mkdir_p (path : string) : M unit := fs_call (EvMkdir path) mkdir_p path.
Definition os_touch (path : string) : M unit := fs_call (EvTouch path) touch path.
Definition os_rmtree (path : string) : M unit := fs_call (EvRmtree path) rmtree path.
Definition os_unlink (path : string) : M unit := fs_call (EvUnlink path) unlink path.
Definition os_write (path content : string) : M unit :=
  fs_call (EvOpenWrite path) (write_file content) path.

Definition os_read (path : string) : M string :=
  fun w =>
    let w' := add_event (EvOpenRead path) w in
    match read_file (w_fs w) (w_cwd w) path with
    | inl e => (Raise e, w')
    | inr content => (Ok content, w')
    end.

End Os.
Export Os.


(** ** src/match-reader.py *)

Module MatchReader.

(** [validate_bool(func)]: the decorated function. [@wraps(func)] gives the
    wrapper the name of [func]; an exception of [func] passes through. *)
Definition validate_bool (func : pyfunc) : pyfunc :=
  mkFunc (fn_name func)
    (fun args kwargs =>
       match fn_call func args kwargs with
       | Ok result =>
           if negb (isinstance_bool result)
           then Raise (mkExn TypeError (fn_name func +:+ " must return a boolean value."))
           else Ok result
       | Raise e => Raise e
       | Exit code => Exit code
       end).

(** Text mode with [newline=None]: on reading, [\r\n] and a lone [\r]
    become [\n]. *)
Fixpoint universal_newlines (s : string) : string :=
  match s with
  | EmptyString => EmptyString
  | String c s' =>
      if Ascii.eqb c CR then
        match s' with
        | String d s'' =>
            if Ascii.eqb d LF then String LF (universal_newlines s'')
            else String LF (universal_newlines s')
        | EmptyString => String LF EmptyString
        end
      else String c (universal_newlines s')
  end.

(** [for line in f]: every line with its terminator; the last line has
    none when the text does not end in one. *)
Fixpoint iter_lines (s : string) : list string :=
  match s with
  | EmptyString => []
  | String c s' =>
      if Ascii.eqb c LF then String LF EmptyString :: iter_lines s'
      else match iter_lines s' with
           | [] => [String c EmptyString]
           | line :: rest => String c line :: rest
           end
  end.

Definition file_lines (content : string) : list string :=
  iter_lines (universal_newlines content).

(** The default [match_callback], [lambda line: True]. *)
Definition default_callback : pyfunc :=
  mkFunc "<lambda>" (fun _ _ => Ok (PyBool true)).

(** [line[:-1] if '\n' in line else line]. *)
Definition strip_line (line : string) : string :=
  if contains LF line then drop_last line else line.

(** The list comprehension of [read_lines]: the callback sees each line as
    it was read, and the first exception ends the loop. *)
Fixpoint comprehension (match_callback : pyfunc) (lines : list string)
  : result (list string) :=
  match lines with
  | [] => Ok []
  | line :: rest =>
      match fn_call match_callback [PyStr line] [] with
      | Ok keep =>
          match comprehension match_callback rest with
          | Ok out => Ok (if truthy keep then strip_line line :: out else out)
          | Raise e => Raise e
          | Exit code => Exit code
          end
      | Raise e => Raise e
      | Exit code => Exit code
      end
  end.

(** [read_lines(file_path, match_callback)]; [None] for the callback is the
    call that leaves it out. The result is the list, or [None] (Python's
    [None]) after a [FileNotFoundError] raised anywhere inside the [try]. *)
Definition read_lines (file_path : string) (match_callback : option pyfunc)
  : M (option (list string)) :=
  fun w =>
    let callback := default default_callback match_callback in
    let '(opened, w1) := os_read file_path w in
    let body :=
      match opened with
      | Ok content => comprehension callback (file_lines content)
      | Raise e => Raise e
      | Exit code => Exit code
      end in
    match body with
    | Ok lines => (Ok (Some lines), w1)
    | Raise e =>
        if is_FileNotFoundError (exn_cls e)
        then (print ("File '" +:+ file_path +:+ "' not found.");; mret None) w1
        else (Raise e, w1)
    | Exit code => (Exit code, w1)
    end.

End MatchReader.

(** ** pathlib: pure POSIX paths

    Modelled from CPython's [pathlib]: a path is its root and its
    components; empty and [.] components are dropped when it is built. *)

Module Pathlib.

Record Path := mkPath { p_root : string; p_parts : list string }.

(** Exactly two leading slashes are kept as a root of their own. *)
Definition splitroot (s : string) : string :=
  if starts_with "/" s then
    if starts_with "//" s && negb (starts_with "///" s) then "//" else "/"
  else EmptyString.

Definition real_part (c : string) : bool :=
  negb (String.eqb c EmptyString) && negb (String.eqb c ".").

(** [Path(s)]. *)
Definition Path_of (s : string) : Path :=
  mkPath (splitroot s) (List.filter real_part (split_char "/" s)).

(** [str(p)]. *)
Definition path_str (p : Path) : string :=
  match p_parts p with
  | [] => if String.eqb (p_root p) EmptyString then "." else p_root p
  | _ :: _ => p_root p +:+ join "/" (p_parts p)
  end.

(** [p.joinpath(s)]: an absolute [s] replaces [p]. *)
Definition joinpath (p : Path) (s : string) : Path :=
  let q := Path_of s in
  if String.eqb (p_root q) EmptyString
  then mkPath (p_root p) (p_parts p ++ p_parts q)
  else q.

(** [p.parent]. *)
Definition parent (p : Path) : Path := mkPath (p_root p) (removelast (p_parts p)).

End Pathlib.
Export Pathlib.

(** ** re: the two patterns of the scaffolder

    Modelled from CPython's [re] on [str] patterns, read on UTF-8 text. *)

Module Re.

Definition bytes (codes : list nat) : string :=
  fold_right (fun n s => String (ascii_of_nat n) s) EmptyString codes.

(** The characters [\s] matches, in UTF-8: U+0009..000D, U+001C..0020,
    U+0085, U+00A0, U+1680, U+2000..200A, U+2028, U+2029, U+202F, U+205F,
    U+3000. *)
Definition whitespace : list string :=
  List.map bytes
    ([[9]; [10]; [11]; [12]; [13]; [28]; [29]; [30]; [31]; [32];
      [194; 133]; [194; 160]; [225; 154; 128]]
     ++ List.map (fun i => [226; 128; 128 + i]) (seq 0 11)
     ++ [[226; 128; 168]; [226; 128; 169]; [226; 128; 175];
         [226; 129; 159]; [227; 128; 128]]).

(** Does [s] begin with a whitespace character? *)
Definition space_at (s : string) : bool :=
  existsb (fun e => starts_with e s) whitespace.

(** Does [s] begin with a character of [[a-zA-Z0-9-_]]? After the three
    ranges the hyphen stands for itself. *)
Definition name_char_at (s : string) : bool :=
  match s with
  | EmptyString => false
  | String c _ =>
      let n := nat_of_ascii c in
      (((97 <=? n) && (n <=? 122)) || ((65 <=? n) && (n <=? 90))
       || ((48 <=? n) && (n <=? 57)) || (n =? 45) || (n =? 95))%nat
  end.

(** [$] without [re.MULTILINE]: the end of the text, or just before a
    newline that ends the text. *)
Definition at_end (s : string) : bool :=
  match s with
  | EmptyString => true
  | String c EmptyString => Ascii.eqb c LF
  | _ => false
  end.

(** [cls+$] tried at the start of [s]; [here] tells whether the text at a
    position begins with a character of the class. Neither class holds the
    newline, so the one place [$] can match is where the class stops. *)
Fixpoint plus_then_end (here : string -> bool) (s : string) : bool :=
  match s with
  | EmptyString => false
  | String _ s' => here s && (at_end s' || plus_then_end here s')
  end.

Fixpoint string_drop (n : nat) (s : string) : string :=
  match n, s with
  | S n', String _ s' => string_drop n' s'
  | _, _ => s
  end.

(** [re.match(r'^[a-zA-Z0-9-_]+$', s)], as a truth value. *)
Definition match_name (s : string) : bool := plus_then_end name_char_at s.

(** [re.match(r'^(http://|https://|git://)[^\s]+$', s)], as a truth value. *)
Definition match_url (s : string) : bool :=
  existsb (fun scheme =>
             starts_with scheme s
             && plus_then_end (fun r => negb (space_at r))
                  (string_drop (String.length scheme) s))
    ["http://"; "https://"; "git://"].

End Re.

(** ** json: [json.dump(obj, f, indent=4)]

    Modelled from CPython's [json] with its defaults ([ensure_ascii=True],
    separators [,] and [: ] once an indent is given). *)

Module Json.

#[warnings="-register-all"]
Inductive json :=
  | JString (s : string)
  | JArray (items : list json)
  | JObject (fields : list (string * json)).

(** UTF-8 decoding to code points. A byte that is no part of a well-formed
    sequence becomes the lone surrogate U+DC00 + byte, as [surrogateescape]
    gives it for command-line arguments. Overlong forms are not rejected. *)
Definition is_cont (b : N) : bool := ((128 <=? b) && (b <? 192))%N.

Fixpoint decode (bs : list N) : list N :=
  match bs with
  | [] => []
  | b0 :: r0 =>
      let bad := (56320 + b0)%N :: decode r0 in
      if (b0 <? 128)%N then b0 :: decode r0
      else match r0 with
      | [] => bad
      | b1 :: r1 =>
          if ((192 <=? b0) && (b0 <? 224) && is_cont b1)%N
          then ((b0 - 192) * 64 + (b1 - 128))%N :: decode r1
          else match r1 with
          | [] => bad
          | b2 :: r2 =>
              if ((224 <=? b0) && (b0 <? 240))%N && is_cont b1 && is_cont b2
              then ((b0 - 224) * 4096 + (b1 - 128) * 64 + (b2 - 128))%N :: decode r2
              else match r2 with
              | [] => bad
              | b3 :: r3 =>
                  if ((240 <=? b0) && (b0 <? 248))%N
                     && is_cont b1 && is_cont b2 && is_cont b3
                  then ((b0 - 240) * 262144 + (b1 - 128) * 4096
                        + (b2 - 128) * 64 + (b3 - 128))%N :: decode r3
                  else bad
              end
          end
      end
  end.

Definition code_points (s : string) : list N :=
  decode (List.map N_of_ascii (list_ascii_of_string s)).

Definition hex_digit (d : N) : string :=
  String (ascii_of_N (if (d <? 10)%N then 48 + d else 87 + d)%N) EmptyString.

(** [\uXXXX], four lower-case hex digits. *)
Definition u_escape (n : N) : string :=
  "\u" +:+ hex_digit (n / 4096 mod 16) +:+ hex_digit (n / 256 mod 16)
       +:+ hex_digit (n / 16 mod 16) +:+ hex_digit (n mod 16).

Definition DQ : string := String (ascii_of_nat 34) EmptyString.
Definition BACKSLASH : string := String (ascii_of_nat 92) EmptyString.

(** One character of a string, as [ensure_ascii] writes it. *)
Definition escape_char (cp : N) : string :=
  if (cp =? 34)%N then BACKSLASH +:+ DQ
  else if (cp =? 92)%N then BACKSLASH +:+ BACKSLASH
  else if (cp =? 10)%N then "\n"
  else if (cp =? 13)%N then "\r"
  else if (cp =? 9)%N then "\t"
  else if (cp =? 8)%N then "\b"
  else if (cp =? 12)%N then "\f"
  else if ((32 <=? cp) && (cp <=? 126))%N then String (ascii_of_N cp) EmptyString
  else if (cp <? 65536)%N then u_escape cp
  else let v := (cp - 65536)%N in
       u_escape (55296 + v / 1024 mod 1024) +:+ u_escape (56320 + v mod 1024).

Definition quote (s : string) : string :=
  DQ +:+ String.concat EmptyString (List.map escape_char (code_points s)) +:+ DQ.

Fixpoint spaces (n : nat) : string :=
  match n with O => EmptyString | S n' => String " " (spaces n') end.

Definition newline_indent (indent level : nat) : string :=
  String LF (spaces (indent * level)).

(** The text of a value that starts at nesting depth [level]. *)
Fixpoint dumps (indent level : nat) (j : json) : string :=
  match j with
  | JString s => quote s
  | JArray [] => "[]"
  | JArray items =>
      "[" +:+ newline_indent indent (S level)
      +:+ join ("," +:+ newline_indent indent (S level))
            (List.map (dumps indent (S level)) items)
      +:+ newline_indent indent level +:+ "]"
  | JObject [] => "{}"
  | JObject fields =>
      "{" +:+ newline_indent indent (S level)
      +:+ join ("," +:+ newline_indent indent (S level))
            (List.map (fun kv => match kv with
                                 | (k, v) => quote k +:+ ": " +:+ dumps indent (S level) v
                                 end) fields)
      +:+ newline_indent indent level +:+ "}"
  end.

End Json.

(** ** src/vscode-project.py *)

Module VscodeProject.
Import Re Json.

(** A parsed configuration: for every section its options, defaults and
    interpolation applied. *)
Abbreviation config := (gmap string (gmap string string)).

(** What the script is run with, besides the file tree.
    - [script_file] is [__file__];
    - [shell cmd fs cwd] is the tree the command [cmd] leaves behind and
      its exit status ([subprocess.run(cmd, shell=True)]);
    - [ini_parse text] is [ConfigParser] reading [text]: the configuration,
      or the message of the [configparser.Error] it raises. *)
Record env := mkEnv {
  script_file : string;
  shell : string -> fsmap -> list string -> fsmap * nat;
  ini_parse : string -> string + config
}.

Definition ARGS_PROJECT_HELP : string := "需要创建的项目名称或项目地址链接".
Definition CONFIG_FILE : string := "config.ini".
Definition CONFIG_ERROR_MSG (e : string) : string := "配置文件解析错误: " +:+ e.
Definition CONFIG_CORE : string := "core".
Definition CONFIG_CORE_REPOSITORY : string := "repository".
Definition CONFIG_CORE_WORKSPACE : string := "workspace".
Definition PROJECT_EXISTS_ERROR_MSG (name : string) : string :=
  "项目 " +:+ name +:+ " 已存在".
Definition FILE_NOT_FOUND_ERROR_MSG (what : string) : string := "不存在 " +:+ what.

(** [error_exit(msg)]. *)
Definition error_exit {A} (msg : string) : M A :=
  logger_error msg;; sys_exit 1.

(** [print_action(msg)]; it logs at error level too. *)
Definition print_action (msg : string) : M unit := logger_error msg.

(** [config.get(section, option)]. *)
Definition config_get (cfg : config) (section option : string) : M string :=
  match cfg !! section with
  | None => raise (mkExn NoSectionError ("No section: '" +:+ section +:+ "'"))
  | Some options =>
      match options !! option with
      | None => raise (mkExn NoOptionError
                  ("No option '" +:+ option +:+ "' in section: '" +:+ section +:+ "'"))
      | Some value => mret value
      end
  end.

(** [try: body except OSError as e: handler(e)]. *)
Definition except_OSError {A} (body : M A) (handler : exn -> M A) : M A :=
  fun w =>
    match body w with
    | (Raise e, w') => if is_OSError (exn_cls e) then handler e w' else (Raise e, w')
    | other => other
    end.

(** The name [create_project] takes from a link:
    [link.split('/')[-1].split('.')[0]]. *)
Definition link_name (link : string) : string :=
  first_piece (split_char "." (last_piece (split_char "/" link))).

(** The [workspace_data] dictionary. *)
Definition workspace_data (project_dir : Path) (name : string) : json :=
  JObject [("folders",
            JArray [JObject [("path", JString (path_str project_dir));
                             ("name", JString name)]])].

(** [str(e)] of a [CalledProcessError] with a positive status. *)
Definition called_process_error (command : string) (status : nat) : string :=
  "Command '" +:+ command +:+ "' returned non-zero exit status "
  +:+ decimal status +:+ ".".

Section Scaffolder.

Variable E : env.

(** [execute_command(command)]. *)
Definition execute_command (command : string) : M unit :=
  fun w =>
    let '(fs', status) := shell E command (w_fs w) (w_cwd w) in
    let w' := set_fs fs' (add_event (EvShell command) w) in
    if (status =? 0)%nat then (Ok tt, w')
    else print ("Command execution failed: "
                +:+ called_process_error command status) w'.

(** [config.read(path)]: a file that cannot be opened is passed over. *)
Definition config_read (path : string) : M config :=
  fun w =>
    let w' := add_event (EvOpenRead path) w in
    match read_file (w_fs w) (w_cwd w) path with
    | inl _ => (Ok ∅, w')
    | inr text =>
        match ini_parse E text with
        | inl msg => error_exit (CONFIG_ERROR_MSG msg) w'
        | inr cfg => (Ok cfg, w')
        end
    end.

Definition config_path : Path :=
  joinpath (parent (Path_of (script_file E))) CONFIG_FILE.

(** [read_config()]. *)
Definition read_config : M config :=
  found ← path_exists (path_str config_path);
  (if negb found
   then error_exit (FILE_NOT_FOUND_ERROR_MSG (path_str config_path))
   else mret tt);;
  config_read (path_str config_path).

(** [create_project(name, config, is_clone)]. *)
Definition create_project (name : string) (cfg : config) (is_clone : bool) : M unit :=
  let link := name in
  let name := if is_clone then link_name link else name in
  repository ← config_get cfg CONFIG_CORE CONFIG_CORE_REPOSITORY;
  workspace ← config_get cfg CONFIG_CORE CONFIG_CORE_WORKSPACE;
  let directory_path := Path_of repository in
  let workspace_path := Path_of workspace in
  let project_dir := joinpath directory_path name in
  let workspace_file := joinpath workspace_path (name +:+ ".code-workspace") in
  found ← path_exists (path_str project_dir);
  (if negb found then
     if negb is_clone then
       os_mkdir_p (path_str project_dir);;
       execute_command ("git init " +:+ path_str project_dir);;
       os_touch (path_str (joinpath project_dir "README.md"));;
       os_touch (path_str (joinpath project_dir ".gitignore"))
     else
       execute_command ("git clone " +:+ link +:+ " " +:+ path_str project_dir)
   else error_exit (PROJECT_EXISTS_ERROR_MSG name));;
  os_write (path_str workspace_file) (dumps 4 0 (workspace_data project_dir name));;
  print_action ("add + " +:+ path_str project_dir);;
  print_action ("add + " +:+ path_str workspace_file).

(** [clean_project(name, config)]. [and] does not look at the workspace
    file when the project directory exists. *)
Definition clean_project (name : string) (cfg : config) : M unit :=
  repository ← config_get cfg CONFIG_CORE CONFIG_CORE_REPOSITORY;
  workspace ← config_get cfg CONFIG_CORE CONFIG_CORE_WORKSPACE;
  let directory_path := Path_of repository in
  let workspace_path := Path_of workspace in
  let project_dir := joinpath directory_path name in
  let workspace_file := joinpath workspace_path (name +:+ ".code-workspace") in
  dir_found ← path_exists (path_str project_dir);
  neither ← (if negb dir_found
             then file_found ← path_exists (path_str workspace_file);
                  mret (negb file_found)
             else mret false);
  (if (neither : bool) then error_exit (FILE_NOT_FOUND_ERROR_MSG name) else mret tt);;
  dir_found ← path_exists (path_str project_dir);
  (if (dir_found : bool) then
     except_OSError (os_rmtree (path_str project_dir))
       (fun e => error_exit ("NOT clean " +:+ DQ +:+ name +:+ DQ +:+ ": " +:+ exn_str e))
   else mret tt);;
  file_found ← path_exists (path_str workspace_file);
  (if (file_found : bool) then
     except_OSError (os_unlink (path_str workspace_file))
       (fun e => error_exit ("NOT clean " +:+ DQ +:+ path_str workspace_file +:+ DQ
                             +:+ ": " +:+ exn_str e))
   else mret tt);;
  print_action ("clean - " +:+ path_str project_dir);;
  print_action ("clean - " +:+ path_str workspace_file).

(** What [parser.parse_args()] returns. *)
Record namespace := mkArgs { args_project : string; args_clean : bool }.

(** [main()] from [config = read_config()] on. *)
Definition main (args : namespace) : M unit :=
  cfg ← read_config;
  let project := args_project args in
  if args_clean args then
    if match_name project then clean_project project cfg
    else error_exit ("error " +:+ project +:+ ": " +:+ ARGS_PROJECT_HELP)
  else
    if match_name project then create_project project cfg false
    else if match_url project then create_project project cfg true
    else error_exit (project +:+ ": " +:+ ARGS_PROJECT_HELP).

(** What [parser.parse_args()] makes of the command line: the namespace,
    or the end of the process. [argparse] ends it with status 0 after
    printing the help for [-h], and with status 2 for a command line it
    does not accept; [printed] is what it wrote to standard output (the
    usage and the error of a rejected command line go to standard error,
    which the world does not record). *)
Inductive parsed :=
  | Parsed (args : namespace)
  | ParserExit (status : nat) (printed : list string).

(** [main()] from its first statement: the command line [argv] goes through
    the parser, for which the function [parse_args] stands, and the rest is
    [main] above. *)
Definition main_argv (parse_args : list string -> parsed) (argv : list string)
  : M unit :=
  match parse_args argv with
  | Parsed args => main args
  | ParserExit status printed =>
      fun w => (Exit status, fold_left (fun w' line => add_stdout line w') printed w)
  end.

(** The exit status of the process: 0 when [main] returns, the argument of
    [exit], and 1 after a traceback. *)
Definition exit_status {A} (r : result A) : nat :=
  match r with
  | Ok _ => 0
  | Exit code => code
  | Raise _ => 1
  end.

End Scaffolder.

(** The configuration names both roots. *)
Definition has_roots (cfg : config) (repository workspace : string) : Prop :=
  exists options,
    cfg !! CONFIG_CORE = Some options
    /\ options !! CONFIG_CORE_REPOSITORY = Some repository
    /\ options !! CONFIG_CORE_WORKSPACE = Some workspace.

(** The two artifacts of a project, as both operations compute them. *)
Definition project_dir_of (repository name : string) : Path :=
  joinpath (Path_of repository) name.
Definition workspace_file_of (workspace name : string) : Path :=
  joinpath (Path_of workspace) (name +:+ ".code-workspace").

(** The world [execute_command] leaves when the command left the tree [fs']
    and the exit status [status]: a failure is printed, never raised. *)
Definition after_command (command : string) (fs' : fsmap) (status : nat) (w : world)
  : world :=
  let w' := set_fs fs' (add_event (EvShell command) w) in
  if (status =? 0)%nat then w'
  else add_stdout ("Command execution failed: "
                   +:+ called_process_error command status) w'.

(** The last three statements of [create_project], on their own. *)
Definition write_descriptor (project_dir workspace_file : Path) (name : string)
  : M unit :=
  os_write (path_str workspace_file) (dumps 4 0 (workspace_data project_dir name));;
  print_action ("add + " +:+ path_str project_dir);;
  print_action ("add + " +:+ path_str workspace_file).

End VscodeProject.

(** ** Words of the specification, stated on their own *)

Module SpecWords.

(** Does the line end in a newline? *)
Fixpoint ends_with_newline (line : string) : bool :=
  match line with
  | EmptyString => false
  | String c EmptyString => Ascii.eqb c LF
  | String _ rest => ends_with_newline rest
  end.

(** A line, trailing newline removed if present. *)
Definition newline_stripped (line : string) : string :=
  if ends_with_newline line then drop_last line else line.

(** The final path segment of a URL: what follows its last slash. *)
Definition final_segment (url : string) : string :=
  last_piece (split_char "/" url).

(** A file name with its extension stripped, the extension being what
    [pathlib] takes as the suffix of a name: the last dot and what follows
    it, unless that dot starts or ends the name. *)
Definition extension_stripped (name : string) : string :=
  let pieces := split_char "." name in
  let front := join "." (removelast pieces) in
  if (2 <=? List.length pieces)%nat
     && negb (String.eqb front EmptyString)
     && negb (String.eqb (last_piece pieces) EmptyString)
  then front else name.

(** The three kinds of positional argument, in the order of priority. *)
Inductive argument_kind := BareName | Url | Invalid.

Definition classify (argument : string) : argument_kind :=
  if Re.match_name argument then BareName
  else if Re.match_url argument then Url
  else Invalid.

(** The path does not name an existing file: there is nothing at it, or
    something that is no regular file. *)
Definition names_no_file (fs : fsmap) (cwd : list string) (path : string) : Prop :=
  match node_at fs cwd path with
  | Some (File _ _) => False
  | _ => True
  end.

(** The text of a workspace descriptor, line by line, around the JSON
    texts of the two strings it holds. *)
Definition descriptor_lines (path_text name_text : string) : list string :=
  let quoted s := Json.DQ +:+ s +:+ Json.DQ in
  [ "{";
    "    " +:+ quoted "folders" +:+ ": [";
    "        {";
    "            " +:+ quoted "path" +:+ ": " +:+ path_text +:+ ",";
    "            " +:+ quoted "name" +:+ ": " +:+ name_text;
    "        }";
    "    ]";
    "}" ].

End SpecWords.

(** ** Reading JSON

    What a reader makes of a JSON text, written from the grammar of JSON
    (RFC 8259) for the values the script writes: objects, arrays and
    strings. It shares nothing with [Json.dumps]. Strings come back as
    UTF-8 bytes; a lone surrogate U+DC80 to U+DCFF stands for the byte it
    escapes. *)

Module JsonReader.
Import Json.

Definition is_ws (c : ascii) : bool :=
  Ascii.eqb c " " || Ascii.eqb c LF || Ascii.eqb c CR || Ascii.eqb c "009".

Fixpoint skip_ws (s : string) : string :=
  match s with
  | EmptyString => EmptyString
  | String c s' => if is_ws c then skip_ws s' else s
  end.

Definition hex_value (c : ascii) : option N :=
  let n := N_of_ascii c in
  if ((48 <=? n) && (n <=? 57))%N then Some (n - 48)%N
  else if ((97 <=? n) && (n <=? 102))%N then Some (n - 87)%N
  else if ((65 <=? n) && (n <=? 70))%N then Some (n - 55)%N
  else None.

Definition hex4 (a b c d : ascii) : option N :=
  match hex_value a, hex_value b, hex_value c, hex_value d with
  | Some x, Some y, Some z, Some t => Some (((x * 16 + y) * 16 + z) * 16 + t)%N
  | _, _, _, _ => None
  end.

Definition byte (n : N) : string := String (ascii_of_N n) EmptyString.

(** The UTF-8 bytes of a code point. *)
Definition utf8 (cp : N) : string :=
  if (cp <? 128)%N then byte cp
  else if (cp <? 2048)%N then byte (192 + cp / 64) +:+ byte (128 + cp mod 64)
  else if ((56448 <=? cp) && (cp <=? 56575))%N then byte (cp - 56320)
  else if (cp <? 65536)%N
  then byte (224 + cp / 4096) +:+ byte (128 + cp / 64 mod 64) +:+ byte (128 + cp mod 64)
  else byte (240 + cp / 262144) +:+ byte (128 + cp / 4096 mod 64)
       +:+ byte (128 + cp / 64 mod 64) +:+ byte (128 + cp mod 64).

Definition is_high (n : N) : bool := ((55296 <=? n) && (n <=? 56319))%N.
Definition is_low (n : N) : bool := ((56320 <=? n) && (n <=? 57343))%N.

(** The character a two-character escape stands for. *)
Definition simple_escape (e : ascii) : option ascii :=
  if Ascii.eqb e (ascii_of_nat 34) then Some (ascii_of_nat 34)
  else if Ascii.eqb e (ascii_of_nat 92) then Some (ascii_of_nat 92)
  else if Ascii.eqb e "/" then Some "/"%char
  else if Ascii.eqb e "b" then Some "008"%char
  else if Ascii.eqb e "f" then Some "012"%char
  else if Ascii.eqb e "n" then Some LF
  else if Ascii.eqb e "r" then Some CR
  else if Ascii.eqb e "t" then Some "009"%char
  else None.

Definition flush (pending : option N) : string :=
  match pending with Some high => utf8 high | None => EmptyString end.

Definition emit (text : string) (r : option (string * string))
  : option (string * string) :=
  match r with
  | Some (s, rest) => Some (text +:+ s, rest)
  | None => None
  end.

(** The characters of a string up to its closing quote, and the text after
    it. [pending] is a high surrogate just read, which a low surrogate may
    follow. *)
Fixpoint read_chars (pending : option N) (s : string) : option (string * string) :=
  match s with
  | EmptyString => None
  | String c s1 =>
      if Ascii.eqb c (ascii_of_nat 34) then Some (flush pending, s1)
      else if Ascii.eqb c (ascii_of_nat 92) then
        match s1 with
        | EmptyString => None
        | String e s2 =>
            if Ascii.eqb e "u" then
              match s2 with
              | String h1 (String h2 (String h3 (String h4 s6))) =>
                  match hex4 h1 h2 h3 h4 with
                  | None => None
                  | Some n =>
                      match pending with
                      | Some high =>
                          if is_low n
                          then emit (utf8 (65536 + (high - 55296) * 1024 + (n - 56320))%N)
                                 (read_chars None s6)
                          else if is_high n
                          then emit (utf8 high) (read_chars (Some n) s6)
                          else emit (utf8 high +:+ utf8 n) (read_chars None s6)
                      | None =>
                          if is_high n then read_chars (Some n) s6
                          else emit (utf8 n) (read_chars None s6)
                      end
                  end
              | _ => None
              end
            else
              match simple_escape e with
              | Some ch =>
                  emit (flush pending +:+ String ch EmptyString) (read_chars None s2)
              | None => None
              end
        end
      else if (N_of_ascii c <? 32)%N then None
      else emit (flush pending +:+ String c EmptyString) (read_chars None s1)
  end.

(** A value, the items of an array after its bracket, the fields of an
    object after its brace; each with the text that follows. [fuel] bounds
    the number of nested calls. *)
Fixpoint read_value (fuel : nat) (s : string) : option (json * string) :=
  match fuel with
  | O => None
  | S fuel' =>
      match skip_ws s with
      | EmptyString => None
      | String c rest =>
          if Ascii.eqb c (ascii_of_nat 34) then
            match read_chars None rest with
            | Some (str, rest') => Some (JString str, rest')
            | None => None
            end
          else if Ascii.eqb c "[" then
            match skip_ws rest with
            | EmptyString => None
            | String c' rest' =>
                if Ascii.eqb c' "]" then Some (JArray [], rest')
                else match read_items fuel' rest with
                     | Some (items, rest'') => Some (JArray items, rest'')
                     | None => None
                     end
            end
          else if Ascii.eqb c "{" then
            match skip_ws rest with
            | EmptyString => None
            | String c' rest' =>
                if Ascii.eqb c' "}" then Some (JObject [], rest')
                else match read_fields fuel' rest with
                     | Some (fields, rest'') => Some (JObject fields, rest'')
                     | None => None
                     end
            end
          else None
      end
  end
with read_items (fuel : nat) (s : string) : option (list json * string) :=
  match fuel with
  | O => None
  | S fuel' =>
      match read_value fuel' s with
      | None => None
      | Some (item, rest) =>
          match skip_ws rest with
          | EmptyString => None
          | String c rest' =>
              if Ascii.eqb c "," then
                match read_items fuel' rest' with
                | Some (items, rest'') => Some (item :: items, rest'')
                | None => None
                end
              else if Ascii.eqb c "]" then Some ([item], rest')
              else None
          end
      end
  end
with read_fields (fuel : nat) (s : string) : option (list (string * json) * string) :=
  match fuel with
  | O => None
  | S fuel' =>
      match skip_ws s with
      | EmptyString => None
      | String c rest =>
          if negb (Ascii.eqb c (ascii_of_nat 34)) then None
          else
            match read_chars None rest with
            | None => None
            | Some (key, rest1) =>
                match skip_ws rest1 with
                | EmptyString => None
                | String c1 rest2 =>
                    if negb (Ascii.eqb c1 ":") then None
                    else
                      match read_value fuel' rest2 with
                      | None => None
                      | Some (value, rest3) =>
                          match skip_ws rest3 with
                          | EmptyString => None
                          | String c3 rest4 =>
                              if Ascii.eqb c3 "," then
                                match read_fields fuel' rest4 with
                                | Some (fields, rest5) =>
                                    Some ((key, value) :: fields, rest5)
                                | None => None
                                end
                              else if Ascii.eqb c3 "}" then Some ([(key, value)], rest4)
                              else None
                          end
                      end
                end
            end
      end
  end.

(** The value a whole text stands for, if it is JSON. *)
Definition loads (text : string) : option json :=
  match read_value (2 * String.length text + 1) text with
  | Some (value, rest) =>
      match skip_ws rest with
      | EmptyString => Some value
      | String _ _ => None
      end
  | None => None
  end.

End JsonReader.

(** ** Sample worlds *)

Module Sample.
Import MatchReader.

(** A tree with [/data/hosts.txt], three lines, the last one unterminated. *)
Definition hosts_text : string :=
  "example.com" +:+ String LF ("hello world" +:+ String CR (String LF "rocq.org")).

Definition hosts_fs : fsmap :=
  {[ [] := Dir true;
     ["data"] := Dir true;
     ["data"; "hosts.txt"] := File hosts_text true ]}.

Definition hosts_world : world := mkWorld hosts_fs ["data"] [] [] [].

(** A callback that returns the number of spaces in its line, an [int]. *)
Fixpoint count_spaces (s : string) : Z :=
  match s with
  | EmptyString => 0%Z
  | String c s' => ((if Ascii.eqb c " " then 1 else 0) + count_spaces s')%Z
  end.

Definition spaces_callback : pyfunc :=
  mkFunc "count_spaces"
    (fun args _ =>
       match args with
       | [PyStr line] => Ok (PyInt (count_spaces line))
       | _ => Raise (mkExn TypeError "count_spaces() takes one string")
       end).

Definition has_space (line : string) : bool := contains " " line.

End Sample.

Module ProjectSample.
Import Json VscodeProject.

(** The configuration of the running example: projects under [/r],
    workspace descriptors under [/w]. *)
Definition roots : config :=
  {[ "core" := {[ "repository" := "/r"; "workspace" := "/w" ]} ]}.

Definition config_text : string :=
  "[core]" +:+ String LF ("repository = /r" +:+ String LF "workspace = /w").

(** A [git] whose [init] adds the [.git] directory of the running example
    and whose other commands leave the tree alone; and one that always
    fails. *)
Definition git_works (command : string) (fs : fsmap) (cwd : list string)
  : fsmap * nat :=
  if String.eqb command "git init /r/foo"
  then (<[ ["r"; "foo"; ".git"] := Dir true ]> fs, 0)
  else (fs, 0).

Definition git_fails (command : string) (fs : fsmap) (cwd : list string)
  : fsmap * nat := (fs, 128).

Definition env_works : env :=
  mkEnv "/opt/tools/vscode-project.py" git_works (fun _ => inr roots).
Definition env_fails : env :=
  mkEnv "/opt/tools/vscode-project.py" git_fails (fun _ => inr roots).

Definition base_fs : fsmap :=
  {[ [] := Dir true;
     ["r"] := Dir true;
     ["w"] := Dir true;
     ["opt"] := Dir true;
     ["opt"; "tools"] := Dir true;
     ["opt"; "tools"; "config.ini"] := File config_text true ]}.

Definition world_of (fs : fsmap) : world := mkWorld fs ["home"] [] [] [].

(** Nothing of project foo exists. *)
Definition fresh : world := world_of base_fs.

(** Project foo exists, with a descriptor somebody has edited. *)
Definition with_foo : world :=
  world_of (<[ ["r"; "foo"] := Dir true ]>
            (<[ ["w"; "foo.code-workspace"] := File "edited" true ]> base_fs)).

(** Only the descriptor of foo is left. *)
Definition descriptor_only : world :=
  world_of (<[ ["w"; "foo.code-workspace"] := File "stale" true ]> base_fs).

(** Project foo, its directory write-protected with a file inside. *)
Definition protected_dir : world :=
  world_of (<[ ["r"; "foo"] := Dir false ]>
            (<[ ["r"; "foo"; "README.md"] := File "" true ]>
             (<[ ["w"; "foo.code-workspace"] := File "stale" true ]> base_fs))).

(** Project foo, the workspace root write-protected. *)
Definition protected_workspace : world :=
  world_of (<[ ["w"] := Dir false ]>
            (<[ ["r"; "foo"] := Dir true ]>
             (<[ ["w"; "foo.code-workspace"] := File "stale" true ]> base_fs))).

(** A tree without the configuration file. *)
Definition no_config : world := world_of {[ [] := Dir true ]}.

(** A parser for the command lines of the examples. On one argument that
    does not start with a hyphen, with [-c] or [--clean] before or after
    it or without, and on the empty command line, it answers as [argparse]
    does for the parser of [main]. What it answers on other command lines
    (the help option among them) is its own; no example uses them. *)
Definition parse_sample (argv : list string) : parsed :=
  let flag a := String.eqb a "-c" || String.eqb a "--clean" in
  let positional a := negb (starts_with "-" a) in
  match argv with
  | [a] => if positional a then Parsed (mkArgs a false) else ParserExit 2 []
  | [a; b] =>
      if flag a && positional b then Parsed (mkArgs b true)
      else if positional a && flag b then Parsed (mkArgs a true)
      else ParserExit 2 []
  | _ => ParserExit 2 []
  end.

(** The JSON text the specification gives for the descriptor of foo. *)
Definition foo_compact : string :=
  "{" +:+ DQ +:+ "folders" +:+ DQ +:+ ":[{" +:+ DQ +:+ "path" +:+ DQ +:+ ":"
  +:+ DQ +:+ "/r/foo" +:+ DQ +:+ "," +:+ DQ +:+ "name" +:+ DQ +:+ ":"
  +:+ DQ +:+ "foo" +:+ DQ +:+ "}]}".

(** The descriptor of the running example, as a JSON value and as text. *)
Definition foo_workspace : json :=
  JObject [("folders",
            JArray [JObject [("path", JString "/r/foo"); ("name", JString "foo")]])].

Definition foo_descriptor : string := dumps 4 0 foo_workspace.

(** The same text, line by line; [quoted s] is [s] between double quotes. *)
Definition quoted (s : string) : string := DQ +:+ s +:+ DQ.

Definition foo_descriptor_lines : list string :=
  [ "{";
    "    " +:+ quoted "folders" +:+ ": [";
    "        {";
    "            " +:+ quoted "path" +:+ ": " +:+ quoted "/r/foo" +:+ ",";
    "            " +:+ quoted "name" +:+ ": " +:+ quoted "foo";
    "        }";
    "    ]";
    "}" ].

End ProjectSample.

(** ** Further notions used by the properties below *)

Module MoreWords.

(** The text holds neither a newline nor a carriage return. *)
Definition no_line_break (s : string) : bool :=
  negb (contains LF s) && negb (contains CR s).

(** All the bytes of the text are ASCII. *)
Fixpoint is_ascii_text (s : string) : bool :=
  match s with
  | EmptyString => true
  | String c s' => (nat_of_ascii c <? 128)%nat && is_ascii_text s'
  end.


(** A path component that is a plain name: not empty, not [.] or [..], and
    without a slash. *)
Definition plain (c : string) : bool :=
  real_part c && negb (String.eqb c "..") && negb (contains "/" c).

(** A path as [Path_of] and [joinpath] build it: one of the three roots,
    and components that are not empty, not [.], and hold no slash. *)
Definition path_ok (p : Path) : Prop :=
  (p_root p = EmptyString \/ p_root p = "/" \/ p_root p = "//")
  /\ Forall (fun c => real_part c = true /\ contains "/" c = false) (p_parts p).

(** The directories [pre/c1], [pre/c1/c2], ... down to [pre/rest] all
    exist. *)
Fixpoint dirs_along (fs : fsmap) (pre rest : list string) : bool :=
  match rest with
  | [] => true
  | c :: rest' =>
      match fs !! (pre ++ [c]) with
      | Some (Dir _) => dirs_along fs (pre ++ [c]) rest'
      | _ => false
      end
  end.

(** The tree after a successful [touch] of location [k]. *)
Definition touched (fs : fsmap) (k : list string) : fsmap :=
  match fs !! k with
  | Some _ => fs
  | None => <[k := File EmptyString true]> fs
  end.

End MoreWords.

Module MoreSample.
Import MatchReader.

(** A callback that looks its line up in a second file, which is not
    there: it raises [FileNotFoundError] on every line. *)
Definition lookup_callback : pyfunc :=
  mkFunc "lookup"
    (fun _ _ => Raise (enoent "index.txt")).

(** A callback that fails with a [ValueError] on lines with a space. *)
Definition strict_callback : pyfunc :=
  mkFunc "strict"
    (fun args _ =>
       match args with
       | [PyStr line] =>
           if contains " " line
           then Raise (mkExn (OtherError "ValueError") "space in line")
           else Ok (PyBool true)
       | _ => Raise (mkExn TypeError "strict() takes one string")
       end).

(** A callback that returns a [bool] on lines without a space and the
    number of spaces on the others. *)
Definition mixed_callback : pyfunc :=
  mkFunc "mixed"
    (fun args _ =>
       match args with
       | [PyStr line] =>
           if contains " " line
           then Ok (PyInt (Sample.count_spaces line))
           else Ok (PyBool true)
       | _ => Raise (mkExn TypeError "mixed() takes one string")
       end).

(** An environment whose configuration file does not parse. *)
Definition env_bad_ini : VscodeProject.env :=
  VscodeProject.mkEnv "/opt/tools/vscode-project.py" ProjectSample.git_works
    (fun _ => inl "File contains no section headers.").

(** A tree in which [config.ini] is a directory. *)
Definition config_is_dir : world :=
  ProjectSample.world_of
    (<[ ["opt"; "tools"; "config.ini"] := Dir true ]> ProjectSample.base_fs).

(** A configuration with the section and one of the two roots only. *)
Definition only_repository : VscodeProject.config :=
  {[ "core" := {[ "repository" := "/r" ]} ]}.


(** The tree [git init /r/foo] of the running example leaves. *)
Definition foo_initialised : fsmap :=
  <[ ["r"; "foo"; ".git"] := Dir true ]>
    (<[ ["r"; "foo"] := Dir true ]> ProjectSample.base_fs).

End MoreSample.

(** * Properties of the line filter *)

Module MatchReaderSpec.
Import MatchReader SpecWords.

Lemma append_cons (c : ascii) (s t : string) :
  String c s +:+ t = String c (s +:+ t).
Proof. reflexivity. Qed.

Lemma append_empty_r (s : string) : s +:+ EmptyString = s.
Proof. induction s as [|c s IH]; [reflexivity|]. rewrite append_cons. congruence. Qed.

Lemma contains_cons (c d : ascii) (s : string) :
  contains c (String d s) = Ascii.eqb c d || contains c s.
Proof. reflexivity. Qed.

Lemma contains_drop_last (c : ascii) (s : string) :
  contains c s = contains c (drop_last s)
                 || match s with
                    | EmptyString => false
                    | _ => Ascii.eqb c (List.last (list_ascii_of_string s) c)
                    end.
Proof.
  induction s as [|d s IH]; [reflexivity|].
  destruct s as [|d' s'].
  - simpl. now rewrite orb_false_r.
  - change (contains c (String d (String d' s')))
      with (Ascii.eqb c d || contains c (String d' s')).
    rewrite IH.
    change (drop_last (String d (String d' s')))
      with (String d (drop_last (String d' s'))).
    change (contains c (String d (drop_last (String d' s'))))
      with (Ascii.eqb c d || contains c (drop_last (String d' s'))).
    rewrite orb_assoc. reflexivity.
Qed.

Lemma ends_with_newline_last (s : string) :
  ends_with_newline s
  = match s with
    | EmptyString => false
    | _ => Ascii.eqb LF (List.last (list_ascii_of_string s) LF)
    end.
Proof.
  induction s as [|d s IH]; [reflexivity|].
  destruct s as [|d' s'].
  - simpl. apply Ascii.eqb_sym.
  - change (ends_with_newline (String d (String d' s')))
      with (ends_with_newline (String d' s')).
    rewrite IH. reflexivity.
Qed.

(** On a line whose only newline, if any, is its last character, the
    expression of the source strips the trailing newline. *)
Lemma strip_line_newline_stripped (line : string) :
  contains LF (drop_last line) = false ->
  strip_line line = newline_stripped line.
Proof.
  intros Hbody. unfold strip_line, newline_stripped.
  rewrite contains_drop_last, Hbody, ends_with_newline_last.
  reflexivity.
Qed.

(** Iterating over a file gives lines that hold no newline before their
    last character. *)
Lemma iter_lines_shape (s : string) :
  Forall (fun line => contains LF (drop_last line) = false) (iter_lines s).
Proof.
  induction s as [|c s IH]; simpl; [constructor|].
  destruct (Ascii.eqb c LF) eqn:Hc.
  - constructor; [reflexivity | exact IH].
  - destruct (iter_lines s) as [|line rest]; [repeat constructor|].
    inversion IH as [|? ? Hline Hrest]; subst.
    constructor; [|exact Hrest].
    destruct line as [|d line']; [reflexivity|].
    change (drop_last (String c (String d line')))
      with (String c (drop_last (String d line'))).
    rewrite contains_cons, Ascii.eqb_sym, Hc. exact Hline.
Qed.

(** The lines, put end to end, are the text that was read. *)
Lemma iter_lines_concat (s : string) :
  String.concat EmptyString (iter_lines s) = s.
Proof.
  assert (Hcons : forall l r, String.concat EmptyString (l :: r)
                              = l +:+ String.concat EmptyString r).
  { intros l [|x r]; simpl; [symmetry; apply append_empty_r | reflexivity]. }
  induction s as [|c s IH]; [reflexivity|].
  simpl iter_lines. destruct (Ascii.eqb c LF) eqn:Hc.
  - apply Ascii.eqb_eq in Hc. subst c. rewrite Hcons, IH. reflexivity.
  - destruct (iter_lines s) as [|line rest].
    + simpl in IH. subst s. reflexivity.
    + rewrite Hcons in *. rewrite append_cons. now rewrite IH.
Qed.

(** No line is empty, and only the last one may lack its newline. *)
Lemma iter_lines_terminated (s : string) (front : list string) (line next : string)
    (back : list string) :
  iter_lines s = front ++ line :: next :: back ->
  ends_with_newline line = true.
Proof.
  revert front line next back.
  induction s as [|c s IH]; intros front line next back Heq; simpl in Heq.
  - destruct front; discriminate.
  - destruct (Ascii.eqb c LF) eqn:Hc.
    + destruct front as [|f front]; simpl in Heq; inversion Heq; subst.
      * reflexivity.
      * eapply IH; eassumption.
    + destruct (iter_lines s) as [|l0 rest] eqn:Hs.
      * destruct front as [|f [|f' front]]; simpl in Heq; inversion Heq.
      * destruct front as [|f front]; simpl in Heq; inversion Heq; subst.
        -- specialize (IH [] l0 next back eq_refl).
           destruct l0; [discriminate | exact IH].
        -- apply (IH (l0 :: front) line next back). reflexivity.
Qed.

(** A callback that returns on every line keeps the lines it finds true. *)
Lemma comprehension_total (cb : pyfunc) (P : string -> bool) (lines : list string) :
  (forall line, In line lines ->
     exists v, fn_call cb [PyStr line] [] = Ok v /\ truthy v = P line) ->
  comprehension cb lines = Ok (List.map strip_line (List.filter P lines)).
Proof.
  induction lines as [|line rest IH]; intros Hcb; [reflexivity|].
  destruct (Hcb line (or_introl eq_refl)) as (v & Hv & Htruth).
  simpl. rewrite Hv, IH by (intros l Hl; apply Hcb; now right).
  rewrite Htruth. now destruct (P line).
Qed.

Lemma map_strip_line (P : string -> bool) (content : string) :
  List.map strip_line (List.filter P (file_lines content))
  = List.map newline_stripped (List.filter P (file_lines content)).
Proof.
  apply map_ext_in. intros line Hin.
  apply strip_line_newline_stripped.
  apply List.filter_In in Hin. destruct Hin as [Hin _].
  pose proof (iter_lines_shape (universal_newlines content)) as Hshape.
  rewrite List.Forall_forall in Hshape. now apply Hshape.
Qed.

Lemma filter_all {A} (l : list A) : List.filter (fun _ => true) l = l.
Proof. induction l; simpl; congruence. Qed.

(** C1. For every file and every predicate that answers on each of its
    lines, [read_lines] returns the lines of the file (as iteration over
    the file gives them) for which the predicate is true, in file order,
    each with its trailing newline stripped; without a predicate it returns
    every line, newline-stripped. Nothing is printed and the tree is left
    as it was. *)
Theorem read_lines_filters (w : world) (file_path content : string) (wr : bool)
    (match_callback : pyfunc) (P : string -> bool) :
  node_at (w_fs w) (w_cwd w) file_path = Some (File content wr) ->
  (forall line, In line (file_lines content) ->
     exists v, fn_call match_callback [PyStr line] [] = Ok v /\ truthy v = P line) ->
  read_lines file_path (Some match_callback) w
  = (Ok (Some (List.map newline_stripped (List.filter P (file_lines content)))),
     add_event (EvOpenRead file_path) w)
  /\ read_lines file_path None w
     = (Ok (Some (List.map newline_stripped (file_lines content))),
        add_event (EvOpenRead file_path) w).
Proof.
  intros Hfile Hcb.
  assert (Hread : read_file (w_fs w) (w_cwd w) file_path = inr content).
  { unfold node_at in Hfile. unfold read_file.
    destruct (resolve (w_cwd w) file_path); [|discriminate]. now rewrite Hfile. }
  unfold read_lines, os_read. rewrite Hread. simpl. split.
  - rewrite (comprehension_total match_callback P) by exact Hcb.
    now rewrite map_strip_line.
  - rewrite (comprehension_total default_callback (fun _ => true)).
    + rewrite map_strip_line, filter_all. reflexivity.
    + intros line _. exists (PyBool true). split; reflexivity.
Qed.

Lemma read_lines_filters_witness :
  read_lines "hosts.txt" (Some Sample.spaces_callback) Sample.hosts_world
  = (Ok (Some ["hello world"]), add_event (EvOpenRead "hosts.txt") Sample.hosts_world)
  /\ read_lines "hosts.txt" None Sample.hosts_world
     = (Ok (Some ["example.com"; "hello world"; "rocq.org"]),
        add_event (EvOpenRead "hosts.txt") Sample.hosts_world).
Proof.
  apply (read_lines_filters Sample.hosts_world "hosts.txt" Sample.hosts_text true
           Sample.spaces_callback Sample.has_space).
  - vm_compute. reflexivity.
  - intros line Hin. exists (PyInt (Sample.count_spaces line)). split; [reflexivity|].
    vm_compute in Hin.
    repeat (destruct Hin as [<-|Hin]; [vm_compute; reflexivity|]).
    destruct Hin.
Defined.

(** C9, as the code has it. [read_lines] catches [FileNotFoundError] and
    nothing else. Whatever exception [open] raises: if it is a
    [FileNotFoundError], [read_lines] prints that the file was not found
    and returns [None], with or without a callback; any other exception
    leaves [read_lines] as it is and nothing is printed. On the tree, for
    a path the system takes as it is written: where the system finds
    nothing at the path (no entry, no regular file on the way), the result
    is [None], not the empty list, and nothing is raised; where the path
    names no existing file in another way (a directory, or a path through
    a regular file), an [IsADirectoryError] or a [NotADirectoryError]
    leaves [read_lines]. *)
Theorem read_lines_missing_file (w : world) (file_path : string)
    (match_callback : option pyfunc) :
  let opened := add_event (EvOpenRead file_path) w in
  let reported : result (option (list string)) * world :=
    (Ok None, add_stdout ("File '" +:+ file_path +:+ "' not found.") opened) in
  (forall e, read_file (w_fs w) (w_cwd w) file_path = inl e ->
     read_lines file_path match_callback w
     = if is_FileNotFoundError (exn_cls e) then reported else (Raise e, opened))
  /\ (taken_as_written file_path = true ->
      not_found (w_fs w) (w_cwd w) file_path ->
      read_lines file_path match_callback w = reported
      /\ fst (read_lines file_path match_callback w) <> Ok (Some []))
  /\ (taken_as_written file_path = true ->
      names_no_file (w_fs w) (w_cwd w) file_path ->
      ~ not_found (w_fs w) (w_cwd w) file_path ->
      exists e,
        read_lines file_path match_callback w = (Raise e, opened)
        /\ (exn_cls e = IsADirectoryError \/ exn_cls e = NotADirectoryError)).
Proof.
  intros opened reported.
  assert (Hopen : forall e, read_file (w_fs w) (w_cwd w) file_path = inl e ->
            read_lines file_path match_callback w
            = if is_FileNotFoundError (exn_cls e) then reported else (Raise e, opened)).
  { intros e Hread. unfold read_lines, os_read. rewrite Hread.
    now destruct (is_FileNotFoundError (exn_cls e)). }
  split; [exact Hopen|]. split.
  - intros _ Hnone.
    assert (Hread : read_file (w_fs w) (w_cwd w) file_path = inl (enoent file_path)).
    { unfold not_found in Hnone. unfold read_file.
      destruct (resolve (w_cwd w) file_path); [|reflexivity].
      destruct Hnone as [-> ->]. reflexivity. }
    rewrite (Hopen _ Hread). split; [reflexivity | discriminate].
  - intros _ Hno Hfound. unfold names_no_file, node_at in Hno.
    unfold not_found in Hfound.
    destruct (resolve (w_cwd w) file_path) as [k|] eqn:Hk; [|now destruct Hfound].
    destruct (w_fs w !! k) as [[content wr|d]|] eqn:Hnode.
    + destruct Hno.
    + exists (eisdir file_path). split; [|now left].
      apply (Hopen (eisdir file_path)). unfold read_file. now rewrite Hk, Hnode.
    + destruct (through_file (w_fs w) k) eqn:Hthrough.
      * exists (enotdir file_path). split; [|now right].
        apply (Hopen (enotdir file_path)). unfold read_file.
        now rewrite Hk, Hnode, Hthrough.
      * destruct Hfound. now split.
Qed.

Lemma read_lines_missing_file_witness :
  read_lines "absent.txt" None Sample.hosts_world
  = (Ok None,
     add_stdout "File 'absent.txt' not found."
       (add_event (EvOpenRead "absent.txt") Sample.hosts_world))
  /\ fst (read_lines "absent.txt" None Sample.hosts_world) <> Ok (Some []).
Proof.
  destruct (read_lines_missing_file Sample.hosts_world "absent.txt" None)
    as (_ & Hmissing & _).
  apply Hmissing; [reflexivity|]. split; reflexivity.
Defined.

(** C9 as the specification states it fails. Two paths that name no
    existing file, one through a regular file and one that is a directory:
    [read_lines] does not return [None] for them, it raises
    [NotADirectoryError] and [IsADirectoryError], and prints nothing. *)
Lemma read_lines_not_a_file_raises :
  let through := read_lines "hosts.txt/x" None Sample.hosts_world in
  let directory := read_lines "/data" None Sample.hosts_world in
  names_no_file Sample.hosts_fs ["data"] "hosts.txt/x"
  /\ fst through = Raise (enotdir "hosts.txt/x")
  /\ fst through <> Ok None
  /\ w_stdout (snd through) = []
  /\ names_no_file Sample.hosts_fs ["data"] "/data"
  /\ fst directory = Raise (eisdir "/data")
  /\ fst directory <> Ok None
  /\ w_stdout (snd directory) = [].
Proof. repeat split; try reflexivity; discriminate. Qed.

(** C10. For every function and every input on which it returns: when the
    value is not a [bool] the decorated function raises a [TypeError] whose
    message names the function, and when it is a [bool] the decorated
    function returns that very value. The decorated function keeps the
    name. *)
Theorem validate_bool_checks_result (func : pyfunc) (args : list pyval)
    (kwargs : list (string * pyval)) (v : pyval) :
  fn_call func args kwargs = Ok v ->
  fn_name (validate_bool func) = fn_name func
  /\ ((forall b, v <> PyBool b) ->
      fn_call (validate_bool func) args kwargs
      = Raise (mkExn TypeError (fn_name func +:+ " must return a boolean value.")))
  /\ (forall b, v = PyBool b ->
      fn_call (validate_bool func) args kwargs = Ok (PyBool b)).
Proof.
  intros Hcall. split; [reflexivity|]. simpl. rewrite Hcall. split.
  - intros Hnot. destruct v; try reflexivity. now destruct (Hnot b).
  - intros b ->. reflexivity.
Qed.

Lemma validate_bool_checks_result_witness :
  fn_call (validate_bool Sample.spaces_callback) [PyStr "a b"] []
  = Raise (mkExn TypeError "count_spaces must return a boolean value.").
Proof.
  apply (validate_bool_checks_result Sample.spaces_callback [PyStr "a b"] [] (PyInt 1)).
  - reflexivity.
  - intros b. discriminate.
Defined.

End MatchReaderSpec.

(** * Properties of the project scaffolder *)

Module VscodeProjectSpec.
Import Re Json VscodeProject SpecWords.

(** ** Running a computation step by step *)

Lemma run_bind {A B} (c : M A) (k : A -> M B) (w : world) :
  (c ≫= k) w
  = match c w with
    | (Ok a, w') => k a w'
    | (Raise e, w') => (Raise e, w')
    | (Exit code, w') => (Exit code, w')
    end.
Proof. reflexivity. Qed.

Lemma run_config_get (cfg : config) (section option value : string)
    (options : gmap string string) (w : world) :
  cfg !! section = Some options ->
  options !! option = Some value ->
  config_get cfg section option w = (Ok value, w).
Proof. intros Hs Ho. unfold config_get. now rewrite Hs, Ho. Qed.

Lemma run_roots {B} (cfg : config) (repository workspace : string)
    (k : string -> string -> M B) (w : world) :
  has_roots cfg repository workspace ->
  (r ← config_get cfg CONFIG_CORE CONFIG_CORE_REPOSITORY;
   s ← config_get cfg CONFIG_CORE CONFIG_CORE_WORKSPACE;
   k r s) w
  = k repository workspace w.
Proof.
  intros (options & Hcore & Hrepo & Hwork).
  rewrite run_bind, (run_config_get _ _ _ _ _ _ Hcore Hrepo).
  rewrite run_bind, (run_config_get _ _ _ _ _ _ Hcore Hwork).
  reflexivity.
Qed.

Lemma run_path_exists (path : string) (w : world) :
  path_exists path w
  = (Ok (bool_decide (is_Some (node_at (w_fs w) (w_cwd w) path))),
     add_event (EvStat path) w).
Proof. reflexivity. Qed.

Lemma run_exists_bind {B} (path : string) (k : bool -> M B) (w : world) :
  (path_exists path ≫= k) w
  = k (bool_decide (is_Some (node_at (w_fs w) (w_cwd w) path)))
      (add_event (EvStat path) w).
Proof. reflexivity. Qed.

Lemma run_ret_bind {A B} (a : A) (k : A -> M B) (w : world) :
  (mret a ≫= k) w = k a w.
Proof. reflexivity. Qed.

Lemma run_log_bind {B} (msg : string) (k : unit -> M B) (w : world) :
  (print_action msg ≫= k) w = k tt (add_log msg w).
Proof. reflexivity. Qed.

Lemma run_print_action (msg : string) (w : world) :
  print_action msg w = (Ok tt, add_log msg w).
Proof. reflexivity. Qed.

Lemma run_error_exit {A} (msg : string) (w : world) :
  @error_exit A msg w = (Exit 1, add_log msg w).
Proof. reflexivity. Qed.

Lemma run_fs_call (ev : event) (op : fsmap -> list string -> string -> exn + fsmap)
    (path : string) (w : world) :
  fs_call ev op path w
  = match op (w_fs w) (w_cwd w) path with
    | inl e => (Raise e, add_event ev w)
    | inr fs' => (Ok tt, set_fs fs' (add_event ev w))
    end.
Proof. reflexivity. Qed.

Lemma run_bind_assoc {A B C} (c : M A) (f : A -> M B) (g : B -> M C) (w : world) :
  ((c ≫= f) ≫= g) w = (c ≫= (fun a => f a ≫= g)) w.
Proof. rewrite !run_bind. destruct (c w) as [[a|e|code] w']; reflexivity. Qed.

Lemma exists_none : bool_decide (is_Some (@None node)) = false.
Proof. reflexivity. Qed.

Lemma exists_some (n : node) : bool_decide (is_Some (Some n)) = true.
Proof. reflexivity. Qed.

Lemma run_except_bind {A B} (body : M A) (handler : exn -> M A) (k : A -> M B)
    (w : world) :
  (except_OSError body handler ≫= k) w
  = match body w with
    | (Ok a, w') => k a w'
    | (Raise e, w') =>
        if is_OSError (exn_cls e) then (handler e ≫= k) w' else (Raise e, w')
    | (Exit code, w') => (Exit code, w')
    end.
Proof.
  rewrite run_bind. unfold except_OSError.
  destruct (body w) as [[a|e|code] w']; try reflexivity.
  destruct (is_OSError (exn_cls e)); [now rewrite run_bind | reflexivity].
Qed.

Lemma parent_error_writable (fs : fsmap) (k : list string) (path : string) :
  k <> [] -> fs !! removelast k = Some (Dir true) -> parent_error fs k path = None.
Proof. intros Hne Hp. destruct k; [done|]. unfold parent_error. now rewrite Hp. Qed.

Lemma unlink_file (fs : fsmap) (cwd k : list string) (path content : string) (wr : bool) :
  resolve cwd path = Some k ->
  fs !! k = Some (File content wr) ->
  k <> [] ->
  fs !! removelast k = Some (Dir true) ->
  unlink fs cwd path = inr (delete k fs).
Proof.
  intros Hk Hfile Hne Hparent. unfold unlink.
  now rewrite Hk, Hfile, (parent_error_writable _ _ _ Hne Hparent).
Qed.

(** Unfold the world after a step. *)
Ltac world_simpl :=
  cbn [w_fs w_cwd w_stdout w_log w_trace add_event add_log add_stdout set_fs
       fst snd negb].

(** Two descriptions of the same world. *)
Ltac world_eq :=
  unfold add_log, add_event, add_stdout, set_fs;
  cbn [w_fs w_cwd w_stdout w_log w_trace];
  rewrite <- ?app_assoc; reflexivity.

(** Replace the file-system call a hypothesis branches on by the tree it
    gives. *)
Ltac run_match H fs' :=
  match type of H with
  | match ?call with inl _ => _ | inr _ => _ end =>
      let Hcall := fresh "Hcall" in
      assert (Hcall : call = inr fs') by reflexivity;
      rewrite Hcall in H; clear Hcall
  end.

Ltac run_step :=
  first [ rewrite run_bind_assoc
        | rewrite run_exists_bind
        | rewrite run_ret_bind
        | rewrite run_log_bind
        | rewrite run_print_action
        | rewrite run_error_exit ];
  world_simpl.

Lemma run_fs_call_bind {B : Type} (ev : event)
    (op : fsmap -> list string -> string -> exn + fsmap) (path : string)
    (k : unit -> M B) (w : world) :
  (fs_call ev op path ≫= k) w
  = match op (w_fs w) (w_cwd w) path with
    | inl e => (Raise e, add_event ev w)
    | inr fs' => k tt (set_fs fs' (add_event ev w))
    end.
Proof.
  rewrite run_bind, run_fs_call.
  destruct (op (w_fs w) (w_cwd w) path); reflexivity.
Qed.

Lemma write_file_lookup (content : string) (fs fs' : fsmap) (cwd : list string)
    (path : string) :
  write_file content fs cwd path = inr fs' ->
  exists k, resolve cwd path = Some k /\ fs' = <[k := File content true]> fs.
Proof.
  unfold write_file. intros Hw.
  destruct (resolve cwd path) as [k|]; [|discriminate].
  exists k. split; [reflexivity|].
  destruct (fs !! k) as [[c [|]|d]|]; try discriminate.
  - now inversion Hw.
  - destruct (parent_error fs k path); [discriminate | now inversion Hw].
Qed.

Lemma bind_ok_inv {A B : Type} (c : M A) (k : A -> M B) (w w' : world) (b : B) :
  (c ≫= k) w = (Ok b, w') ->
  exists a w1, c w = (Ok a, w1) /\ k a w1 = (Ok b, w').
Proof.
  rewrite run_bind. destruct (c w) as [[a|e|code] w1]; try discriminate.
  intros Hk. now exists a, w1.
Qed.

Lemma fs_call_ok_inv (ev : event) (op : fsmap -> list string -> string -> exn + fsmap)
    (path : string) (w w' : world) (u : unit) :
  fs_call ev op path w = (Ok u, w') ->
  exists fs', op (w_fs w) (w_cwd w) path = inr fs'
              /\ w' = set_fs fs' (add_event ev w).
Proof.
  rewrite run_fs_call. destruct (op (w_fs w) (w_cwd w) path) as [e|fs'];
    [discriminate|].
  intros Heq. exists fs'. split; [reflexivity | now inversion Heq].
Qed.

(** [mkdir -p] leaves a directory at the place it was asked for. *)
Lemma mkdir_from_creates (path : string) (rest : list string) :
  forall (fs fs' : fsmap) (pre : list string),
    rest <> [] ->
    mkdir_from path fs pre rest = inr fs' ->
    exists d, fs' !! (pre ++ rest) = Some (Dir d).
Proof.
  induction rest as [|c rest IH]; intros fs fs' pre Hne Hmk; [done|].
  cbn [mkdir_from] in Hmk.
  replace (pre ++ c :: rest) with ((pre ++ [c]) ++ rest)
    by now rewrite <- app_assoc.
  destruct (fs !! (pre ++ [c])) as [[content wr|d]|] eqn:Hk.
  - discriminate.
  - destruct rest as [|c' rest'].
    + inversion Hmk; subst. rewrite app_nil_r. eauto.
    + apply (IH fs fs' (pre ++ [c])); [discriminate | exact Hmk].
  - destruct (parent_error fs (pre ++ [c]) path); [discriminate|].
    destruct rest as [|c' rest'].
    + inversion Hmk; subst. rewrite app_nil_r, lookup_insert_eq. eauto.
    + apply (IH (<[pre ++ [c] := Dir true]> fs) fs' (pre ++ [c]));
        [discriminate | exact Hmk].
Qed.

(** [touch] changes nothing but, at most, the entry it was asked for. *)
Lemma touch_other (fs fs' : fsmap) (cwd k k' : list string) (path : string) :
  touch fs cwd path = inr fs' ->
  resolve cwd path = Some k ->
  k' <> k ->
  fs' !! k' = fs !! k'.
Proof.
  unfold touch. intros Ht Hk Hne. rewrite Hk in Ht.
  destruct (fs !! k); [now inversion Ht|].
  destruct (parent_error fs k path); [discriminate|].
  inversion Ht; subst. now rewrite lookup_insert_ne.
Qed.

(** ** The text of the descriptor *)

Lemma append_assoc (a b c : string) : (a +:+ b) +:+ c = a +:+ (b +:+ c).
Proof.
  induction a as [|x a IH]; [reflexivity|].
  change (String x ((a +:+ b) +:+ c) = String x (a +:+ (b +:+ c))).
  now rewrite IH.
Qed.

Lemma append_empty_l (s : string) : EmptyString +:+ s = s.
Proof. reflexivity. Qed.

Lemma code_points_ascii (c : ascii) (s : string) :
  (nat_of_ascii c <? 128)%nat = true ->
  code_points (String c s) = N_of_ascii c :: code_points s.
Proof.
  intros Hc. unfold code_points. cbn [list_ascii_of_string List.map decode].
  assert (H : (N_of_ascii c <? 128)%N = true).
  { apply Nat.ltb_lt in Hc. apply N.ltb_lt. unfold nat_of_ascii in Hc. lia. }
  now rewrite H.
Qed.

Lemma concat_cons (x : string) (xs : list string) :
  String.concat EmptyString (x :: xs) = x +:+ String.concat EmptyString xs.
Proof.
  destruct xs; [symmetry; apply MatchReaderSpec.append_empty_r | reflexivity].
Qed.

Lemma quote_unfold (s : string) :
  quote s
  = DQ +:+ String.concat EmptyString (List.map escape_char (code_points s)) +:+ DQ.
Proof. reflexivity. Qed.

(** The reader takes back what [escape_char] wrote for an ASCII character. *)
Lemma read_escaped_char (c : ascii) (tail : string) :
  (nat_of_ascii c <? 128)%nat = true ->
  JsonReader.read_chars None (escape_char (N_of_ascii c) +:+ tail)
  = JsonReader.emit (String c EmptyString) (JsonReader.read_chars None tail).
Proof.
  destruct c as [b0 b1 b2 b3 b4 b5 b6 b7].
  destruct b7; [destruct b0, b1, b2, b3, b4, b5, b6; discriminate|].
  intros _.
  destruct b0, b1, b2, b3, b4, b5, b6; reflexivity.
Qed.

(** And so the characters of an ASCII string, up to the closing quote. *)
Lemma read_escaped (s rest : string) :
  MoreWords.is_ascii_text s = true ->
  JsonReader.read_chars None
    (String.concat EmptyString (List.map escape_char (code_points s))
     +:+ String (ascii_of_nat 34) rest)
  = Some (s, rest).
Proof.
  induction s as [|c s IH]; intros Hs.
  - reflexivity.
  - cbn [MoreWords.is_ascii_text] in Hs. apply andb_true_iff in Hs as [Hc Hs].
    rewrite (code_points_ascii c s Hc).
    cbn [List.map]. rewrite concat_cons, append_assoc.
    rewrite (read_escaped_char c _ Hc).
    now rewrite (IH Hs).
Qed.

(** [json.dump] of the workspace data, line by line. *)
Lemma descriptor_text_lines (p n : string) :
  dumps 4 0 (JObject [("folders",
                       JArray [JObject [("path", JString p); ("name", JString n)]])])
  = join (String LF EmptyString) (descriptor_lines (quote p) (quote n)).
Proof.
  cbn [dumps List.map join String.concat descriptor_lines].
  unfold newline_indent. cbn [Nat.mul Nat.add spaces].
  change (quote "folders") with (DQ +:+ "folders" +:+ DQ).
  change (quote "path") with (DQ +:+ "path" +:+ DQ).
  change (quote "name") with (DQ +:+ "name" +:+ DQ).
  rewrite !append_assoc.
  rewrite ?MatchReaderSpec.append_cons, ?append_empty_l.
  reflexivity.
Qed.

Section Reading.

Import JsonReader.

Variable fuel : nat.

Lemma read_string_value (t chars str rest : string) :
  skip_ws t = String (ascii_of_nat 34) chars ->
  read_chars None chars = Some (str, rest) ->
  read_value (S fuel) t = Some (JString str, rest).
Proof. intros Ht Hchars. cbn [read_value]. rewrite Ht. cbn. now rewrite Hchars. Qed.

Lemma read_object_value (t body after rest : string) (c : ascii)
    (fields : list (string * json)) :
  skip_ws t = String "{" body ->
  skip_ws body = String c after ->
  Ascii.eqb c "}" = false ->
  read_fields fuel body = Some (fields, rest) ->
  read_value (S fuel) t = Some (JObject fields, rest).
Proof.
  intros Ht Hbody Hc Hfields. cbn [read_value]. rewrite Ht. cbn.
  now rewrite Hbody, Hc, Hfields.
Qed.

Lemma read_array_value (t body after rest : string) (c : ascii) (items : list json) :
  skip_ws t = String "[" body ->
  skip_ws body = String c after ->
  Ascii.eqb c "]" = false ->
  read_items fuel body = Some (items, rest) ->
  read_value (S fuel) t = Some (JArray items, rest).
Proof.
  intros Ht Hbody Hc Hitems. cbn [read_value]. rewrite Ht. cbn.
  now rewrite Hbody, Hc, Hitems.
Qed.

Lemma read_last_item (s after rest : string) (item : json) :
  read_value fuel s = Some (item, after) ->
  skip_ws after = String "]" rest ->
  read_items (S fuel) s = Some ([item], rest).
Proof. intros Hitem Hafter. cbn [read_items]. now rewrite Hitem, Hafter. Qed.

Lemma read_field_more (s chars key after_key after_colon after_value more rest : string)
    (value : json) (fields : list (string * json)) :
  skip_ws s = String (ascii_of_nat 34) chars ->
  read_chars None chars = Some (key, after_key) ->
  skip_ws after_key = String ":" after_colon ->
  read_value fuel after_colon = Some (value, after_value) ->
  skip_ws after_value = String "," more ->
  read_fields fuel more = Some (fields, rest) ->
  read_fields (S fuel) s = Some ((key, value) :: fields, rest).
Proof.
  intros Hs Hkey Hcolon Hvalue Hafter Hmore.
  cbn [read_fields]. rewrite Hs. cbn. rewrite Hkey, Hcolon. cbn.
  rewrite Hvalue, Hafter. cbn. now rewrite Hmore.
Qed.

Lemma read_field_last (s chars key after_key after_colon after_value rest : string)
    (value : json) :
  skip_ws s = String (ascii_of_nat 34) chars ->
  read_chars None chars = Some (key, after_key) ->
  skip_ws after_key = String ":" after_colon ->
  read_value fuel after_colon = Some (value, after_value) ->
  skip_ws after_value = String "}" rest ->
  read_fields (S fuel) s = Some ([(key, value)], rest).
Proof.
  intros Hs Hkey Hcolon Hvalue Hafter.
  cbn [read_fields]. rewrite Hs. cbn. rewrite Hkey, Hcolon. cbn.
  now rewrite Hvalue, Hafter.
Qed.

End Reading.

(** Read as JSON, the text of a descriptor is the workspace data: an
    object whose one field, folders, is an array of one object with the
    path and the name. Shown for an ASCII path and name. *)
Lemma loads_descriptor (p n : string) :
  MoreWords.is_ascii_text p = true ->
  MoreWords.is_ascii_text n = true ->
  JsonReader.loads (join (String LF EmptyString) (descriptor_lines (quote p) (quote n)))
  = Some (JObject [("folders",
                    JArray [JObject [("path", JString p); ("name", JString n)]])]).
Proof.
  intros Hp Hn. unfold JsonReader.loads.
  cbn [join String.concat descriptor_lines].
  rewrite !quote_unfold.
  change DQ with (String (ascii_of_nat 34) EmptyString).
  rewrite !append_assoc.
  rewrite ?MatchReaderSpec.append_cons, ?append_empty_l.
  cbn [String.length Nat.mul Nat.add].
  match goal with
  | |- match JsonReader.read_value ?f ?text with _ => _ end = _ =>
      assert (Hread : JsonReader.read_value f text
                      = Some (JObject [("folders",
                                JArray [JObject [("path", JString p);
                                                 ("name", JString n)]])],
                              EmptyString))
  end.
  { eapply read_object_value; [reflexivity | reflexivity | reflexivity |].
    eapply read_field_last; [reflexivity | reflexivity | reflexivity | |].
    - eapply read_array_value; [reflexivity | reflexivity | reflexivity |].
      eapply read_last_item.
      + eapply read_object_value; [reflexivity | reflexivity | reflexivity |].
        eapply read_field_more; [reflexivity | reflexivity | reflexivity | | |].
        * eapply read_string_value; [reflexivity|]. apply read_escaped, Hp.
        * reflexivity.
        * eapply read_field_last; [reflexivity | reflexivity | reflexivity | |].
          -- eapply read_string_value; [reflexivity|]. apply read_escaped, Hn.
          -- reflexivity.
      + reflexivity.
    - reflexivity. }
  now rewrite Hread.
Qed.

Section Create.

Variable E : env.

Lemma execute_command_cwd (command : string) (w w' : world) (r : result unit) :
  execute_command E command w = (r, w') -> w_cwd w' = w_cwd w.
Proof.
  unfold execute_command.
  destruct (shell E command (w_fs w) (w_cwd w)) as [fs' status].
  destruct (status =? 0)%nat; intros Heq; inversion Heq; reflexivity.
Qed.

Lemma run_execute_bind {B} (command : string) (k : unit -> M B) (w : world)
    (fs' : fsmap) (status : nat) :
  shell E command (w_fs w) (w_cwd w) = (fs', status) ->
  (execute_command E command ≫= k) w = k tt (after_command command fs' status w).
Proof.
  intros Hsh. rewrite run_bind. unfold execute_command, after_command.
  rewrite Hsh. now destruct (status =? 0)%nat.
Qed.

Lemma after_command_fs (command : string) (fs' : fsmap) (status : nat) (w : world) :
  w_fs (after_command command fs' status w) = fs'
  /\ w_cwd (after_command command fs' status w) = w_cwd w
  /\ w_log (after_command command fs' status w) = w_log w
  /\ w_trace (after_command command fs' status w) = w_trace w ++ [EvShell command].
Proof. unfold after_command. now destruct (status =? 0)%nat. Qed.

Lemma run_write_descriptor (project_dir workspace_file : Path) (name : string)
    (w : world) :
  write_descriptor project_dir workspace_file name w
  = match write_file (dumps 4 0 (workspace_data project_dir name))
            (w_fs w) (w_cwd w) (path_str workspace_file) with
    | inl e => (Raise e, add_event (EvOpenWrite (path_str workspace_file)) w)
    | inr fs' =>
        (Ok tt,
         add_log ("add + " +:+ path_str workspace_file)
           (add_log ("add + " +:+ path_str project_dir)
              (set_fs fs' (add_event (EvOpenWrite (path_str workspace_file)) w))))
    end.
Proof.
  unfold write_descriptor, os_write. rewrite run_fs_call_bind.
  destruct (write_file _ _ _ _); reflexivity.
Qed.

(** Clone mode, the target directory not there yet: the command runs and
    the descriptor is written, whatever the command's exit status. *)
Lemma create_clone_run (link repository workspace : string) (cfg : config)
    (w : world) (fs' : fsmap) (status : nat) :
  let name := link_name link in
  let project_dir := project_dir_of repository name in
  let workspace_file := workspace_file_of workspace name in
  let command := "git clone " +:+ link +:+ " " +:+ path_str project_dir in
  has_roots cfg repository workspace ->
  node_at (w_fs w) (w_cwd w) (path_str project_dir) = None ->
  shell E command (w_fs w) (w_cwd w) = (fs', status) ->
  create_project E link cfg true w
  = write_descriptor project_dir workspace_file name
      (after_command command fs' status (add_event (EvStat (path_str project_dir)) w)).
Proof.
  intros name project_dir workspace_file command Hroots Hdir Hsh.
  subst name project_dir workspace_file command.
  unfold project_dir_of, workspace_file_of in *.
  unfold create_project. rewrite (run_roots _ _ _ _ _ Hroots).
  cbn [negb].
  run_step. rewrite Hdir, exists_none. cbn [negb].
  rewrite (run_execute_bind _ _ _ fs' status) by exact Hsh.
  reflexivity.
Qed.

(** Init mode, the target directory not there yet. *)
Lemma create_init_run (name repository workspace : string) (cfg : config)
    (w : world) (fs1 fs2 fs3 fs4 : fsmap) (status : nat) :
  let project_dir := project_dir_of repository name in
  let workspace_file := workspace_file_of workspace name in
  let command := "git init " +:+ path_str project_dir in
  has_roots cfg repository workspace ->
  node_at (w_fs w) (w_cwd w) (path_str project_dir) = None ->
  mkdir_p (w_fs w) (w_cwd w) (path_str project_dir) = inr fs1 ->
  shell E command fs1 (w_cwd w) = (fs2, status) ->
  touch fs2 (w_cwd w) (path_str (joinpath project_dir "README.md")) = inr fs3 ->
  touch fs3 (w_cwd w) (path_str (joinpath project_dir ".gitignore")) = inr fs4 ->
  create_project E name cfg false w
  = write_descriptor project_dir workspace_file name
      (set_fs fs4
         (add_event (EvTouch (path_str (joinpath project_dir ".gitignore")))
            (set_fs fs3
               (add_event (EvTouch (path_str (joinpath project_dir "README.md")))
                  (after_command command fs2 status
                     (set_fs fs1
                        (add_event (EvMkdir (path_str project_dir))
                           (add_event (EvStat (path_str project_dir)) w)))))))).
Proof.
  intros project_dir workspace_file command Hroots Hdir Hmk Hsh Ht1 Ht2.
  unfold create_project. rewrite (run_roots _ _ _ _ _ Hroots).
  cbn [negb]. fold (project_dir_of repository name). fold project_dir.
  fold (workspace_file_of workspace name). fold workspace_file.
  run_step. rewrite Hdir, exists_none. cbn [negb].
  fold command.
  rewrite !run_bind_assoc. unfold os_mkdir_p. rewrite run_fs_call_bind.
  world_simpl. rewrite Hmk.
  rewrite !run_bind_assoc.
  rewrite (run_execute_bind command _ _ fs2 status) by exact Hsh.
  cbv beta.
  destruct (after_command_fs command fs2 status
              (set_fs fs1 (add_event (EvMkdir (path_str project_dir))
                 (add_event (EvStat (path_str project_dir)) w))))
    as (Hfs & Hcwd & _ & _).
  rewrite !run_bind_assoc. unfold os_touch. rewrite run_fs_call_bind.
  rewrite Hfs, Hcwd. world_simpl. rewrite Ht1.
  rewrite run_fs_call_bind. world_simpl. rewrite Hcwd. world_simpl. rewrite Ht2.
  reflexivity.
Qed.

(** C5. For every identifier, bare name or link: when the project
    directory already exists, [create_project] logs that the project
    exists and exits with status 1. The tree is the one it started with,
    and looking for the directory is the only thing it asked of the
    system, so nothing was created or written, the workspace descriptor
    included. *)
Theorem create_project_existing (identifier repository workspace : string)
    (cfg : config) (is_clone : bool) (w : world) :
  let name := if is_clone then link_name identifier else identifier in
  let project_dir := path_str (project_dir_of repository name) in
  has_roots cfg repository workspace ->
  is_Some (node_at (w_fs w) (w_cwd w) project_dir) ->
  let out := create_project E identifier cfg is_clone w in
  fst out = Exit 1
  /\ exit_status (fst out) <> 0
  /\ w_fs (snd out) = w_fs w
  /\ w_log (snd out) = w_log w ++ [PROJECT_EXISTS_ERROR_MSG name]
  /\ w_stdout (snd out) = w_stdout w
  /\ w_trace (snd out) = w_trace w ++ [EvStat project_dir].
Proof.
  intros name project_dir Hroots Hexists out. subst out.
  unfold create_project. rewrite (run_roots _ _ _ _ _ Hroots).
  rewrite run_bind, run_path_exists.
  fold name. fold (project_dir_of repository name). fold project_dir.
  rewrite bool_decide_eq_true_2 by exact Hexists.
  repeat split; simpl; discriminate.
Qed.

(** How a run ends once the version-control command is over: in the world
    [w2] it left, the descriptor is opened for writing; if that works the
    run returns with both artifacts logged, else the error is raised. *)
Lemma descriptor_after (project_dir workspace_file : Path) (name : string)
    (w2 : world) :
  let text := dumps 4 0 (workspace_data project_dir name) in
  let out := write_descriptor project_dir workspace_file name w2 in
  w_stdout (snd out) = w_stdout w2
  /\ w_trace (snd out) = w_trace w2 ++ [EvOpenWrite (path_str workspace_file)]
  /\ match write_file text (w_fs w2) (w_cwd w2) (path_str workspace_file) with
     | inr fs' =>
         fst out = Ok tt
         /\ w_fs (snd out) = fs'
         /\ w_log (snd out)
            = w_log w2 ++ ["add + " +:+ path_str project_dir]
                ++ ["add + " +:+ path_str workspace_file]
         /\ exists k, resolve (w_cwd w2) (path_str workspace_file) = Some k
                      /\ fs' !! k = Some (File text true)
     | inl e => fst out = Raise e
     end.
Proof.
  intros text out. subst out. rewrite run_write_descriptor. fold text.
  destruct (write_file text (w_fs w2) (w_cwd w2) (path_str workspace_file))
    as [e|fs'] eqn:Hw.
  - repeat split.
  - repeat split.
    + cbn. now rewrite <- app_assoc.
    + destruct (write_file_lookup _ _ _ _ _ Hw) as (k & Hk & ->).
      exists k. split; [exact Hk | apply lookup_insert_eq].
Qed.

(** C7. When the version-control command ends with a non-zero status,
    [create_project] prints that the command failed and goes on: with
    [git clone] the next thing it does is open the workspace descriptor
    for writing; with [git init] it first touches the two placeholder
    files and, these in place, does the same. If the descriptor can be
    written the run returns normally and the descriptor holds the
    workspace data. *)
Theorem create_project_command_failure (identifier repository workspace : string)
    (cfg : config) (w : world) (status : nat) :
  has_roots cfg repository workspace ->
  status <> 0 ->
  (let name := link_name identifier in
   let project_dir := project_dir_of repository name in
   let workspace_file := workspace_file_of workspace name in
   let command := "git clone " +:+ identifier +:+ " " +:+ path_str project_dir in
   let text := dumps 4 0 (workspace_data project_dir name) in
   forall fs2,
     node_at (w_fs w) (w_cwd w) (path_str project_dir) = None ->
     shell E command (w_fs w) (w_cwd w) = (fs2, status) ->
     let out := create_project E identifier cfg true w in
     w_stdout (snd out)
     = w_stdout w ++ ["Command execution failed: "
                      +:+ called_process_error command status]
     /\ w_trace (snd out)
        = w_trace w ++ [EvStat (path_str project_dir)] ++ [EvShell command]
            ++ [EvOpenWrite (path_str workspace_file)]
     /\ match write_file text fs2 (w_cwd w) (path_str workspace_file) with
        | inr fs3 =>
            fst out = Ok tt /\ w_fs (snd out) = fs3
            /\ exists k, resolve (w_cwd w) (path_str workspace_file) = Some k
                         /\ fs3 !! k = Some (File text true)
        | inl e => fst out = Raise e
        end)
  /\ (let name := identifier in
      let project_dir := project_dir_of repository name in
      let workspace_file := workspace_file_of workspace name in
      let command := "git init " +:+ path_str project_dir in
      let readme := path_str (joinpath project_dir "README.md") in
      let gitignore := path_str (joinpath project_dir ".gitignore") in
      let text := dumps 4 0 (workspace_data project_dir name) in
      forall fs1 fs2 fs3 fs4,
        node_at (w_fs w) (w_cwd w) (path_str project_dir) = None ->
        mkdir_p (w_fs w) (w_cwd w) (path_str project_dir) = inr fs1 ->
        shell E command fs1 (w_cwd w) = (fs2, status) ->
        touch fs2 (w_cwd w) readme = inr fs3 ->
        touch fs3 (w_cwd w) gitignore = inr fs4 ->
        let out := create_project E identifier cfg false w in
        w_stdout (snd out)
        = w_stdout w ++ ["Command execution failed: "
                         +:+ called_process_error command status]
        /\ w_trace (snd out)
           = w_trace w ++ [EvStat (path_str project_dir)]
               ++ [EvMkdir (path_str project_dir)] ++ [EvShell command]
               ++ [EvTouch readme] ++ [EvTouch gitignore]
               ++ [EvOpenWrite (path_str workspace_file)]
        /\ match write_file text fs4 (w_cwd w) (path_str workspace_file) with
           | inr fs5 =>
               fst out = Ok tt /\ w_fs (snd out) = fs5
               /\ exists k, resolve (w_cwd w) (path_str workspace_file) = Some k
                            /\ fs5 !! k = Some (File text true)
           | inl e => fst out = Raise e
           end).
Proof.
  intros Hroots Hstatus.
  assert (Hnz : (status =? 0)%nat = false) by now apply Nat.eqb_neq.
  split.
  - intros name project_dir workspace_file command text fs2 Hdir Hsh out.
    subst out.
    rewrite (create_clone_run identifier repository workspace cfg w fs2 status
               Hroots Hdir Hsh).
    fold name. fold project_dir. fold workspace_file. fold command.
    destruct (descriptor_after project_dir workspace_file name
                (after_command command fs2 status
                   (add_event (EvStat (path_str project_dir)) w)))
      as (Hout & Htrace & Hwrite).
    unfold after_command in *. rewrite Hnz in *.
    world_simpl. cbn [w_fs w_cwd w_stdout w_trace add_stdout set_fs add_event] in *.
    rewrite Hout, Htrace. fold text in Hwrite.
    split; [reflexivity|]. split; [now rewrite <- !app_assoc|].
    destruct (write_file text fs2 (w_cwd w) (path_str workspace_file)).
    + exact Hwrite.
    + destruct Hwrite as (Hok & Hfs & _ & Hk). auto.
  - intros name project_dir workspace_file command readme gitignore text
      fs1 fs2 fs3 fs4 Hdir Hmk Hsh Ht1 Ht2 out.
    subst out.
    rewrite (create_init_run identifier repository workspace cfg w fs1 fs2 fs3 fs4
               status Hroots Hdir Hmk Hsh Ht1 Ht2).
    fold name. fold project_dir. fold workspace_file. fold command.
    fold readme. fold gitignore.
    match goal with
    | |- context [write_descriptor _ _ _ ?w2] =>
        destruct (descriptor_after project_dir workspace_file name w2)
          as (Hout & Htrace & Hwrite)
    end.
    unfold after_command in *. rewrite Hnz in *.
    cbn [w_fs w_cwd w_stdout w_trace add_stdout set_fs add_event] in *.
    rewrite Hout, Htrace. fold text in Hwrite.
    split; [reflexivity|]. split; [now rewrite <- !app_assoc|].
    destruct (write_file text fs4 (w_cwd w) (path_str workspace_file)).
    + exact Hwrite.
    + destruct Hwrite as (Hok & Hfs & _ & Hk). auto.
Qed.

(** Whenever [create_project] returns, the descriptor holds the workspace
    data, all of it and nothing else. *)
Lemma create_project_ok_inv (identifier repository workspace : string)
    (cfg : config) (is_clone : bool) (w w' : world) :
  let name := if is_clone then link_name identifier else identifier in
  let project_dir := project_dir_of repository name in
  let workspace_file := workspace_file_of workspace name in
  has_roots cfg repository workspace ->
  create_project E identifier cfg is_clone w = (Ok tt, w') ->
  exists k, resolve (w_cwd w) (path_str workspace_file) = Some k
            /\ w_fs w' !! k
               = Some (File (dumps 4 0 (workspace_data project_dir name)) true).
Proof.
  intros name project_dir workspace_file Hroots Hrun.
  unfold create_project in Hrun. rewrite (run_roots _ _ _ _ _ Hroots) in Hrun.
  fold name in Hrun. fold (project_dir_of repository name) in Hrun.
  fold project_dir in Hrun.
  fold (workspace_file_of workspace name) in Hrun. fold workspace_file in Hrun.
  rewrite run_exists_bind in Hrun.
  destruct (node_at (w_fs w) (w_cwd w) (path_str project_dir)) as [n|].
  { rewrite exists_some in Hrun. cbn [negb] in Hrun.
    rewrite run_bind, run_error_exit in Hrun. discriminate. }
  rewrite exists_none in Hrun. cbn [negb] in Hrun.
  apply bind_ok_inv in Hrun as (u & w1 & Hbranch & Hrest).
  assert (Hcwd : w_cwd w1 = w_cwd w).
  { destruct is_clone; cbn [negb] in Hbranch.
    - now apply execute_command_cwd in Hbranch.
    - apply bind_ok_inv in Hbranch as (u1 & wa & Hmk & Hbranch).
      apply bind_ok_inv in Hbranch as (u2 & wb & Hsh & Hbranch).
      apply bind_ok_inv in Hbranch as (u3 & wc & Ht1 & Ht2).
      apply fs_call_ok_inv in Hmk as (fsa & _ & ->).
      apply execute_command_cwd in Hsh.
      apply fs_call_ok_inv in Ht1 as (fsc & _ & ->).
      apply fs_call_ok_inv in Ht2 as (fsd & _ & ->).
      cbn in *. congruence. }
  change (write_descriptor project_dir workspace_file name w1 = (Ok tt, w')) in Hrest.
  destruct (descriptor_after project_dir workspace_file name w1) as (_ & _ & Hw).
  rewrite Hrest, Hcwd in Hw. cbn [fst snd] in Hw.
  destruct (write_file _ (w_fs w1) (w_cwd w) (path_str workspace_file)).
  - discriminate.
  - destruct Hw as (_ & -> & _ & Hk). exact Hk.
Qed.

(** C6. Creating project foo with repository root [/r] and workspace root
    [/w], every file-system call succeeding and [git] leaving the new
    directory in place, returns normally with a directory at [/r/foo] and a
    file at [/w/foo.code-workspace]. The file holds the eight lines of
    [foo_descriptor_lines], the text [json.dump] writes with an indent of
    4; read as JSON, this text and the compact text of the specification
    are the same value, folders: [ path: /r/foo, name: foo ]. And whenever
    [create_project] returns, for any identifier and roots, the descriptor
    file holds exactly the eight lines around the quoted path and the
    quoted name, whatever was at its place before; read as JSON they are
    the workspace data (shown for an ASCII path and name). *)
Theorem create_project_writes_descriptor :
  (forall (cfg : config) (w : world) (fs1 fs2 fs3 fs4 fs5 : fsmap) (status : nat),
     let value :=
       JObject [("folders",
                 JArray [JObject [("path", JString "/r/foo");
                                  ("name", JString "foo")]])] in
     let text := dumps 4 0 value in
     let lines := join (String LF EmptyString) ProjectSample.foo_descriptor_lines in
     has_roots cfg "/r" "/w" ->
     node_at (w_fs w) (w_cwd w) "/r/foo" = None ->
     mkdir_p (w_fs w) (w_cwd w) "/r/foo" = inr fs1 ->
     shell E "git init /r/foo" fs1 (w_cwd w) = (fs2, status) ->
     fs2 !! ["r"; "foo"] = fs1 !! ["r"; "foo"] ->
     touch fs2 (w_cwd w) "/r/foo/README.md" = inr fs3 ->
     touch fs3 (w_cwd w) "/r/foo/.gitignore" = inr fs4 ->
     write_file text fs4 (w_cwd w) "/w/foo.code-workspace" = inr fs5 ->
     let out := create_project E "foo" cfg false w in
     fst out = Ok tt
     /\ w_fs (snd out) = fs5
     /\ (exists d, fs5 !! ["r"; "foo"] = Some (Dir d))
     /\ fs5 !! ["w"; "foo.code-workspace"] = Some (File lines true)
     /\ JsonReader.loads lines = Some value
     /\ JsonReader.loads ProjectSample.foo_compact = Some value)
  /\ (forall (identifier repository workspace : string) (cfg : config)
         (is_clone : bool) (w w' : world),
       let name := if is_clone then link_name identifier else identifier in
       let project_dir := project_dir_of repository name in
       let workspace_file := workspace_file_of workspace name in
       let text :=
         join (String LF EmptyString)
           (descriptor_lines (quote (path_str project_dir)) (quote name)) in
       has_roots cfg repository workspace ->
       create_project E identifier cfg is_clone w = (Ok tt, w') ->
       (exists k, resolve (w_cwd w) (path_str workspace_file) = Some k
                  /\ w_fs w' !! k = Some (File text true))
       /\ (MoreWords.is_ascii_text (path_str project_dir) = true ->
           MoreWords.is_ascii_text name = true ->
           JsonReader.loads text
           = Some (JObject [("folders",
                             JArray [JObject [("path", JString (path_str project_dir));
                                              ("name", JString name)]])]))).
Proof.
  split.
  2: { intros identifier repository workspace cfg is_clone w w' name project_dir
         workspace_file text Hroots Hrun.
       split; [|apply loads_descriptor].
       destruct (create_project_ok_inv identifier repository workspace cfg is_clone
                   w w' Hroots Hrun) as (k & Hk & Hfile).
       exists k. split; [exact Hk|]. rewrite Hfile. unfold workspace_data.
       now rewrite descriptor_text_lines. }
  intros cfg w fs1 fs2 fs3 fs4 fs5 status value text lines
    Hroots Hdir Hmk Hsh Hkeep Ht1 Ht2 Hw out.
  subst out.
  rewrite (create_init_run "foo" "/r" "/w" cfg w fs1 fs2 fs3 fs4 status
             Hroots Hdir Hmk Hsh Ht1 Ht2).
  match goal with
  | |- context [write_descriptor ?pd ?wf ?n ?w2] =>
      destruct (descriptor_after pd wf n w2) as (_ & _ & Hout)
  end.
  cbn [w_fs w_cwd set_fs add_event] in Hout.
  change (path_str (workspace_file_of "/w" "foo")) with "/w/foo.code-workspace" in Hout.
  change (dumps 4 0 (workspace_data (project_dir_of "/r" "foo") "foo")) with text in Hout.
  assert (Hcwd : forall fs' w0, w_cwd (after_command "git init /r/foo" fs' status w0)
                                = w_cwd w0).
  { intros fs' w0. apply after_command_fs. }
  change (path_str (project_dir_of "/r" "foo")) with "/r/foo" in Hout.
  rewrite Hcwd in Hout. cbn [w_fs w_cwd set_fs add_event] in Hout.
  rewrite Hw in Hout. destruct Hout as (Hok & Hfs & _ & k & Hk & Hlook).
  split; [exact Hok|]. split; [exact Hfs|].
  destruct (write_file_lookup _ _ _ _ _ Hw) as (k' & Hk' & ->).
  assert (k' = ["w"; "foo.code-workspace"]) as -> by (inversion Hk'; reflexivity).
  assert (Htext : text = lines) by reflexivity.
  split; [|split; [|split]].
  - rewrite lookup_insert_ne by discriminate.
    rewrite (touch_other fs3 fs4 (w_cwd w) ["r"; "foo"; ".gitignore"] ["r"; "foo"]
               "/r/foo/.gitignore" Ht2 eq_refl) by discriminate.
    rewrite (touch_other fs2 fs3 (w_cwd w) ["r"; "foo"; "README.md"] ["r"; "foo"]
               "/r/foo/README.md" Ht1 eq_refl) by discriminate.
    rewrite Hkeep.
    apply (mkdir_from_creates "/r/foo" ["r"; "foo"] (w_fs w) fs1 []);
      [discriminate | exact Hmk].
  - rewrite Htext. apply lookup_insert_eq.
  - reflexivity.
  - reflexivity.
Qed.

End Create.

Lemma create_project_command_failure_witness :
  let clone := create_project ProjectSample.env_fails
                 "https://example.com/org/bar.git" ProjectSample.roots true
                 ProjectSample.fresh in
  let init := create_project ProjectSample.env_fails "foo" ProjectSample.roots false
                ProjectSample.fresh in
  (fst clone = Ok tt
   /\ w_stdout (snd clone)
      = ["Command execution failed: Command 'git clone https://example.com/org/bar.git /r/bar' returned non-zero exit status 128."]
   /\ exists text, w_fs (snd clone) !! ["w"; "bar.code-workspace"] = Some (File text true))
  /\ (fst init = Ok tt
      /\ w_stdout (snd init)
         = ["Command execution failed: Command 'git init /r/foo' returned non-zero exit status 128."]
      /\ w_fs (snd init) !! ["w"; "foo.code-workspace"]
         = Some (File ProjectSample.foo_descriptor true)).
Proof.
  assert (Hroots : has_roots ProjectSample.roots "/r" "/w").
  { eexists. repeat split; reflexivity. }
  assert (Hstatus : 128 <> 0) by discriminate.
  split.
  - destruct (create_project_command_failure ProjectSample.env_fails
                "https://example.com/org/bar.git" "/r" "/w" ProjectSample.roots
                ProjectSample.fresh 128 Hroots Hstatus) as [Hclone _].
    destruct (Hclone (w_fs ProjectSample.fresh) eq_refl eq_refl)
      as (Hout & _ & Hwrite).
    run_match Hwrite
      (<[ ["w"; "bar.code-workspace"] :=
            File (dumps 4 0 (workspace_data (Path_of "/r/bar") "bar")) true ]>
         ProjectSample.base_fs).
    destruct Hwrite as (Hok & Hfs & _).
    split; [exact Hok|]. split; [exact Hout|].
    eexists. rewrite Hfs. reflexivity.
  - destruct (create_project_command_failure ProjectSample.env_fails
                "foo" "/r" "/w" ProjectSample.roots
                ProjectSample.fresh 128 Hroots Hstatus) as [_ Hinit].
    destruct (Hinit (<[ ["r"; "foo"] := Dir true ]> ProjectSample.base_fs)
                (<[ ["r"; "foo"] := Dir true ]> ProjectSample.base_fs)
                (<[ ["r"; "foo"; "README.md"] := File "" true ]>
                   (<[ ["r"; "foo"] := Dir true ]> ProjectSample.base_fs))
                (<[ ["r"; "foo"; ".gitignore"] := File "" true ]>
                   (<[ ["r"; "foo"; "README.md"] := File "" true ]>
                      (<[ ["r"; "foo"] := Dir true ]> ProjectSample.base_fs))))
      as (Hout & _ & Hwrite); try reflexivity.
    run_match Hwrite
      (<[ ["w"; "foo.code-workspace"] := File ProjectSample.foo_descriptor true ]>
         (<[ ["r"; "foo"; ".gitignore"] := File "" true ]>
            (<[ ["r"; "foo"; "README.md"] := File "" true ]>
               (<[ ["r"; "foo"] := Dir true ]> ProjectSample.base_fs)))).
    destruct Hwrite as (Hok & Hfs & _).
    split; [exact Hok|]. split; [exact Hout|].
    rewrite Hfs. reflexivity.
Defined.

(** The descriptor of the running example as it stands in the file. *)
Example foo_descriptor_text :
  ProjectSample.foo_descriptor
  = join (String LF EmptyString) ProjectSample.foo_descriptor_lines.
Proof. reflexivity. Qed.

Lemma create_project_writes_descriptor_witness :
  let made := create_project ProjectSample.env_works "foo" ProjectSample.roots false
                ProjectSample.fresh in
  let again := create_project ProjectSample.env_works "foo" ProjectSample.roots false
                 ProjectSample.descriptor_only in
  let lines := join (String LF EmptyString) ProjectSample.foo_descriptor_lines in
  (fst made = Ok tt
   /\ (exists d, w_fs (snd made) !! ["r"; "foo"] = Some (Dir d))
   /\ w_fs (snd made) !! ["w"; "foo.code-workspace"] = Some (File lines true)
   /\ JsonReader.loads lines = Some ProjectSample.foo_workspace
   /\ JsonReader.loads ProjectSample.foo_compact = Some ProjectSample.foo_workspace)
  /\ (w_fs ProjectSample.descriptor_only !! ["w"; "foo.code-workspace"]
      = Some (File "stale" true)
      /\ w_fs (snd again) !! ["w"; "foo.code-workspace"] = Some (File lines true)).
Proof.
  assert (Hroots : has_roots ProjectSample.roots "/r" "/w").
  { eexists. repeat split; reflexivity. }
  destruct (create_project_writes_descriptor ProjectSample.env_works)
    as [Hfoo Hevery].
  split.
  - destruct (Hfoo ProjectSample.roots ProjectSample.fresh
                (<[ ["r"; "foo"] := Dir true ]> ProjectSample.base_fs)
                (<[ ["r"; "foo"; ".git"] := Dir true ]>
                   (<[ ["r"; "foo"] := Dir true ]> ProjectSample.base_fs))
                (<[ ["r"; "foo"; "README.md"] := File "" true ]>
                   (<[ ["r"; "foo"; ".git"] := Dir true ]>
                      (<[ ["r"; "foo"] := Dir true ]> ProjectSample.base_fs)))
                (<[ ["r"; "foo"; ".gitignore"] := File "" true ]>
                   (<[ ["r"; "foo"; "README.md"] := File "" true ]>
                      (<[ ["r"; "foo"; ".git"] := Dir true ]>
                         (<[ ["r"; "foo"] := Dir true ]> ProjectSample.base_fs))))
                (<[ ["w"; "foo.code-workspace"] :=
                      File ProjectSample.foo_descriptor true ]>
                   (<[ ["r"; "foo"; ".gitignore"] := File "" true ]>
                      (<[ ["r"; "foo"; "README.md"] := File "" true ]>
                         (<[ ["r"; "foo"; ".git"] := Dir true ]>
                            (<[ ["r"; "foo"] := Dir true ]> ProjectSample.base_fs)))))
                0 Hroots)
      as (Hok & Hfs & Hdir & Hfile & Hlines & Hcompact); try reflexivity.
    rewrite Hfs. repeat split; assumption.
  - split; [reflexivity|].
    destruct (create_project ProjectSample.env_works "foo" ProjectSample.roots
                false ProjectSample.descriptor_only) as [r w'] eqn:Hrun.
    assert (Hr : fst (create_project ProjectSample.env_works "foo" ProjectSample.roots
                        false ProjectSample.descriptor_only) = Ok tt) by reflexivity.
    rewrite Hrun in Hr. cbn [fst] in Hr. subst r.
    destruct (Hevery "foo" "/r" "/w" ProjectSample.roots false
                ProjectSample.descriptor_only w' Hroots Hrun)
      as ((k & Hk & Hlook) & _).
    inversion Hk; subst k. exact Hlook.
Defined.

Lemma create_project_existing_witness :
  let out := create_project ProjectSample.env_works "foo" ProjectSample.roots false
               ProjectSample.with_foo in
  fst out = Exit 1
  /\ exit_status (fst out) <> 0
  /\ w_fs (snd out) = w_fs ProjectSample.with_foo
  /\ w_log (snd out) = [PROJECT_EXISTS_ERROR_MSG "foo"]
  /\ w_stdout (snd out) = []
  /\ w_trace (snd out) = [EvStat "/r/foo"].
Proof.
  apply (create_project_existing ProjectSample.env_works "foo" "/r" "/w"
           ProjectSample.roots false ProjectSample.with_foo).
  - eexists. repeat split; vm_compute; reflexivity.
  - vm_compute. eexists. reflexivity.
Defined.

(** ** Cleaning *)

(** C8. Cleaning tolerates a project whose directory is already gone: when
    only the workspace descriptor exists, a file in a directory that lets
    it go, [clean_project] returns (exit status 0) and the tree it leaves
    is the old one without the descriptor; when neither artifact exists it
    logs that the project is not there, exits with status 1 and leaves the
    tree as it was. *)
Theorem clean_project_partial_state (name repository workspace : string)
    (cfg : config) (w : world) :
  let project_dir := path_str (project_dir_of repository name) in
  let workspace_file := path_str (workspace_file_of workspace name) in
  has_roots cfg repository workspace ->
  node_at (w_fs w) (w_cwd w) project_dir = None ->
  (forall k content wr,
     resolve (w_cwd w) workspace_file = Some k ->
     w_fs w !! k = Some (File content wr) ->
     k <> [] ->
     w_fs w !! removelast k = Some (Dir true) ->
     clean_project name cfg w
     = (Ok tt,
        mkWorld (delete k (w_fs w)) (w_cwd w) (w_stdout w)
          (w_log w ++ ["clean - " +:+ project_dir] ++ ["clean - " +:+ workspace_file])
          (w_trace w ++ [EvStat project_dir] ++ [EvStat workspace_file]
             ++ [EvStat project_dir] ++ [EvStat workspace_file]
             ++ [EvUnlink workspace_file]))
     /\ exit_status (fst (clean_project name cfg w)) = 0)
  /\ (node_at (w_fs w) (w_cwd w) workspace_file = None ->
      clean_project name cfg w
      = (Exit 1,
         mkWorld (w_fs w) (w_cwd w) (w_stdout w)
           (w_log w ++ [FILE_NOT_FOUND_ERROR_MSG name])
           (w_trace w ++ [EvStat project_dir] ++ [EvStat workspace_file]))
      /\ exit_status (fst (clean_project name cfg w)) <> 0).
Proof.
  intros project_dir workspace_file Hroots Hdir. split.
  - intros k content wr Hk Hfile Hne Hparent.
    assert (Hws : node_at (w_fs w) (w_cwd w) workspace_file = Some (File content wr)).
    { unfold node_at. now rewrite Hk. }
    assert (Hrun : clean_project name cfg w
     = (Ok tt,
        mkWorld (delete k (w_fs w)) (w_cwd w) (w_stdout w)
          (w_log w ++ ["clean - " +:+ project_dir] ++ ["clean - " +:+ workspace_file])
          (w_trace w ++ [EvStat project_dir] ++ [EvStat workspace_file]
             ++ [EvStat project_dir] ++ [EvStat workspace_file]
             ++ [EvUnlink workspace_file]))).
    { unfold clean_project. rewrite (run_roots _ _ _ _ _ Hroots).
      fold (project_dir_of repository name). fold project_dir.
      fold (workspace_file_of workspace name). fold workspace_file.
      run_step. rewrite Hdir, exists_none. world_simpl.
      run_step. run_step. rewrite Hws, exists_some. run_step. world_simpl.
      run_step. run_step. rewrite Hdir, exists_none. run_step.
      run_step. rewrite Hws, exists_some.
      rewrite run_except_bind. unfold os_unlink. rewrite run_fs_call. world_simpl.
      rewrite (unlink_file _ _ _ _ _ _ Hk Hfile Hne Hparent).
      run_step. run_step. world_eq. }
    rewrite Hrun. split; reflexivity.
  - intros Hws.
    assert (Hrun : clean_project name cfg w
      = (Exit 1,
         mkWorld (w_fs w) (w_cwd w) (w_stdout w)
           (w_log w ++ [FILE_NOT_FOUND_ERROR_MSG name])
           (w_trace w ++ [EvStat project_dir] ++ [EvStat workspace_file]))).
    { unfold clean_project. rewrite (run_roots _ _ _ _ _ Hroots).
      fold (project_dir_of repository name). fold project_dir.
      fold (workspace_file_of workspace name). fold workspace_file.
      run_step. rewrite Hdir, exists_none. world_simpl.
      run_step. run_step. rewrite Hws, exists_none. run_step. world_simpl.
      rewrite run_bind, run_error_exit. world_eq. }
    rewrite Hrun. split; [reflexivity | discriminate].
Qed.

Lemma parent_error_OSError (fs : fsmap) (k : list string) (path : string) (e : exn) :
  parent_error fs k path = Some e -> is_OSError (exn_cls e) = true.
Proof.
  unfold parent_error. destruct k; [now intros [= <-]|].
  destruct (fs !! removelast _) as [[? ?|[|]]|]; intros [= <-]; reflexivity.
Qed.

Lemma rmtree_error_OSError (fs : fsmap) (cwd : list string) (path : string) (e : exn) :
  rmtree fs cwd path = inl e -> is_OSError (exn_cls e) = true.
Proof.
  unfold rmtree. destruct (resolve cwd path) as [k|]; [|now intros [= <-]].
  destruct (fs !! k) as [[? ?|?]|]; try (now intros [= <-]).
  destruct (parent_error fs k path) as [e'|] eqn:Hp.
  - intros [= <-]. exact (parent_error_OSError _ _ _ _ Hp).
  - destruct (bool_decide _); [now intros [= <-] | discriminate].
Qed.

Lemma unlink_error_OSError (fs : fsmap) (cwd : list string) (path : string) (e : exn) :
  unlink fs cwd path = inl e -> is_OSError (exn_cls e) = true.
Proof.
  unfold unlink. destruct (resolve cwd path) as [k|]; [|now intros [= <-]].
  destruct (fs !! k) as [[? ?|?]|]; try (now intros [= <-]).
  destruct (parent_error fs k path) as [e'|] eqn:Hp; [|discriminate].
  intros [= <-]. exact (parent_error_OSError _ _ _ _ Hp).
Qed.

(** C3, as the code has it. A deletion that fails with a file-system error
    is logged for the artifact it was about, and the process exits with
    status 1 there and then. When it is the project directory, the
    workspace descriptor is not looked at again and nothing is logged about
    it. When it is the workspace descriptor, the directory (if there was
    one) has been removed before, and no line is logged for the removal. *)
Theorem clean_project_deletion_failure (name repository workspace : string)
    (cfg : config) (w : world) :
  let project_dir := path_str (project_dir_of repository name) in
  let workspace_file := path_str (workspace_file_of workspace name) in
  let out := clean_project name cfg w in
  has_roots cfg repository workspace ->
  (forall n e,
     node_at (w_fs w) (w_cwd w) project_dir = Some n ->
     rmtree (w_fs w) (w_cwd w) project_dir = inl e ->
     fst out = Exit 1
     /\ w_log (snd out)
        = w_log w ++ ["NOT clean " +:+ DQ +:+ name +:+ DQ +:+ ": " +:+ exn_str e]
     /\ w_trace (snd out)
        = w_trace w ++ [EvStat project_dir] ++ [EvStat project_dir]
            ++ [EvRmtree project_dir])
  /\ (forall n e,
       node_at (w_fs w) (w_cwd w) project_dir = None ->
       node_at (w_fs w) (w_cwd w) workspace_file = Some n ->
       unlink (w_fs w) (w_cwd w) workspace_file = inl e ->
       fst out = Exit 1
       /\ w_fs (snd out) = w_fs w
       /\ w_log (snd out)
          = w_log w ++ ["NOT clean " +:+ DQ +:+ workspace_file +:+ DQ +:+ ": "
                        +:+ exn_str e]
       /\ w_trace (snd out)
          = w_trace w ++ [EvStat project_dir] ++ [EvStat workspace_file]
              ++ [EvStat project_dir] ++ [EvStat workspace_file]
              ++ [EvUnlink workspace_file])
  /\ (forall n n' fs1 e,
       node_at (w_fs w) (w_cwd w) project_dir = Some n ->
       rmtree (w_fs w) (w_cwd w) project_dir = inr fs1 ->
       node_at fs1 (w_cwd w) workspace_file = Some n' ->
       unlink fs1 (w_cwd w) workspace_file = inl e ->
       fst out = Exit 1
       /\ w_fs (snd out) = fs1
       /\ w_log (snd out)
          = w_log w ++ ["NOT clean " +:+ DQ +:+ workspace_file +:+ DQ +:+ ": "
                        +:+ exn_str e]
       /\ w_trace (snd out)
          = w_trace w ++ [EvStat project_dir] ++ [EvStat project_dir]
              ++ [EvRmtree project_dir] ++ [EvStat workspace_file]
              ++ [EvUnlink workspace_file]).
Proof.
  intros project_dir workspace_file out Hroots. subst out.
  unfold clean_project. rewrite (run_roots _ _ _ _ _ Hroots).
  fold (project_dir_of repository name). fold project_dir.
  fold (workspace_file_of workspace name). fold workspace_file.
  split; [|split].
  - intros n e Hdir Hrm.
    pose proof (rmtree_error_OSError _ _ _ _ Hrm) as HOS.
    run_step. rewrite Hdir, exists_some. world_simpl.
    do 3 run_step. rewrite Hdir, exists_some.
    rewrite run_except_bind. unfold os_rmtree. rewrite run_fs_call. world_simpl.
    rewrite Hrm, HOS, run_bind, run_error_exit.
    repeat split; world_simpl; now rewrite <- ?app_assoc.
  - intros n e Hdir Hws Hun.
    pose proof (unlink_error_OSError _ _ _ _ Hun) as HOS.
    run_step. rewrite Hdir, exists_none. world_simpl.
    do 2 run_step. rewrite Hws, exists_some. world_simpl.
    do 3 run_step. rewrite Hdir, exists_none.
    do 2 run_step. rewrite Hws, exists_some.
    rewrite run_except_bind. unfold os_unlink. rewrite run_fs_call. world_simpl.
    rewrite Hun, HOS, run_bind, run_error_exit.
    repeat split; world_simpl; now rewrite <- ?app_assoc.
  - intros n n' fs1 e Hdir Hrm Hws Hun.
    pose proof (unlink_error_OSError _ _ _ _ Hun) as HOS.
    run_step. rewrite Hdir, exists_some. world_simpl.
    do 3 run_step. rewrite Hdir, exists_some.
    rewrite run_except_bind. unfold os_rmtree. rewrite run_fs_call. world_simpl.
    rewrite Hrm. run_step. rewrite Hws, exists_some.
    rewrite run_except_bind. unfold os_unlink. rewrite run_fs_call. world_simpl.
    rewrite Hun, HOS, run_bind, run_error_exit.
    repeat split; world_simpl; now rewrite <- ?app_assoc.
Qed.

Lemma clean_project_deletion_failure_witness :
  let out := clean_project "foo" ProjectSample.roots ProjectSample.protected_workspace in
  fst out = Exit 1
  /\ w_fs (snd out) !! ["r"; "foo"] = None
  /\ w_log (snd out)
     = ["NOT clean " +:+ DQ +:+ "/w/foo.code-workspace" +:+ DQ
        +:+ ": [Errno 13] Permission denied: '/w/foo.code-workspace'"]
  /\ w_trace (snd out)
     = [EvStat "/r/foo"; EvStat "/r/foo"; EvRmtree "/r/foo";
        EvStat "/w/foo.code-workspace"; EvUnlink "/w/foo.code-workspace"].
Proof.
  assert (Hroots : has_roots ProjectSample.roots "/r" "/w").
  { eexists. repeat split; reflexivity. }
  destruct (clean_project_deletion_failure "foo" "/r" "/w" ProjectSample.roots
              ProjectSample.protected_workspace Hroots) as (_ & _ & Hlate).
  destruct (Hlate (Dir true) (File "stale" true)
              (delete ["r"; "foo"] (w_fs ProjectSample.protected_workspace))
              (eacces "/w/foo.code-workspace"))
    as (Hexit & Hfs & Hlog & Htrace); try reflexivity.
  split; [exact Hexit|]. split; [rewrite Hfs; reflexivity|].
  split; [exact Hlog | exact Htrace].
Defined.

(** C3 as the specification states it fails: the directory of foo cannot
    be removed, the descriptor of foo exists, and the run ends without
    looking at the descriptor or logging anything about it. *)
Lemma clean_project_failure_hides_descriptor :
  let w := ProjectSample.protected_dir in
  let out := clean_project "foo" ProjectSample.roots w in
  rmtree (w_fs w) (w_cwd w) "/r/foo" = inl (eacces "/r/foo")
  /\ node_at (w_fs w) (w_cwd w) "/w/foo.code-workspace" = Some (File "stale" true)
  /\ fst out = Exit 1
  /\ w_log (snd out)
     = ["NOT clean " +:+ DQ +:+ "foo" +:+ DQ
        +:+ ": [Errno 13] Permission denied: '/r/foo'"]
  /\ w_trace (snd out) = [EvStat "/r/foo"; EvStat "/r/foo"; EvRmtree "/r/foo"]
  /\ node_at (w_fs (snd out)) (w_cwd (snd out)) "/w/foo.code-workspace"
     = Some (File "stale" true).
Proof. repeat split; reflexivity. Qed.

Lemma clean_project_partial_state_witness :
  clean_project "foo" ProjectSample.roots ProjectSample.descriptor_only
  = (Ok tt,
     mkWorld (delete ["w"; "foo.code-workspace"] (w_fs ProjectSample.descriptor_only))
       ["home"] []
       ["clean - /r/foo"; "clean - /w/foo.code-workspace"]
       [EvStat "/r/foo"; EvStat "/w/foo.code-workspace"; EvStat "/r/foo";
        EvStat "/w/foo.code-workspace"; EvUnlink "/w/foo.code-workspace"])
  /\ clean_project "foo" ProjectSample.roots ProjectSample.fresh
     = (Exit 1,
        mkWorld (w_fs ProjectSample.fresh) ["home"] [] [FILE_NOT_FOUND_ERROR_MSG "foo"]
          [EvStat "/r/foo"; EvStat "/w/foo.code-workspace"]).
Proof.
  assert (Hroots : has_roots ProjectSample.roots "/r" "/w").
  { eexists. repeat split; reflexivity. }
  split.
  - destruct (clean_project_partial_state "foo" "/r" "/w" ProjectSample.roots
                ProjectSample.descriptor_only Hroots eq_refl) as [Honly _].
    apply (Honly ["w"; "foo.code-workspace"] "stale" true).
    + vm_compute. reflexivity.
    + vm_compute. reflexivity.
    + discriminate.
    + vm_compute. reflexivity.
  - destruct (clean_project_partial_state "foo" "/r" "/w" ProjectSample.roots
                ProjectSample.fresh Hroots eq_refl) as [_ Hneither].
    apply Hneither. vm_compute. reflexivity.
Defined.

(** ** The name taken from a link *)

Lemma split_char_nonempty (sep : ascii) (s : string) : split_char sep s <> [].
Proof.
  destruct s as [|c s]; simpl; [discriminate|].
  destruct (Ascii.eqb c sep); [discriminate|].
  destruct (split_char sep s); discriminate.
Qed.

Lemma join_cons (sep piece : string) (pieces : list string) :
  pieces <> [] ->
  join sep (piece :: pieces) = piece +:+ sep +:+ join sep pieces.
Proof. destruct pieces; [done | reflexivity]. Qed.

Lemma join_cons_char (sep : string) (c : ascii) (piece : string) (pieces : list string) :
  join sep (String c piece :: pieces) = String c (join sep (piece :: pieces)).
Proof. destruct pieces; reflexivity. Qed.

(** Joining the pieces with the separator gives the text back. *)
Lemma join_split_char (sep : ascii) (s : string) :
  join (String sep EmptyString) (split_char sep s) = s.
Proof.
  induction s as [|c s IH]; [reflexivity|]. simpl split_char.
  destruct (Ascii.eqb c sep) eqn:Hc.
  - apply Ascii.eqb_eq in Hc. subst c.
    rewrite join_cons by apply split_char_nonempty. now rewrite IH.
  - pose proof (split_char_nonempty sep s) as Hne.
    destruct (split_char sep s) as [|piece pieces]; [done|].
    now rewrite join_cons_char, IH.
Qed.

(** No piece holds the separator. *)
Lemma split_char_pieces (sep : ascii) (s : string) :
  Forall (fun piece => contains sep piece = false) (split_char sep s).
Proof.
  induction s as [|c s IH]; simpl split_char; [repeat constructor|].
  destruct (Ascii.eqb c sep) eqn:Hc.
  - constructor; [reflexivity | exact IH].
  - destruct (split_char sep s) as [|piece pieces]; [repeat constructor|].
    + simpl. now rewrite Ascii.eqb_sym, Hc.
    + inversion IH; subst. constructor; [|assumption].
      simpl. rewrite Ascii.eqb_sym, Hc. assumption.
Qed.

Lemma join_snoc (sep : string) (pieces : list string) (piece : string) :
  pieces <> [] ->
  join sep (pieces ++ [piece]) = join sep pieces +:+ sep +:+ piece.
Proof.
  induction pieces as [|p pieces IH]; [done|]. intros _.
  destruct pieces as [|q pieces]; [reflexivity|].
  change ((p :: q :: pieces) ++ [piece]) with (p :: ((q :: pieces) ++ [piece])).
  rewrite join_cons by discriminate. rewrite IH by discriminate.
  rewrite (join_cons sep p (q :: pieces)) by discriminate.
  now rewrite !append_assoc.
Qed.

(** The last piece is what follows the last separator. *)
Lemma last_piece_split (sep : ascii) (s : string) :
  contains sep (last_piece (split_char sep s)) = false
  /\ (s = last_piece (split_char sep s)
      \/ exists front, s = front +:+ String sep EmptyString
                            +:+ last_piece (split_char sep s)).
Proof.
  pose proof (split_char_nonempty sep s) as Hne.
  pose proof (split_char_pieces sep s) as Hall.
  pose proof (join_split_char sep s) as Hjoin.
  destruct (exists_last Hne) as (front & final & Heq).
  unfold last_piece. rewrite Heq in *. rewrite last_last.
  apply Forall_app in Hall as [_ Hfinal].
  inversion Hfinal as [|? ? Hlast _].
  split; [exact Hlast|].
  destruct front as [|p front]; [left; now rewrite <- Hjoin|].
  right. exists (join (String sep EmptyString) (p :: front)).
  rewrite <- Hjoin at 1. now apply join_snoc.
Qed.

(** The first piece is what precedes the first separator. *)
Lemma first_piece_split (sep : ascii) (s : string) :
  contains sep (first_piece (split_char sep s)) = false
  /\ (s = first_piece (split_char sep s)
      \/ exists rest, s = first_piece (split_char sep s)
                           +:+ String sep EmptyString +:+ rest).
Proof.
  pose proof (split_char_pieces sep s) as Hall.
  pose proof (join_split_char sep s) as Hjoin.
  pose proof (split_char_nonempty sep s) as Hne.
  destruct (split_char sep s) as [|piece pieces]; [done|].
  unfold first_piece. cbn [hd]. inversion Hall as [|? ? Hfirst _].
  split; [exact Hfirst|].
  destruct pieces as [|q pieces]; [left; now rewrite <- Hjoin|].
  right. exists (join (String sep EmptyString) (q :: pieces)).
  rewrite <- Hjoin at 1. now apply join_cons.
Qed.

Lemma prefix_contains (c : ascii) (p s : string) :
  starts_with p s = true -> contains c p = true -> contains c s = true.
Proof.
  unfold starts_with. revert s.
  induction p as [|x p IH]; intros s Hpre Hc; [discriminate|].
  destruct s as [|y s]; [discriminate|]. simpl in Hpre.
  destruct (ascii_dec x y) as [->|]; [|discriminate].
  simpl in *. destruct (Ascii.eqb c y); [reflexivity|]. now apply IH.
Qed.

(** A link the URL pattern accepts holds a slash. *)
Lemma match_url_has_slash (link : string) :
  match_url link = true -> contains "/" link = true.
Proof.
  unfold match_url. cbn [existsb].
  rewrite !orb_true_iff, !andb_true_iff.
  intros [[H _]|[[H _]|[[H _]|H]]]; [| | |discriminate];
    now apply (prefix_contains "/" _ _ H).
Qed.

(** C2, as the code has it. For every link the URL pattern accepts, the
    name [create_project] uses is what stands between the last slash of
    the link and the first dot after it: the final segment cut at its
    first dot, so that all that follows the first dot is dropped and not
    just the last extension. The link of the specification,
    https://example.com/org/bar.git, is accepted and gives the name bar. *)
Theorem link_name_shape :
  (forall link,
     match_url link = true ->
     exists front segment,
       link = front +:+ "/" +:+ segment
       /\ contains "/" segment = false
       /\ segment = final_segment link
       /\ contains "." (link_name link) = false
       /\ (segment = link_name link
           \/ exists rest, segment = link_name link +:+ "." +:+ rest))
  /\ match_url "https://example.com/org/bar.git" = true
  /\ link_name "https://example.com/org/bar.git" = "bar".
Proof.
  split; [|split; reflexivity].
  intros link Hurl. apply match_url_has_slash in Hurl.
  destruct (last_piece_split "/" link) as [Hseg [Hwhole|[front Hfront]]].
  - rewrite Hwhole in Hurl. congruence.
  - exists front, (final_segment link). unfold final_segment.
    split; [exact Hfront|]. split; [exact Hseg|]. split; [reflexivity|].
    unfold link_name. apply first_piece_split.
Qed.

Lemma link_name_shape_witness :
  exists front segment,
    "https://example.com/org/socket.io.git" = front +:+ "/" +:+ segment
    /\ contains "/" segment = false
    /\ segment = final_segment "https://example.com/org/socket.io.git"
    /\ contains "." (link_name "https://example.com/org/socket.io.git") = false
    /\ (segment = link_name "https://example.com/org/socket.io.git"
        \/ exists rest,
             segment = link_name "https://example.com/org/socket.io.git"
                       +:+ "." +:+ rest).
Proof.
  apply (proj1 link_name_shape "https://example.com/org/socket.io.git").
  reflexivity.
Defined.

(** C2 as the specification states it fails: a link the pattern accepts
    whose final segment has two dots. The name the code takes is socket,
    the segment without its extension is socket.io. *)
Lemma link_name_not_extension_stripped :
  let link := "https://example.com/org/socket.io.git" in
  match_url link = true
  /\ final_segment link = "socket.io.git"
  /\ extension_stripped (final_segment link) = "socket.io"
  /\ link_name link = "socket"
  /\ link_name link <> extension_stripped (final_segment link).
Proof. repeat split; try reflexivity. discriminate. Qed.

(** ** The command line *)

Lemma starts_with_append (p s : string) :
  starts_with p s = true -> exists rest, s = p +:+ rest.
Proof.
  unfold starts_with. revert s.
  induction p as [|x p IH]; intros s Hpre; [now exists s|].
  destruct s as [|y s]; [discriminate|]. simpl in Hpre.
  destruct (ascii_dec x y) as [->|]; [|discriminate].
  destruct (IH s Hpre) as [rest ->]. now exists rest.
Qed.

(** No argument is both a bare name and a URL: the colon of the scheme is
    no character of a name. *)
Lemma name_is_no_url (argument : string) :
  match_name argument = true -> match_url argument = false.
Proof.
  intros Hname. destruct (match_url argument) eqn:Hurl; [|reflexivity].
  unfold match_url in Hurl. cbn [existsb] in Hurl.
  rewrite !orb_true_iff, !andb_true_iff in Hurl.
  destruct Hurl as [[H _]|[[H _]|[[H _]|H]]]; [| | |discriminate];
    apply starts_with_append in H as [rest ->]; discriminate Hname.
Qed.

Section Main.

Variable E : env.

Lemma run_read_config (w : world) (text : string) (wr : bool) (cfg : config) :
  let path := path_str (config_path E) in
  node_at (w_fs w) (w_cwd w) path = Some (File text wr) ->
  ini_parse E text = inr cfg ->
  read_config E w = (Ok cfg, add_event (EvOpenRead path) (add_event (EvStat path) w)).
Proof.
  intros path Hnode Hparse. unfold read_config. fold path.
  run_step. rewrite Hnode, exists_some. cbn [negb]. run_step.
  unfold config_read. world_simpl.
  assert (Hread : read_file (w_fs w) (w_cwd w) path = inr text).
  { unfold node_at in Hnode. unfold read_file.
    destruct (resolve (w_cwd w) path); [|discriminate]. now rewrite Hnode. }
  now rewrite Hread, Hparse.
Qed.

Lemma run_read_config_error (w : world) (text msg : string) (wr : bool) :
  let path := path_str (config_path E) in
  node_at (w_fs w) (w_cwd w) path = Some (File text wr) ->
  ini_parse E text = inl msg ->
  read_config E w
  = (Exit 1,
     add_log (CONFIG_ERROR_MSG msg)
       (add_event (EvOpenRead path) (add_event (EvStat path) w))).
Proof.
  intros path Hnode Hparse. unfold read_config. fold path.
  run_step. rewrite Hnode, exists_some. cbn [negb]. run_step.
  unfold config_read. world_simpl.
  assert (Hread : read_file (w_fs w) (w_cwd w) path = inr text).
  { unfold node_at in Hnode. unfold read_file.
    destruct (resolve (w_cwd w) path); [|discriminate]. now rewrite Hnode. }
  rewrite Hread, Hparse, run_error_exit. reflexivity.
Qed.

Lemma run_read_config_directory (w : world) (d : bool) :
  let path := path_str (config_path E) in
  node_at (w_fs w) (w_cwd w) path = Some (Dir d) ->
  read_config E w = (Ok ∅, add_event (EvOpenRead path) (add_event (EvStat path) w)).
Proof.
  intros path Hnode. unfold read_config. fold path.
  run_step. rewrite Hnode, exists_some. cbn [negb]. run_step.
  unfold config_read. world_simpl.
  assert (Hread : read_file (w_fs w) (w_cwd w) path = inl (eisdir path)).
  { unfold node_at in Hnode. unfold read_file.
    destruct (resolve (w_cwd w) path); [|discriminate]. now rewrite Hnode. }
  now rewrite Hread.
Qed.

Lemma run_read_config_missing (w : world) :
  let path := path_str (config_path E) in
  node_at (w_fs w) (w_cwd w) path = None ->
  read_config E w
  = (Exit 1, add_log (FILE_NOT_FOUND_ERROR_MSG path) (add_event (EvStat path) w)).
Proof.
  intros path Hnone. unfold read_config. fold path.
  run_step. rewrite Hnone, exists_none. cbn [negb].
  rewrite run_bind, run_error_exit. reflexivity.
Qed.

(** What the parser printed is all that changed when it ended the run. *)
Lemma printed_world (printed : list string) (w : world) :
  let w' := fold_left (fun w' line => add_stdout line w') printed w in
  w_fs w' = w_fs w /\ w_cwd w' = w_cwd w /\ w_log w' = w_log w
  /\ w_trace w' = w_trace w /\ w_stdout w' = w_stdout w ++ printed.
Proof.
  revert w. induction printed as [|line printed IH]; intros w; cbn [fold_left].
  - now rewrite app_nil_r.
  - destruct (IH (add_stdout line w)) as (Hfs & Hcwd & Hlog & Htrace & Hout).
    cbv zeta. rewrite Hfs, Hcwd, Hlog, Htrace, Hout. world_simpl.
    now rewrite <- app_assoc.
Qed.

(** C4, as the code has it, for every command line. [main] starts with
    the parser, which may end the run by itself: then the exit status is
    the parser's, and nothing was looked for, read, logged or classified.
    With the command line parsed, [main] looks for the configuration file
    and reads it; a missing file, and a file that does not parse, is what
    gets reported then, with exit status 1, whatever the argument. With
    the configuration read (it is empty when the file is a directory), the
    positional argument is classified as bare name, URL or invalid, in that
    order of priority (for [--clean] a URL counts as invalid), and nothing
    else has happened by then: a bare name or a URL goes to the operation,
    which starts in the world the reading left; an invalid argument is
    answered by the usage message and exit status 1 in that same world, so
    the tree is unchanged and the two accesses to the configuration file
    are the only ones made. *)
Theorem main_classifies_argument (parse_args : list string -> parsed)
    (argv : list string) (w : world) :
  let path := path_str (config_path E) in
  let run := main_argv E parse_args argv w in
  let w1 := add_event (EvOpenRead path) (add_event (EvStat path) w) in
  let classified (args : namespace) (cfg : config) :=
    let project := args_project args in
    match args_clean args, classify project with
    | false, BareName => create_project E project cfg false w1
    | false, Url => create_project E project cfg true w1
    | false, Invalid =>
        (Exit 1, add_log (project +:+ ": " +:+ ARGS_PROJECT_HELP) w1)
    | true, BareName => clean_project project cfg w1
    | true, _ =>
        (Exit 1, add_log ("error " +:+ project +:+ ": " +:+ ARGS_PROJECT_HELP) w1)
    end in
  (forall status printed,
     parse_args argv = ParserExit status printed ->
     fst run = Exit status
     /\ w_fs (snd run) = w_fs w
     /\ w_log (snd run) = w_log w
     /\ w_trace (snd run) = w_trace w
     /\ w_stdout (snd run) = w_stdout w ++ printed)
  /\ (forall args,
       parse_args argv = Parsed args ->
       (node_at (w_fs w) (w_cwd w) path = None ->
        run = (Exit 1,
               add_log (FILE_NOT_FOUND_ERROR_MSG path) (add_event (EvStat path) w)))
       /\ (forall text wr msg,
            node_at (w_fs w) (w_cwd w) path = Some (File text wr) ->
            ini_parse E text = inl msg ->
            run = (Exit 1, add_log (CONFIG_ERROR_MSG msg) w1))
       /\ (forall text wr cfg,
            node_at (w_fs w) (w_cwd w) path = Some (File text wr) ->
            ini_parse E text = inr cfg ->
            run = classified args cfg)
       /\ (forall d,
            node_at (w_fs w) (w_cwd w) path = Some (Dir d) ->
            run = classified args ∅)).
Proof.
  intros path run w1 classified. subst run. unfold main_argv. split.
  - intros status printed ->. cbn [fst snd].
    destruct (printed_world printed w) as (Hfs & _ & Hlog & Htrace & Hout).
    now repeat split.
  - intros args ->.
    assert (Hclass : forall cfg,
              read_config E w = (Ok cfg, w1) -> main E args w = classified args cfg).
    { intros cfg Hcfg. unfold main. rewrite run_bind, Hcfg.
      subst classified. cbv beta zeta. unfold classify.
      destruct (args_clean args), (Re.match_name (args_project args)),
        (Re.match_url (args_project args)); reflexivity. }
    split; [|split; [|split]].
    + intros Hnone. unfold main.
      now rewrite run_bind, (run_read_config_missing w Hnone).
    + intros text wr msg Hnode Hparse. unfold main.
      now rewrite run_bind, (run_read_config_error w text msg wr Hnode Hparse).
    + intros text wr cfg Hnode Hparse.
      apply Hclass, (run_read_config w text wr cfg Hnode Hparse).
    + intros d Hnode. apply Hclass, (run_read_config_directory w d Hnode).
Qed.

End Main.

Lemma main_classifies_argument_witness :
  main_argv ProjectSample.env_works ProjectSample.parse_sample ["--clean"; "foo bar"]
    ProjectSample.fresh
  = (Exit 1,
     mkWorld ProjectSample.base_fs ["home"] []
       ["error foo bar: " +:+ ARGS_PROJECT_HELP]
       [EvStat "/opt/tools/config.ini"; EvOpenRead "/opt/tools/config.ini"])
  /\ main_argv ProjectSample.env_works ProjectSample.parse_sample ["foo"]
       ProjectSample.no_config
     = (Exit 1,
        mkWorld {[ [] := Dir true ]} ["home"] []
          [FILE_NOT_FOUND_ERROR_MSG "/opt/tools/config.ini"]
          [EvStat "/opt/tools/config.ini"])
  /\ main_argv ProjectSample.env_works ProjectSample.parse_sample []
       ProjectSample.fresh
     = (Exit 2, ProjectSample.fresh).
Proof.
  split; [|split].
  - destruct (main_classifies_argument ProjectSample.env_works
                ProjectSample.parse_sample ["--clean"; "foo bar"] ProjectSample.fresh)
      as [_ Hparsed].
    destruct (Hparsed (mkArgs "foo bar" true) eq_refl) as (_ & _ & Hread & _).
    exact (Hread ProjectSample.config_text true ProjectSample.roots eq_refl eq_refl).
  - destruct (main_classifies_argument ProjectSample.env_works
                ProjectSample.parse_sample ["foo"] ProjectSample.no_config)
      as [_ Hparsed].
    destruct (Hparsed (mkArgs "foo" false) eq_refl) as (Hmissing & _).
    exact (Hmissing eq_refl).
  - destruct (main_classifies_argument ProjectSample.env_works
                ProjectSample.parse_sample [] ProjectSample.fresh)
      as [Hexit _].
    destruct (Hexit 2 [] eq_refl) as (Hstatus & _).
    destruct (main_argv ProjectSample.env_works ProjectSample.parse_sample []
                ProjectSample.fresh) as [r w'] eqn:Hrun.
    cbn [fst] in Hstatus. subst r. f_equal.
    injection Hrun as <-. reflexivity.
Defined.

(** C4 as the specification states it fails twice. An invalid argument
    given where the configuration file is missing gets the message about
    the file, not the usage message; and where the file is there, the
    usage message comes after the file was looked for and read. *)
Lemma main_invalid_argument_reads_config :
  classify "foo bar" = Invalid
  /\ (let out := main ProjectSample.env_works (mkArgs "foo bar" false)
                   ProjectSample.no_config in
      fst out = Exit 1
      /\ w_log (snd out) = [FILE_NOT_FOUND_ERROR_MSG "/opt/tools/config.ini"]
      /\ ~ In ("foo bar: " +:+ ARGS_PROJECT_HELP) (w_log (snd out))
      /\ w_trace (snd out) = [EvStat "/opt/tools/config.ini"])
  /\ (let out := main ProjectSample.env_works (mkArgs "foo bar" false)
                   ProjectSample.fresh in
      fst out = Exit 1
      /\ w_log (snd out) = ["foo bar: " +:+ ARGS_PROJECT_HELP]
      /\ w_trace (snd out)
         = [EvStat "/opt/tools/config.ini"; EvOpenRead "/opt/tools/config.ini"]).
Proof.
  split; [reflexivity|]. split.
  - split; [reflexivity|]. split; [reflexivity|]. split; [|reflexivity].
    intros [Heq|[]]. discriminate Heq.
  - repeat split; reflexivity.
Qed.

End VscodeProjectSpec.

(** * Further properties of the line filter *)

Module MatchReaderMore.
Import MatchReader SpecWords MoreWords MatchReaderSpec.

(** What [read_lines] does once the file is open. *)
Lemma read_lines_open (w : world) (file_path content : string) (wr : bool)
    (match_callback : option pyfunc) :
  node_at (w_fs w) (w_cwd w) file_path = Some (File content wr) ->
  read_lines file_path match_callback w
  = let w1 := add_event (EvOpenRead file_path) w in
    match comprehension (default default_callback match_callback)
            (file_lines content) with
    | Ok lines => (Ok (Some lines), w1)
    | Raise e =>
        if is_FileNotFoundError (exn_cls e)
        then (Ok None, add_stdout ("File '" +:+ file_path +:+ "' not found.") w1)
        else (Raise e, w1)
    | Exit code => (Exit code, w1)
    end.
Proof.
  intros Hfile.
  assert (Hread : read_file (w_fs w) (w_cwd w) file_path = inr content).
  { unfold node_at in Hfile. unfold read_file.
    destruct (resolve (w_cwd w) file_path); [|discriminate]. now rewrite Hfile. }
  unfold read_lines, os_read. rewrite Hread. reflexivity.
Qed.

(** The callback stops the comprehension at the first line it raises on. *)
Lemma comprehension_raises (cb : pyfunc) (front : list string) (line : string)
    (back : list string) (e : exn) :
  (forall l, In l front -> exists v, fn_call cb [PyStr l] [] = Ok v) ->
  fn_call cb [PyStr line] [] = Raise e ->
  comprehension cb (front ++ line :: back) = Raise e.
Proof.
  intros Hfront Hline. induction front as [|l front IH]; simpl.
  - now rewrite Hline.
  - destruct (Hfront l (or_introl eq_refl)) as [v ->].
    rewrite IH; [reflexivity|]. intros l' Hl'. apply Hfront. now right.
Qed.

(** Reading with universal newlines leaves no carriage return. *)
Lemma universal_newlines_no_cr (s : string) :
  contains CR (universal_newlines s) = false.
Proof.
  assert (H : forall n s, (String.length s <= n)%nat ->
                          contains CR (universal_newlines s) = false).
  { clear s. induction n as [|n IH]; intros s Hlen.
    - destruct s; [reflexivity | simpl in Hlen; lia].
    - destruct s as [|c s]; [reflexivity|]. simpl in Hlen.
      cbn [universal_newlines]. destruct (Ascii.eqb c CR) eqn:Hc.
      + destruct s as [|d s]; [reflexivity|]. simpl in Hlen.
        destruct (Ascii.eqb d LF); rewrite contains_cons;
          (rewrite IH by (simpl; lia)); reflexivity.
      + rewrite contains_cons, Ascii.eqb_sym, Hc. apply IH. lia. }
  apply (H (String.length s)). lia.
Qed.

(** A character of a line is a character of the text. *)
Lemma iter_lines_contains (c : ascii) (s line : string) :
  In line (iter_lines s) -> contains c line = true -> contains c s = true.
Proof.
  revert line. induction s as [|d s IH]; intros line Hin Hc; [destruct Hin|].
  simpl in Hin. rewrite contains_cons.
  destruct (Ascii.eqb d LF) eqn:Hd.
  - destruct Hin as [<-|Hin].
    + apply Ascii.eqb_eq in Hd. subst d. rewrite contains_cons in Hc.
      simpl in Hc. now rewrite orb_false_r in Hc; rewrite Hc.
    + rewrite (IH line Hin Hc). apply orb_true_r.
  - destruct (iter_lines s) as [|l rest].
    + destruct Hin as [<-|[]]. rewrite contains_cons in Hc.
      simpl in Hc. now rewrite orb_false_r in Hc; rewrite Hc.
    + destruct Hin as [<-|Hin].
      * rewrite contains_cons in Hc. apply orb_true_iff in Hc as [->|Hc];
          [reflexivity|].
        rewrite (IH l (or_introl eq_refl) Hc). apply orb_true_r.
      * rewrite (IH line (or_intror Hin) Hc). apply orb_true_r.
Qed.

Lemma contains_drop_last_le (c : ascii) (s : string) :
  contains c (drop_last s) = true -> contains c s = true.
Proof. intros H. rewrite contains_drop_last, H. reflexivity. Qed.

(** X1. Whatever the file holds and whatever the predicate keeps, no line
    that [read_lines] returns holds a newline or a carriage return. *)
Theorem read_lines_no_line_break (w : world) (file_path content : string) (wr : bool)
    (match_callback : option pyfunc) (lines : list string) (w' : world) :
  node_at (w_fs w) (w_cwd w) file_path = Some (File content wr) ->
  read_lines file_path match_callback w = (Ok (Some lines), w') ->
  Forall (fun line => no_line_break line = true) lines.
Proof.
  intros Hfile Hrun. rewrite (read_lines_open _ _ _ _ _ Hfile) in Hrun.
  cbv zeta in Hrun.
  set (cb := default default_callback match_callback) in Hrun.
  assert (Hall : forall ls out, comprehension cb ls = Ok out ->
            Forall (fun l => contains LF (drop_last l) = false
                             /\ contains CR l = false) ls ->
            Forall (fun line => no_line_break line = true) out).
  { induction ls as [|l ls IH]; intros out Hout Hls; simpl in Hout.
    - inversion Hout. constructor.
    - inversion Hls as [|? ? [Hlf Hcr] Hrest]; subst.
      destruct (fn_call cb [PyStr l] []) as [v| |]; try discriminate.
      destruct (comprehension cb ls) as [out'| |]; try discriminate.
      inversion Hout; subst. specialize (IH out' eq_refl Hrest).
      destruct (truthy v); [|exact IH]. constructor; [|exact IH].
      unfold no_line_break. rewrite (strip_line_newline_stripped l Hlf).
      unfold newline_stripped.
      destruct (ends_with_newline l) eqn:Hend.
      + rewrite Hlf. simpl.
        destruct (contains CR (drop_last l)) eqn:Hd; [|reflexivity].
        apply contains_drop_last_le in Hd. congruence.
      + rewrite Hcr. rewrite contains_drop_last, Hlf, <- ends_with_newline_last, Hend.
        reflexivity. }
  destruct (comprehension cb (file_lines content)) as [out|e|code] eqn:Hc.
  - inversion Hrun; subst. apply (Hall _ _ Hc).
    apply List.Forall_forall. intros l Hl. split.
    + pose proof (iter_lines_shape (universal_newlines content)) as Hs.
      rewrite List.Forall_forall in Hs. now apply Hs.
    + destruct (contains CR l) eqn:Hcr; [|reflexivity].
      apply (iter_lines_contains CR _ _ Hl) in Hcr.
      now rewrite universal_newlines_no_cr in Hcr.
  - destruct (is_FileNotFoundError (exn_cls e)); discriminate.
  - discriminate.
Qed.

Lemma read_lines_no_line_break_witness :
  Forall (fun line => no_line_break line = true) ["hello world"].
Proof.
  apply (read_lines_no_line_break Sample.hosts_world "hosts.txt" Sample.hosts_text true
           (Some Sample.spaces_callback) ["hello world"]
           (add_event (EvOpenRead "hosts.txt") Sample.hosts_world));
    reflexivity.
Defined.

Lemma universal_newlines_id (s : string) :
  contains CR s = false -> universal_newlines s = s.
Proof.
  induction s as [|c s IH]; [reflexivity|]. rewrite contains_cons.
  intros H. apply orb_false_iff in H as [Hc Hs].
  cbn [universal_newlines]. rewrite Ascii.eqb_sym, Hc. now rewrite IH.
Qed.

Lemma strip_line_cons (c : ascii) (l : string) :
  Ascii.eqb c LF = false -> strip_line (String c l) = String c (strip_line l).
Proof.
  intros Hc. unfold strip_line. rewrite contains_cons, Ascii.eqb_sym, Hc.
  cbn [orb]. destruct l as [|d l]; [reflexivity|].
  destruct (contains LF (String d l)); reflexivity.
Qed.

Lemma iter_lines_nil (s : string) : iter_lines s = [] -> s = EmptyString.
Proof. intros H. rewrite <- (iter_lines_concat s), H. reflexivity. Qed.

Lemma ends_with_newline_cons (c d : ascii) (s : string) :
  ends_with_newline (String c (String d s)) = ends_with_newline (String d s).
Proof. reflexivity. Qed.

(** The lines without their newlines, joined by newlines, are the text
    without its final newline. *)
Lemma join_stripped_lines (t : string) :
  let joined := join (String LF EmptyString) (List.map strip_line (iter_lines t)) in
  if ends_with_newline t then joined +:+ String LF EmptyString = t else joined = t.
Proof.
  induction t as [|c t IH]; [reflexivity|]. cbv zeta in *.
  cbn [iter_lines]. destruct (Ascii.eqb c LF) eqn:Hc.
  - apply Ascii.eqb_eq in Hc. subst c.
    destruct (iter_lines t) as [|l ls] eqn:Hlines.
    + apply iter_lines_nil in Hlines. subst t. reflexivity.
    + destruct t as [|d t]; [discriminate|].
      rewrite ends_with_newline_cons.
      cbn [List.map]. change (strip_line (String LF EmptyString)) with EmptyString.
      cbn [List.map] in IH.
      rewrite VscodeProjectSpec.join_cons by discriminate.
      destruct (ends_with_newline (String d t)).
      * rewrite <- IH. reflexivity.
      * rewrite <- IH. reflexivity.
  - destruct (iter_lines t) as [|l ls] eqn:Hlines.
    + apply iter_lines_nil in Hlines. subst t.
      cbn [List.map]. rewrite (strip_line_cons c EmptyString Hc).
      cbn [ends_with_newline]. rewrite Hc. reflexivity.
    + destruct t as [|d t]; [discriminate|].
      rewrite ends_with_newline_cons.
      cbn [List.map] in *. rewrite (strip_line_cons c l Hc).
      rewrite VscodeProjectSpec.join_cons_char.
      destruct (ends_with_newline (String d t)).
      * rewrite <- IH. reflexivity.
      * rewrite <- IH. reflexivity.
Qed.

(** X2. Reading a file without a predicate loses nothing but the line
    ends: the lines returned, joined by newlines, are the text of the file
    as read (its [\r\n] and [\r] turned into [\n]) without its final
    newline; a file without carriage returns is read as it is. *)
Theorem read_lines_round_trip (w : world) (file_path content : string) (wr : bool) :
  node_at (w_fs w) (w_cwd w) file_path = Some (File content wr) ->
  exists lines,
    read_lines file_path None w
    = (Ok (Some lines), add_event (EvOpenRead file_path) w)
    /\ (let text := universal_newlines content in
        let joined := join (String LF EmptyString) lines in
        if ends_with_newline text
        then joined +:+ String LF EmptyString = text
        else joined = text)
    /\ (contains CR content = false -> universal_newlines content = content).
Proof.
  intros Hfile. exists (List.map strip_line (file_lines content)).
  split; [|split].
  - rewrite (read_lines_open _ _ _ _ _ Hfile). cbv zeta. cbn [from_option id].
    rewrite (comprehension_total default_callback (fun _ => true)).
    + now rewrite filter_all.
    + intros line _. exists (PyBool true). split; reflexivity.
  - apply join_stripped_lines.
  - apply universal_newlines_id.
Qed.

Lemma read_lines_round_trip_witness :
  exists lines,
    read_lines "hosts.txt" None Sample.hosts_world
    = (Ok (Some lines), add_event (EvOpenRead "hosts.txt") Sample.hosts_world)
    /\ join (String LF EmptyString) lines
       = "example.com" +:+ String LF ("hello world" +:+ String LF "rocq.org").
Proof.
  destruct (read_lines_round_trip Sample.hosts_world "hosts.txt" Sample.hosts_text true
              eq_refl) as (lines & Hrun & Hjoin & _).
  exists lines. split; [exact Hrun | exact Hjoin].
Defined.

(** X3. The [try] of [read_lines] spans the calls of the predicate. When
    the predicate raises on a line (having returned on the lines before
    it), a [FileNotFoundError] of the predicate is answered like a missing
    file, with the message naming [file_path] and the result [None]; any
    other exception leaves [read_lines] as it is and nothing is printed. *)
Theorem read_lines_callback_raises (w : world) (file_path content : string) (wr : bool)
    (match_callback : pyfunc) (front : list string) (line : string)
    (back : list string) (e : exn) :
  node_at (w_fs w) (w_cwd w) file_path = Some (File content wr) ->
  file_lines content = front ++ line :: back ->
  (forall l, In l front -> exists v, fn_call match_callback [PyStr l] [] = Ok v) ->
  fn_call match_callback [PyStr line] [] = Raise e ->
  read_lines file_path (Some match_callback) w
  = if is_FileNotFoundError (exn_cls e)
    then (Ok None,
          add_stdout ("File '" +:+ file_path +:+ "' not found.")
            (add_event (EvOpenRead file_path) w))
    else (Raise e, add_event (EvOpenRead file_path) w).
Proof.
  intros Hfile Hlines Hfront Hline.
  rewrite (read_lines_open _ _ _ _ _ Hfile). cbv zeta. cbn [from_option id].
  rewrite Hlines, (comprehension_raises _ _ _ _ _ Hfront Hline).
  reflexivity.
Qed.

Lemma read_lines_callback_raises_witness :
  read_lines "hosts.txt" (Some MoreSample.lookup_callback) Sample.hosts_world
  = (Ok None,
     add_stdout "File 'hosts.txt' not found."
       (add_event (EvOpenRead "hosts.txt") Sample.hosts_world))
  /\ read_lines "hosts.txt" (Some MoreSample.strict_callback) Sample.hosts_world
     = (Raise (mkExn (OtherError "ValueError") "space in line"),
        add_event (EvOpenRead "hosts.txt") Sample.hosts_world).
Proof.
  split.
  - apply (read_lines_callback_raises Sample.hosts_world "hosts.txt"
             Sample.hosts_text true MoreSample.lookup_callback
             [] ("example.com" +:+ String LF EmptyString)
             ["hello world" +:+ String LF EmptyString; "rocq.org"]
             (enoent "index.txt")); try reflexivity.
    intros l [].
  - apply (read_lines_callback_raises Sample.hosts_world "hosts.txt"
             Sample.hosts_text true MoreSample.strict_callback
             ["example.com" +:+ String LF EmptyString]
             ("hello world" +:+ String LF EmptyString) ["rocq.org"]
             (mkExn (OtherError "ValueError") "space in line")); try reflexivity.
    intros l [<-|[]]. eexists. reflexivity.
Defined.

(** X4. [read_lines] with a predicate wrapped by [validate_bool]: when the
    predicate returns a [bool] on every line of the file the wrapping
    changes nothing; when it returns something else on a line (and
    [bool]s on the lines before), [read_lines] ends with the [TypeError]
    of the wrapper and returns no list. *)
Theorem read_lines_validated (w : world) (file_path content : string) (wr : bool)
    (func : pyfunc) :
  node_at (w_fs w) (w_cwd w) file_path = Some (File content wr) ->
  ((forall l, In l (file_lines content) ->
      exists b, fn_call func [PyStr l] [] = Ok (PyBool b)) ->
   read_lines file_path (Some (validate_bool func)) w
   = read_lines file_path (Some func) w)
  /\ (forall front line back v,
       file_lines content = front ++ line :: back ->
       (forall l, In l front -> exists b, fn_call func [PyStr l] [] = Ok (PyBool b)) ->
       fn_call func [PyStr line] [] = Ok v ->
       (forall b, v <> PyBool b) ->
       read_lines file_path (Some (validate_bool func)) w
       = (Raise (mkExn TypeError (fn_name func +:+ " must return a boolean value.")),
          add_event (EvOpenRead file_path) w)).
Proof.
  intros Hfile. split.
  - intros Hbool.
    rewrite !(read_lines_open _ _ _ _ _ Hfile). cbv zeta. cbn [from_option id].
    assert (Hsame : forall ls, (forall l, In l ls -> In l (file_lines content)) ->
              comprehension (validate_bool func) ls = comprehension func ls).
    { induction ls as [|l ls IH]; intros Hsub; [reflexivity|].
      destruct (Hbool l (Hsub l (or_introl eq_refl))) as [b Hb].
      simpl. rewrite Hb. simpl.
      rewrite IH by (intros l' Hl'; apply Hsub; now right). reflexivity. }
    rewrite Hsame by auto. reflexivity.
  - intros front line back v Hlines Hfront Hline Hnot.
    rewrite (read_lines_open _ _ _ _ _ Hfile). cbv zeta. cbn [from_option id].
    rewrite Hlines.
    rewrite (comprehension_raises (validate_bool func) front line back
               (mkExn TypeError (fn_name func +:+ " must return a boolean value."))).
    + reflexivity.
    + intros l Hl. destruct (Hfront l Hl) as [b Hb]. exists (PyBool b).
      simpl. now rewrite Hb.
    + simpl. rewrite Hline. destruct v; try reflexivity. now destruct (Hnot b).
Qed.

Lemma read_lines_validated_witness :
  read_lines "hosts.txt" (Some (validate_bool MoreSample.mixed_callback))
    Sample.hosts_world
  = (Raise (mkExn TypeError "mixed must return a boolean value."),
     add_event (EvOpenRead "hosts.txt") Sample.hosts_world).
Proof.
  destruct (read_lines_validated Sample.hosts_world "hosts.txt" Sample.hosts_text true
              MoreSample.mixed_callback eq_refl) as [_ Hraise].
  apply (Hraise ["example.com" +:+ String LF EmptyString]
           ("hello world" +:+ String LF EmptyString) ["rocq.org"] (PyInt 1));
    try reflexivity.
  - intros l [<-|[]]. exists true. reflexivity.
  - intros b. discriminate.
Defined.

(** X5. Decorating a function twice with [validate_bool] is the same as
    decorating it once, on every call; and an exception of the function
    passes through the decorator as it is. *)
Theorem validate_bool_idempotent (func : pyfunc) (args : list pyval)
    (kwargs : list (string * pyval)) :
  fn_call (validate_bool (validate_bool func)) args kwargs
  = fn_call (validate_bool func) args kwargs
  /\ fn_name (validate_bool (validate_bool func)) = fn_name func
  /\ (forall e, fn_call func args kwargs = Raise e ->
              fn_call (validate_bool func) args kwargs = Raise e).
Proof.
  split; [|split].
  - simpl. destruct (fn_call func args kwargs) as [v|e|code]; try reflexivity.
    destruct v; reflexivity.
  - reflexivity.
  - intros e He. simpl. now rewrite He.
Qed.

End MatchReaderMore.

(** * Further properties of the project scaffolder *)

Module VscodeProjectMore.
Import Re Json VscodeProject SpecWords MoreWords VscodeProjectSpec.

Section Configuration.

Variable E : env.

(** Without the section [core] neither operation gets anywhere. *)
Lemma no_section_run (identifier : string) (cfg : config) (is_clone : bool)
    (w : world) :
  cfg !! CONFIG_CORE = None ->
  create_project E identifier cfg is_clone w
  = (Raise (mkExn NoSectionError "No section: 'core'"), w)
  /\ clean_project identifier cfg w
     = (Raise (mkExn NoSectionError "No section: 'core'"), w).
Proof.
  intros Hcore. unfold create_project, clean_project.
  rewrite !run_bind. unfold config_get. rewrite Hcore. split; reflexivity.
Qed.

(** X6. Both operations read the two roots before anything else. With the
    section [core] or one of its two options missing, [create_project] and
    [clean_project] raise the [NoSectionError] or [NoOptionError] of
    [config.get] at once: nothing is looked up in the file tree, nothing is
    logged, nothing is changed. *)
Theorem operations_need_roots (identifier : string) (cfg : config) (is_clone : bool)
    (w : world) :
  (cfg !! CONFIG_CORE = None ->
   let e := mkExn NoSectionError "No section: 'core'" in
   create_project E identifier cfg is_clone w = (Raise e, w)
   /\ clean_project identifier cfg w = (Raise e, w))
  /\ (forall options,
       cfg !! CONFIG_CORE = Some options ->
       options !! CONFIG_CORE_REPOSITORY = None ->
       let e := mkExn NoOptionError "No option 'repository' in section: 'core'" in
       create_project E identifier cfg is_clone w = (Raise e, w)
       /\ clean_project identifier cfg w = (Raise e, w))
  /\ (forall options repository,
       cfg !! CONFIG_CORE = Some options ->
       options !! CONFIG_CORE_REPOSITORY = Some repository ->
       options !! CONFIG_CORE_WORKSPACE = None ->
       let e := mkExn NoOptionError "No option 'workspace' in section: 'core'" in
       create_project E identifier cfg is_clone w = (Raise e, w)
       /\ clean_project identifier cfg w = (Raise e, w)).
Proof.
  split; [|split].
  - intros Hcore e. now apply no_section_run.
  - intros options Hcore Hrepo e. unfold create_project, clean_project.
    rewrite !run_bind. unfold config_get at 1 3. rewrite Hcore, Hrepo.
    split; reflexivity.
  - intros options repository Hcore Hrepo Hwork e.
    unfold create_project, clean_project.
    rewrite !run_bind, !(run_config_get _ _ _ _ _ _ Hcore Hrepo).
    rewrite !run_bind. unfold config_get. rewrite Hcore, Hwork.
    split; reflexivity.
Qed.

(** X7. A configuration file that is there but does not parse ends [main]
    for every argument, valid or not: the parser's message is logged behind
    the configuration-error text, the exit status is 1, and the tree is as
    it was. *)
Theorem main_config_parse_error (args : namespace) (w : world) (text msg : string)
    (wr : bool) :
  let path := path_str (config_path E) in
  node_at (w_fs w) (w_cwd w) path = Some (File text wr) ->
  ini_parse E text = inl msg ->
  main E args w
  = (Exit 1,
     add_log (CONFIG_ERROR_MSG msg)
       (add_event (EvOpenRead path) (add_event (EvStat path) w))).
Proof.
  intros path Hnode Hparse. unfold main. rewrite run_bind.
  unfold read_config. fold path.
  run_step. rewrite Hnode, exists_some. cbn [negb]. run_step.
  unfold config_read. world_simpl.
  assert (Hread : read_file (w_fs w) (w_cwd w) path = inr text).
  { unfold node_at in Hnode. unfold read_file.
    destruct (resolve (w_cwd w) path); [|discriminate]. now rewrite Hnode. }
  rewrite Hread, Hparse, run_error_exit. reflexivity.
Qed.

(** X8. A [config.ini] that exists but is a directory is passed over in
    silence: [read_config] returns an empty configuration, and [main] goes
    on to classify the argument. An invalid argument gets the usage
    message; a valid one reaches the operation, which raises
    [NoSectionError] without having touched the tree. *)
Theorem main_config_unreadable (args : namespace) (w : world) (d : bool) :
  let path := path_str (config_path E) in
  let project := args_project args in
  node_at (w_fs w) (w_cwd w) path = Some (Dir d) ->
  let w1 := add_event (EvOpenRead path) (add_event (EvStat path) w) in
  read_config E w = (Ok ∅, w1)
  /\ main E args w
     = match args_clean args, classify project with
       | false, Invalid =>
           (Exit 1, add_log (project +:+ ": " +:+ ARGS_PROJECT_HELP) w1)
       | true, Url | true, Invalid =>
           (Exit 1, add_log ("error " +:+ project +:+ ": " +:+ ARGS_PROJECT_HELP) w1)
       | _, _ => (Raise (mkExn NoSectionError "No section: 'core'"), w1)
       end.
Proof.
  intros path project Hnode w1.
  assert (Hcfg : read_config E w = (Ok ∅, w1)).
  { unfold read_config. fold path.
    run_step. rewrite Hnode, exists_some. cbn [negb]. run_step.
    unfold config_read. world_simpl.
    assert (Hread : read_file (w_fs w) (w_cwd w) path = inl (eisdir path)).
    { unfold node_at in Hnode. unfold read_file.
      destruct (resolve (w_cwd w) path); [|discriminate]. now rewrite Hnode. }
    now rewrite Hread. }
  split; [exact Hcfg|].
  unfold main. rewrite run_bind, Hcfg. fold project. unfold classify.
  destruct (no_section_run project ∅ false w1 (lookup_empty _)) as [Hc1 Hc2].
  destruct (no_section_run project ∅ true w1 (lookup_empty _)) as [Hc3 _].
  destruct (args_clean args), (match_name project), (match_url project);
    try reflexivity; assumption.
Qed.

End Configuration.

Lemma operations_need_roots_witness :
  create_project ProjectSample.env_works "foo" MoreSample.only_repository false
    ProjectSample.fresh
  = (Raise (mkExn NoOptionError "No option 'workspace' in section: 'core'"),
     ProjectSample.fresh)
  /\ clean_project "foo" ∅ ProjectSample.with_foo
     = (Raise (mkExn NoSectionError "No section: 'core'"), ProjectSample.with_foo).
Proof.
  split.
  - destruct (operations_need_roots ProjectSample.env_works "foo"
                MoreSample.only_repository false ProjectSample.fresh)
      as (_ & _ & Hwork).
    apply (Hwork {[ "repository" := "/r" ]} "/r"); reflexivity.
  - destruct (operations_need_roots ProjectSample.env_works "foo" ∅ false
                ProjectSample.with_foo) as (Hcore & _).
    apply Hcore. reflexivity.
Defined.

Lemma main_config_parse_error_witness :
  main MoreSample.env_bad_ini (mkArgs "foo" false) ProjectSample.fresh
  = (Exit 1,
     add_log (CONFIG_ERROR_MSG "File contains no section headers.")
       (add_event (EvOpenRead "/opt/tools/config.ini")
          (add_event (EvStat "/opt/tools/config.ini") ProjectSample.fresh))).
Proof.
  apply (main_config_parse_error MoreSample.env_bad_ini (mkArgs "foo" false)
           ProjectSample.fresh ProjectSample.config_text
           "File contains no section headers." true); reflexivity.
Defined.

Lemma main_config_unreadable_witness :
  main ProjectSample.env_works (mkArgs "foo" false) MoreSample.config_is_dir
  = (Raise (mkExn NoSectionError "No section: 'core'"),
     add_event (EvOpenRead "/opt/tools/config.ini")
       (add_event (EvStat "/opt/tools/config.ini") MoreSample.config_is_dir)).
Proof.
  destruct (main_config_unreadable ProjectSample.env_works (mkArgs "foo" false)
              MoreSample.config_is_dir true eq_refl) as [_ Hmain].
  exact Hmain.
Defined.

(** ** The two patterns *)

Lemma name_char_at_head (c : ascii) (s t : string) :
  name_char_at (String c s) = name_char_at (String c t).
Proof. reflexivity. Qed.

Lemma plus_then_end_cons (here : string -> bool) (c : ascii) (s : string) :
  plus_then_end here (String c s)
  = here (String c s) && (at_end s || plus_then_end here s).
Proof. reflexivity. Qed.

Lemma at_end_cases (s : string) :
  at_end s = true -> s = EmptyString \/ s = String LF EmptyString.
Proof.
  destruct s as [|c [|d s]]; [now left | | discriminate].
  simpl. intros H. apply Ascii.eqb_eq in H. subst c. now right.
Qed.



Lemma match_name_excludes (s : string) (x : ascii) :
  match_name s = true ->
  name_char_at (String x EmptyString) = false ->
  x <> LF ->
  contains x s = false.
Proof.
  unfold match_name. intros Hs Hx Hlf. induction s as [|c s IH]; [reflexivity|].
  rewrite plus_then_end_cons in Hs.
  apply andb_true_iff in Hs as [Hc Hs].
  cbn [contains]. destruct (Ascii.eqb x c) eqn:Hxc.
  - apply Ascii.eqb_eq in Hxc. subst c.
    rewrite (name_char_at_head x _ EmptyString) in Hc. congruence.
  - cbn [orb]. apply orb_true_iff in Hs as [Hend|Hrec]; [|now apply IH].
    destruct (at_end_cases s Hend) as [->| ->]; [reflexivity|].
    cbn [contains]. destruct (Ascii.eqb x LF) eqn:Hx'; [|reflexivity].
    apply Ascii.eqb_eq in Hx'. contradiction.
Qed.



(** X10. No argument matches both patterns, so the order in which [main]
    tries them decides nothing: trying the URL pattern first would classify
    every argument the same way. *)
Theorem patterns_exclusive (argument : string) :
  match_name argument && match_url argument = false
  /\ classify argument
     = (if match_url argument then Url
        else if match_name argument then BareName else Invalid).
Proof.
  unfold classify. destruct (match_name argument) eqn:Hname.
  - rewrite (name_is_no_url argument Hname). split; reflexivity.
  - split; reflexivity.
Qed.

(** ** Links without a name *)

(** Splitting distributes over a separator in the text. *)
Lemma split_char_append (sep : ascii) (a b : string) :
  split_char sep (a +:+ String sep b) = split_char sep a ++ split_char sep b.
Proof.
  induction a as [|c a IH].
  - change (EmptyString +:+ String sep b) with (String sep b).
    cbn [split_char]. now rewrite Ascii.eqb_refl.
  - change (String c a +:+ String sep b) with (String c (a +:+ String sep b)).
    cbn [split_char]. rewrite IH. destruct (Ascii.eqb c sep); [reflexivity|].
    pose proof (split_char_nonempty sep a) as Hne.
    destruct (split_char sep a) as [|p ps]; [done | reflexivity].
Qed.

Lemma final_segment_append (front segment : string) :
  final_segment (front +:+ "/" +:+ segment) = final_segment segment.
Proof.
  unfold final_segment, last_piece.
  change (front +:+ "/" +:+ segment) with (front +:+ String "/" segment).
  rewrite split_char_append.
  pose proof (split_char_nonempty "/" segment) as Hne.
  destruct (exists_last Hne) as (l & x & ->).
  now rewrite app_assoc, !last_last.
Qed.

Lemma joinpath_empty (p : Path) : joinpath p EmptyString = p.
Proof. destruct p as [root parts]. unfold joinpath. cbn. now rewrite app_nil_r. Qed.

Section EmptyName.

Variable E : env.

(** X11. A link whose last segment is empty or starts with a dot (a link
    that ends in a slash, for one) gives the empty name. [create_project]
    then takes the repository root itself for the project directory: with
    the root in place it reports that the project of the empty name exists
    and exits with status 1, and [git clone] is never run. *)
Theorem create_project_empty_name (front rest repository workspace : string)
    (cfg : config) (w : world) :
  let root := path_str (Path_of repository) in
  contains "/" rest = false ->
  has_roots cfg repository workspace ->
  is_Some (node_at (w_fs w) (w_cwd w) root) ->
  link_name (front +:+ "/") = EmptyString
  /\ link_name (front +:+ "/" +:+ "." +:+ rest) = EmptyString
  /\ forall link,
       link = front +:+ "/" \/ link = front +:+ "/" +:+ "." +:+ rest ->
       create_project E link cfg true w
       = (Exit 1,
          add_log (PROJECT_EXISTS_ERROR_MSG EmptyString) (add_event (EvStat root) w)).
Proof.
  intros root Hrest Hroots Hexists.
  assert (H1 : link_name (front +:+ "/") = EmptyString).
  { unfold link_name. fold (final_segment (front +:+ "/")).
    change (front +:+ "/") with (front +:+ "/" +:+ EmptyString).
    now rewrite final_segment_append. }
  assert (H2 : link_name (front +:+ "/" +:+ "." +:+ rest) = EmptyString).
  { unfold link_name. fold (final_segment (front +:+ "/" +:+ "." +:+ rest)).
    rewrite final_segment_append. unfold final_segment.
    destruct (last_piece_split "/" ("." +:+ rest)) as [_ [<-|[f Hf]]].
    - reflexivity.
    - assert (Hc : contains "/" ("." +:+ rest) = true).
      { rewrite Hf. clear. induction f as [|c f IH]; [reflexivity|].
        change (contains "/" (String c (f +:+ "/" +:+ last_piece (split_char "/" ("." +:+ rest)))) = true).
        cbn [contains]. rewrite IH. apply orb_true_r. }
      change ("." +:+ rest) with (String "." rest) in Hc.
      cbn [contains] in Hc. rewrite Hrest in Hc. discriminate. }
  split; [exact H1|]. split; [exact H2|].
  intros link Hlink.
  assert (Hname : link_name link = EmptyString) by (destruct Hlink as [->| ->]; assumption).
  destruct Hexists as [n Hn].
  unfold create_project. rewrite (run_roots _ _ _ _ _ Hroots).
  rewrite Hname, joinpath_empty. fold root.
  run_step. rewrite Hn, exists_some. cbn [negb].
  rewrite run_bind, run_error_exit. reflexivity.
Qed.

End EmptyName.

Lemma create_project_empty_name_witness :
  match_url "https://example.com/org/bar/" = true
  /\ create_project ProjectSample.env_works "https://example.com/org/bar/"
       ProjectSample.roots true ProjectSample.fresh
     = (Exit 1,
        add_log (PROJECT_EXISTS_ERROR_MSG EmptyString)
          (add_event (EvStat "/r") ProjectSample.fresh)).
Proof.
  split; [reflexivity|].
  assert (Hroots : has_roots ProjectSample.roots "/r" "/w").
  { eexists. repeat split; reflexivity. }
  assert (Hexists : is_Some (node_at (w_fs ProjectSample.fresh)
                               (w_cwd ProjectSample.fresh) "/r")).
  { eexists. reflexivity. }
  destruct (create_project_empty_name ProjectSample.env_works
              "https://example.com/org/bar" "git" "/r" "/w" ProjectSample.roots
              ProjectSample.fresh eq_refl Hroots Hexists) as (_ & _ & Hrun).
  apply Hrun. now left.
Defined.

(** ** What cleaning leaves behind *)

(** The two deletions of [clean_project], one after the other: the tree
    [fs1] after the directory step and the tree the run ends with. Each
    step finds nothing to do, or deletes, or fails and ends the run. *)
Lemma clean_project_outcome (name repository workspace : string) (cfg : config)
    (w : world) :
  let project_dir := path_str (project_dir_of repository name) in
  let workspace_file := path_str (workspace_file_of workspace name) in
  let out := clean_project name cfg w in
  has_roots cfg repository workspace ->
  exists fs1,
    ((node_at (w_fs w) (w_cwd w) project_dir = None /\ fs1 = w_fs w)
     \/ rmtree (w_fs w) (w_cwd w) project_dir = inr fs1
     \/ (fs1 = w_fs w /\ w_fs (snd out) = w_fs w /\ fst out <> Ok tt))
    /\ ((node_at fs1 (w_cwd w) workspace_file = None /\ w_fs (snd out) = fs1)
        \/ unlink fs1 (w_cwd w) workspace_file = inr (w_fs (snd out))
        \/ (w_fs (snd out) = fs1 /\ fst out <> Ok tt))
    /\ w_cwd (snd out) = w_cwd w.
Proof.
  intros project_dir workspace_file out Hroots. subst out.
  unfold clean_project. rewrite (run_roots _ _ _ _ _ Hroots).
  fold (project_dir_of repository name). fold project_dir.
  fold (workspace_file_of workspace name). fold workspace_file.
  run_step.
  destruct (node_at (w_fs w) (w_cwd w) project_dir) as [n|] eqn:Hdir.
  - rewrite exists_some. world_simpl. do 3 run_step.
    rewrite Hdir, exists_some.
    rewrite run_except_bind. unfold os_rmtree. rewrite run_fs_call. world_simpl.
    destruct (rmtree (w_fs w) (w_cwd w) project_dir) as [e|fs1] eqn:Hrm.
    + rewrite (rmtree_error_OSError _ _ _ _ Hrm), run_bind, run_error_exit.
      exists (w_fs w). world_simpl. split; [|split].
      * right. right. repeat split. discriminate.
      * right. right. split; [reflexivity | discriminate].
      * reflexivity.
    + exists fs1. split; [now right; left|]. run_step.
      destruct (node_at fs1 (w_cwd w) workspace_file) as [n'|] eqn:Hws.
      * rewrite exists_some.
        rewrite run_except_bind. unfold os_unlink. rewrite run_fs_call. world_simpl.
        destruct (unlink fs1 (w_cwd w) workspace_file) as [e|fs2] eqn:Hun.
        -- rewrite (unlink_error_OSError _ _ _ _ Hun), run_bind, run_error_exit.
           world_simpl. split; [|reflexivity].
           right. right. split; [reflexivity | discriminate].
        -- do 2 run_step. split; [|reflexivity]. now right; left.
      * rewrite exists_none. do 3 run_step. split; [|reflexivity]. now left.
  - rewrite exists_none. world_simpl. exists (w_fs w). split; [now left|].
    do 2 run_step.
    destruct (node_at (w_fs w) (w_cwd w) workspace_file) as [n'|] eqn:Hws.
    + rewrite exists_some. run_step. world_simpl. do 2 run_step.
      rewrite Hdir, exists_none. do 2 run_step. rewrite Hws, exists_some.
      rewrite run_except_bind. unfold os_unlink. rewrite run_fs_call. world_simpl.
      destruct (unlink (w_fs w) (w_cwd w) workspace_file) as [e|fs2] eqn:Hun.
      * rewrite (unlink_error_OSError _ _ _ _ Hun), run_bind, run_error_exit.
        world_simpl. split; [|reflexivity].
        right. right. split; [reflexivity | discriminate].
      * do 2 run_step. split; [|reflexivity]. now right; left.
    + rewrite exists_none. run_step. world_simpl.
      rewrite run_bind, run_error_exit. world_simpl.
      split; [|reflexivity]. now left.
Qed.

(** [rmtree] removes what lies at or below its target, and only that. *)
Lemma rmtree_result (fs fs1 : fsmap) (cwd kd : list string) (path : string) :
  rmtree fs cwd path = inr fs1 ->
  resolve cwd path = Some kd ->
  fs1 = filter (fun kv => ~ kd `prefix_of` kv.1) fs.
Proof.
  unfold rmtree. intros Hrm Hk. rewrite Hk in Hrm.
  destruct (fs !! kd) as [[? ?|?]|]; try discriminate.
  destruct (parent_error fs kd path); [discriminate|].
  destruct (bool_decide (holds_fast fs kd)); [discriminate|]. now inversion Hrm.
Qed.

Lemma unlink_result (fs fs2 : fsmap) (cwd kw : list string) (path : string) :
  unlink fs cwd path = inr fs2 ->
  resolve cwd path = Some kw ->
  fs2 = delete kw fs.
Proof.
  unfold unlink. intros Hun Hk. rewrite Hk in Hun.
  destruct (fs !! kw) as [[? ?|?]|]; try discriminate.
  destruct (parent_error fs kw path); [discriminate|]. now inversion Hun.
Qed.

Lemma filter_outside (fs : fsmap) (kd k : list string) :
  ~ kd `prefix_of` k ->
  filter (fun kv : list string * node => ~ kd `prefix_of` kv.1) fs !! k = fs !! k.
Proof.
  intros Hout. destruct (fs !! k) as [x|] eqn:Hk.
  - now apply map_lookup_filter_Some_2.
  - apply map_lookup_filter_None_2. now left.
Qed.

Lemma filter_inside (fs : fsmap) (kd k : list string) :
  kd `prefix_of` k ->
  filter (fun kv : list string * node => ~ kd `prefix_of` kv.1) fs !! k = None.
Proof.
  intros Hin. apply map_lookup_filter_None_2. right. intros x _ Hnot.
  now apply Hnot.
Qed.

(** X12. [clean_project] only takes away. However the run ends, every
    entry of the tree it leaves was in the tree before, and every entry
    that is neither the workspace descriptor nor at or below the project
    directory is as it was. *)
Theorem clean_project_frame (name repository workspace : string) (cfg : config)
    (w : world) (kd kw : list string) :
  let project_dir := path_str (project_dir_of repository name) in
  let workspace_file := path_str (workspace_file_of workspace name) in
  let fs' := w_fs (snd (clean_project name cfg w)) in
  has_roots cfg repository workspace ->
  resolve (w_cwd w) project_dir = Some kd ->
  resolve (w_cwd w) workspace_file = Some kw ->
  fs' ⊆ w_fs w
  /\ forall k, ~ kd `prefix_of` k -> k <> kw -> fs' !! k = w_fs w !! k.
Proof.
  intros project_dir workspace_file fs' Hroots Hkd Hkw. subst fs'.
  destruct (clean_project_outcome name repository workspace cfg w Hroots)
    as (fs1 & Hstep1 & Hstep2 & _).
  fold project_dir in Hstep1. fold workspace_file in Hstep2.
  assert (H1 : fs1 ⊆ w_fs w
               /\ forall k, ~ kd `prefix_of` k -> fs1 !! k = w_fs w !! k).
  { destruct Hstep1 as [[_ ->]|[Hrm|[-> _]]]; try (split; [done | reflexivity]).
    rewrite (rmtree_result _ _ _ _ _ Hrm Hkd). split.
    - apply map_filter_subseteq.
    - intros k Hk. now apply filter_outside. }
  destruct H1 as [Hsub1 Hframe1].
  destruct Hstep2 as [[_ ->]|[Hun|[-> _]]].
  - split; [exact Hsub1|]. intros k Hk _. now apply Hframe1.
  - rewrite (unlink_result _ _ _ _ _ Hun Hkw). split.
    + etrans; [apply delete_subseteq | exact Hsub1].
    + intros k Hk Hne. rewrite lookup_delete_ne by done. now apply Hframe1.
  - split; [exact Hsub1|]. intros k Hk _. now apply Hframe1.
Qed.

Lemma clean_project_frame_witness :
  let fs' := w_fs (snd (clean_project "foo" ProjectSample.roots
                          ProjectSample.protected_workspace)) in
  fs' ⊆ w_fs ProjectSample.protected_workspace
  /\ fs' !! ["opt"; "tools"; "config.ini"]
     = Some (File ProjectSample.config_text true).
Proof.
  assert (Hroots : has_roots ProjectSample.roots "/r" "/w").
  { eexists. repeat split; reflexivity. }
  destruct (clean_project_frame "foo" "/r" "/w" ProjectSample.roots
              ProjectSample.protected_workspace ["r"; "foo"]
              ["w"; "foo.code-workspace"] Hroots eq_refl eq_refl) as [Hsub Hframe].
  split; [exact Hsub|].
  cbv zeta. rewrite Hframe; [reflexivity | | discriminate].
  intros [rest Hrest]. discriminate Hrest.
Defined.

(** X13. Cleaning is done once: after a run of [clean_project] that
    returned, neither artifact is there, so a second run for the same name
    finds nothing, logs that, exits with status 1 and changes nothing. *)
Theorem clean_project_twice (name repository workspace : string) (cfg : config)
    (w w' : world) (kd kw : list string) :
  let project_dir := path_str (project_dir_of repository name) in
  let workspace_file := path_str (workspace_file_of workspace name) in
  has_roots cfg repository workspace ->
  resolve (w_cwd w) project_dir = Some kd ->
  resolve (w_cwd w) workspace_file = Some kw ->
  clean_project name cfg w = (Ok tt, w') ->
  w_fs w' !! kd = None
  /\ w_fs w' !! kw = None
  /\ clean_project name cfg w'
     = (Exit 1,
        add_log (FILE_NOT_FOUND_ERROR_MSG name)
          (add_event (EvStat workspace_file) (add_event (EvStat project_dir) w'))).
Proof.
  intros project_dir workspace_file Hroots Hkd Hkw Hrun.
  destruct (clean_project_outcome name repository workspace cfg w Hroots)
    as (fs1 & Hstep1 & Hstep2 & Hcwd).
  fold project_dir in Hstep1. fold workspace_file in Hstep2.
  rewrite Hrun in Hstep1, Hstep2, Hcwd. cbn [fst snd] in *.
  assert (Hd1 : fs1 !! kd = None).
  { destruct Hstep1 as [[Hnone ->]|[Hrm|(_ & _ & Hne)]]; [| |done].
    - unfold node_at in Hnone. now rewrite Hkd in Hnone.
    - rewrite (rmtree_result _ _ _ _ _ Hrm Hkd). now apply filter_inside. }
  assert (Hd : w_fs w' !! kd = None /\ w_fs w' !! kw = None).
  { destruct Hstep2 as [[Hnone ->]|[Hun|[_ Hne]]]; [| |done].
    - split; [exact Hd1|]. unfold node_at in Hnone. now rewrite Hkw in Hnone.
    - rewrite (unlink_result _ _ _ _ _ Hun Hkw). split.
      + destruct (decide (kw = kd)) as [->|Hne];
          [apply lookup_delete_eq | now rewrite lookup_delete_ne].
      + apply lookup_delete_eq. }
  destruct Hd as [Hgone Hwgone]. split; [exact Hgone|]. split; [exact Hwgone|].
  assert (Hdir : node_at (w_fs w') (w_cwd w') project_dir = None).
  { unfold node_at. now rewrite Hcwd, Hkd. }
  assert (Hws : node_at (w_fs w') (w_cwd w') workspace_file = None).
  { unfold node_at. now rewrite Hcwd, Hkw. }
  unfold clean_project. rewrite (run_roots _ _ _ _ _ Hroots).
  fold (project_dir_of repository name). fold project_dir.
  fold (workspace_file_of workspace name). fold workspace_file.
  run_step. rewrite Hdir, exists_none. world_simpl.
  run_step. run_step. rewrite Hws, exists_none. run_step. world_simpl.
  rewrite run_bind, run_error_exit. reflexivity.
Qed.

Lemma clean_project_twice_witness :
  let w' := snd (clean_project "foo" ProjectSample.roots ProjectSample.with_foo) in
  w_fs w' !! ["r"; "foo"] = None
  /\ w_fs w' !! ["w"; "foo.code-workspace"] = None
  /\ fst (clean_project "foo" ProjectSample.roots w') = Exit 1.
Proof.
  assert (Hroots : has_roots ProjectSample.roots "/r" "/w").
  { eexists. repeat split; reflexivity. }
  destruct (clean_project "foo" ProjectSample.roots ProjectSample.with_foo)
    as [r w'] eqn:Hrun.
  assert (Hr : fst (clean_project "foo" ProjectSample.roots ProjectSample.with_foo)
               = Ok tt) by reflexivity.
  rewrite Hrun in Hr. cbn [fst] in Hr. subst r.
  destruct (clean_project_twice "foo" "/r" "/w" ProjectSample.roots
              ProjectSample.with_foo w' ["r"; "foo"] ["w"; "foo.code-workspace"]
              Hroots eq_refl eq_refl Hrun) as (Hd & Hw & Hagain).
  cbv zeta. cbn [snd]. rewrite Hagain. repeat split; assumption.
Defined.

(** ** The text of the descriptor *)

Lemma is_ascii_append (a b : string) :
  is_ascii_text (a +:+ b) = is_ascii_text a && is_ascii_text b.
Proof.
  induction a as [|c a IH]; [reflexivity|].
  change (String c a +:+ b) with (String c (a +:+ b)).
  cbn [is_ascii_text]. now rewrite IH, andb_assoc.
Qed.

Lemma is_ascii_concat (pieces : list string) :
  Forall (fun piece => is_ascii_text piece = true) pieces ->
  is_ascii_text (String.concat EmptyString pieces) = true.
Proof.
  induction 1 as [|piece pieces Hp _ IH]; [reflexivity|].
  destruct pieces as [|q pieces]; [exact Hp|].
  change (String.concat EmptyString (piece :: q :: pieces))
    with (piece +:+ EmptyString +:+ String.concat EmptyString (q :: pieces)).
  now rewrite !is_ascii_append, Hp, IH.
Qed.

Lemma is_ascii_char (n : N) :
  (n < 128)%N -> is_ascii_text (String (ascii_of_N n) EmptyString) = true.
Proof.
  intros Hn. cbn [is_ascii_text]. rewrite andb_true_r.
  apply Nat.ltb_lt. unfold nat_of_ascii.
  rewrite N_ascii_embedding by lia. lia.
Qed.

Lemma hex_digit_ascii (d : N) : (d < 16)%N -> is_ascii_text (hex_digit d) = true.
Proof.
  intros Hd. unfold hex_digit. apply is_ascii_char.
  destruct (d <? 10)%N; lia.
Qed.

Lemma u_escape_ascii (n : N) : is_ascii_text (u_escape n) = true.
Proof.
  unfold u_escape. rewrite !is_ascii_append.
  rewrite !hex_digit_ascii by (apply N.mod_lt; discriminate). reflexivity.
Qed.

Lemma escape_char_ascii (cp : N) : is_ascii_text (escape_char cp) = true.
Proof.
  unfold escape_char.
  repeat match goal with
         | |- context [if ?b then _ else _] => destruct b eqn:?; try reflexivity
         end.
  - apply is_ascii_char.
    match goal with
    | H : (_ && _)%bool = true |- _ =>
        apply andb_true_iff in H; destruct H as [_ Hle]
    end.
    apply N.leb_le in Hle. lia.
  - apply u_escape_ascii.
  - now rewrite is_ascii_append, !u_escape_ascii.
Qed.

Lemma quote_ascii (s : string) : is_ascii_text (quote s) = true.
Proof.
  unfold quote. rewrite !is_ascii_append, is_ascii_concat; [reflexivity|].
  apply List.Forall_forall. intros piece Hin.
  apply in_map_iff in Hin as (cp & <- & _). apply escape_char_ascii.
Qed.

(** X14. The descriptor is written in ASCII whatever the name and the
    directory are: [json.dump] escapes every other character, so each byte
    of the text is below 128. *)
Theorem descriptor_is_ascii (project_dir : Path) (name : string) :
  is_ascii_text (dumps 4 0 (workspace_data project_dir name)) = true.
Proof.
  unfold workspace_data.
  cbn [dumps List.map join String.concat].
  rewrite !is_ascii_append, !quote_ascii. reflexivity.
Qed.

(** ** Where a path leads *)

Lemma split_char_plain (sep : ascii) (s : string) :
  contains sep s = false -> split_char sep s = [s].
Proof.
  induction s as [|c s IH]; [reflexivity|]. cbn [contains split_char].
  intros H. apply orb_false_iff in H as [Hc Hs].
  rewrite Ascii.eqb_sym, Hc, (IH Hs). reflexivity.
Qed.

(** Splitting what was joined gives the pieces back. *)
Lemma split_char_join (sep : ascii) (pieces : list string) :
  pieces <> [] ->
  Forall (fun piece => contains sep piece = false) pieces ->
  split_char sep (join (String sep EmptyString) pieces) = pieces.
Proof.
  intros Hne Hall. induction Hall as [|p ps Hp Hps IH]; [done|].
  destruct ps as [|q ps]; [now apply split_char_plain|].
  rewrite join_cons by discriminate.
  change (p +:+ String sep EmptyString +:+ join (String sep EmptyString) (q :: ps))
    with (p +:+ String sep (join (String sep EmptyString) (q :: ps))).
  rewrite split_char_append, (split_char_plain sep p Hp), IH by discriminate.
  reflexivity.
Qed.

Lemma Path_of_ok (s : string) : path_ok (Path_of s).
Proof.
  split.
  - unfold Path_of, splitroot. cbn [p_root].
    destruct (starts_with "/" s); [|now left].
    destruct (starts_with "//" s && negb (starts_with "///" s)); auto.
  - unfold Path_of. cbn [p_parts]. apply List.Forall_forall. intros c Hc.
    apply List.filter_In in Hc as [Hin Hreal]. split; [exact Hreal|].
    pose proof (split_char_pieces "/" s) as Hall.
    rewrite List.Forall_forall in Hall. now apply Hall.
Qed.

Lemma plain_parts (c : string) :
  plain c = true ->
  real_part c = true /\ String.eqb c ".." = false /\ contains "/" c = false.
Proof.
  unfold plain. rewrite !andb_true_iff, !negb_true_iff. tauto.
Qed.

Lemma Path_of_plain (c : string) :
  plain c = true -> Path_of c = mkPath EmptyString [c].
Proof.
  intros Hc. apply plain_parts in Hc as (Hreal & _ & Hslash).
  unfold Path_of. rewrite (split_char_plain "/" c Hslash). cbn [List.filter].
  rewrite Hreal. f_equal. unfold splitroot.
  destruct c as [|x c]; [reflexivity|].
  cbn [contains] in Hslash. apply orb_false_iff in Hslash as [Hx _].
  unfold starts_with. cbn [String.prefix].
  destruct (ascii_dec "/" x) as [<-|]; [discriminate | reflexivity].
Qed.

Lemma joinpath_plain (p : Path) (c : string) :
  plain c = true -> joinpath p c = mkPath (p_root p) (p_parts p ++ [c]).
Proof. intros Hc. unfold joinpath. now rewrite (Path_of_plain c Hc). Qed.

Lemma joinpath_ok (p : Path) (c : string) :
  path_ok p -> plain c = true -> path_ok (joinpath p c).
Proof.
  intros [Hroot Hparts] Hc. rewrite (joinpath_plain p c Hc).
  apply plain_parts in Hc as (Hreal & _ & Hslash).
  split; [exact Hroot|]. cbn [p_parts]. apply Forall_app. split; [exact Hparts|].
  repeat constructor; assumption.
Qed.

Lemma step_component_plain (acc : list string) (c : string) :
  plain c = true -> step_component acc c = acc ++ [c].
Proof.
  intros Hc. apply plain_parts in Hc as (Hreal & Hdots & _).
  unfold real_part in Hreal. apply andb_true_iff in Hreal as [He Hd].
  apply negb_true_iff in He, Hd.
  unfold step_component. now rewrite He, Hd, Hdots.
Qed.

Lemma join_first_char (c : string) (cs : list string) :
  real_part c = true -> contains "/" c = false ->
  exists x rest, join "/" (c :: cs) = String x rest /\ x <> "/"%char.
Proof.
  intros Hreal Hslash. destruct c as [|x c]; [discriminate|].
  cbn [contains] in Hslash. apply orb_false_iff in Hslash as [Hx _].
  exists x. destruct cs as [|d cs].
  - exists c. split; [reflexivity|]. intros ->. discriminate.
  - exists (c +:+ "/" +:+ join "/" (d :: cs)). split; [reflexivity|].
    intros ->. discriminate.
Qed.

Lemma starts_with_slash (s : string) : starts_with "/" (String "/" s) = true.
Proof.
  unfold starts_with. cbn [String.prefix].
  destruct (ascii_dec "/" "/"); [now destruct s | done].
Qed.

(** The place a well-formed path names: its components walked from the
    working directory, or from the root when the path has one. *)
Lemma resolve_path_str (cwd : list string) (p : Path) :
  path_ok p ->
  resolve cwd (path_str p)
  = Some (fold_left step_component (p_parts p)
            (if String.eqb (p_root p) EmptyString then cwd else [])).
Proof.
  intros [Hroot Hparts]. destruct p as [root parts]. cbn [p_root p_parts] in *.
  destruct parts as [|c cs].
  - destruct Hroot as [->|[->| ->]]; reflexivity.
  - inversion Hparts as [|? ? [Hreal Hslash] Hrest]; subst.
    assert (Hsplit : split_char "/" (join "/" (c :: cs)) = c :: cs).
    { apply split_char_join; [discriminate|].
      apply List.Forall_forall. intros d Hd.
      rewrite List.Forall_forall in Hparts. now apply Hparts. }
    destruct (join_first_char c cs Hreal Hslash) as (x & rest & Hjoin & Hx).
    unfold path_str. cbn [p_parts p_root].
    assert (Hnot : Ascii.eqb x "/" = false) by now apply Ascii.eqb_neq.
    destruct Hroot as [->|[->| ->]].
    + change (EmptyString +:+ join "/" (c :: cs)) with (join "/" (c :: cs)).
      unfold resolve. rewrite Hsplit, Hjoin. cbn [String.eqb].
      unfold starts_with. cbn [String.prefix].
      destruct (ascii_dec "/" x) as [<-|]; [done | reflexivity].
    + change ("/" +:+ join "/" (c :: cs)) with (String "/" (join "/" (c :: cs))).
      unfold resolve. cbn [String.eqb split_char].
      rewrite Ascii.eqb_refl, Hsplit, starts_with_slash. reflexivity.
    + change ("//" +:+ join "/" (c :: cs))
        with (String "/" (String "/" (join "/" (c :: cs)))).
      unfold resolve. cbn [String.eqb split_char].
      rewrite Ascii.eqb_refl, Hsplit, starts_with_slash. reflexivity.
Qed.

(** Joining a plain name to a path leads one step below the path. *)
Lemma resolve_joinpath (cwd k : list string) (p : Path) (c : string) :
  path_ok p -> plain c = true ->
  resolve cwd (path_str p) = Some k ->
  resolve cwd (path_str (joinpath p c)) = Some (k ++ [c]).
Proof.
  intros Hok Hc Hk.
  rewrite (resolve_path_str cwd _ (joinpath_ok p c Hok Hc)).
  rewrite (resolve_path_str cwd p Hok) in Hk. inversion Hk as [Hk'].
  rewrite (joinpath_plain p c Hc). cbn [p_root p_parts].
  rewrite fold_left_app. cbn [fold_left].
  now rewrite (step_component_plain _ c Hc).
Qed.

Lemma contains_append (x : ascii) (a b : string) :
  contains x (a +:+ b) = contains x a || contains x b.
Proof.
  induction a as [|c a IH]; [reflexivity|].
  change (String c a +:+ b) with (String c (a +:+ b)).
  cbn [contains]. now rewrite IH, orb_assoc.
Qed.

Lemma append_not_short (a b : string) (n : nat) :
  (n < String.length b)%nat -> forall s, String.length s = n -> a +:+ b <> s.
Proof.
  intros Hn s Hs Heq.
  assert (Hlen : String.length (a +:+ b) = String.length a + String.length b).
  { clear. induction a as [|c a IH]; [reflexivity|].
    change (String c a +:+ b) with (String c (a +:+ b)). cbn. now rewrite IH. }
  rewrite Heq in Hlen. lia.
Qed.

(** A bare name is a plain component, and so is its descriptor's name. *)
Lemma match_name_plain (name : string) :
  match_name name = true ->
  plain name = true /\ plain (name +:+ ".code-workspace") = true.
Proof.
  intros Hname.
  assert (Hslash : contains "/" name = false)
    by (apply match_name_excludes; [assumption | reflexivity | discriminate]).
  assert (Hdot : contains "." name = false)
    by (apply match_name_excludes; [assumption | reflexivity | discriminate]).
  unfold plain, real_part. split.
  - rewrite Hslash.
    destruct name as [|x name]; [discriminate|].
    cbn [contains] in Hdot. apply orb_false_iff in Hdot as [Hx _].
    assert (x <> "."%char) by (intros ->; discriminate).
    assert (E1 : String.eqb (String x name) "." = false).
    { apply String.eqb_neq. congruence. }
    assert (E2 : String.eqb (String x name) ".." = false).
    { apply String.eqb_neq. congruence. }
    now rewrite E1, E2.
  - rewrite contains_append, Hslash.
    assert (E0 : String.eqb (name +:+ ".code-workspace") EmptyString = false).
    { apply String.eqb_neq. apply (append_not_short name ".code-workspace" 0); [cbn; lia | reflexivity]. }
    assert (E1 : String.eqb (name +:+ ".code-workspace") "." = false).
    { apply String.eqb_neq. apply (append_not_short name ".code-workspace" 1); [cbn; lia | reflexivity]. }
    assert (E2 : String.eqb (name +:+ ".code-workspace") ".." = false).
    { apply String.eqb_neq. apply (append_not_short name ".code-workspace" 2); [cbn; lia | reflexivity]. }
    now rewrite E0, E1, E2.
Qed.

(** ** Creating a project with a bare name *)

Lemma mkdir_from_under (path : string) (c : string) (mid : list string) :
  forall (fs : fsmap) (pre : list string),
    dirs_along fs pre mid = true ->
    fs !! (pre ++ mid ++ [c]) = None ->
    fs !! (pre ++ mid) = Some (Dir true) ->
    mkdir_from path fs pre (mid ++ [c]) = inr (<[pre ++ mid ++ [c] := Dir true]> fs).
Proof.
  induction mid as [|m mid IH]; intros fs pre Halong Hnone Hparent.
  - cbn [app mkdir_from] in *. rewrite app_nil_r in Hparent. rewrite Hnone.
    assert (Hp : parent_error fs (pre ++ [c]) path = None).
    { apply parent_error_writable; [now destruct pre|].
      now rewrite removelast_last. }
    now rewrite Hp.
  - cbn [dirs_along] in Halong. cbn [app mkdir_from].
    destruct (fs !! (pre ++ [m])) as [[? ?|d]|]; try discriminate.
    replace (pre ++ m :: mid ++ [c]) with ((pre ++ [m]) ++ mid ++ [c])
      by now rewrite <- app_assoc.
    apply IH; [exact Halong | |]; rewrite <- app_assoc; assumption.
Qed.

Lemma touched_other (fs : fsmap) (k k' : list string) :
  k' <> k -> touched fs k !! k' = fs !! k'.
Proof.
  intros Hne. unfold touched. destruct (fs !! k); [reflexivity|].
  now rewrite lookup_insert_ne.
Qed.

Lemma touched_there (fs : fsmap) (k : list string) : is_Some (touched fs k !! k).
Proof.
  unfold touched. destruct (fs !! k) as [n|] eqn:Hk; [now rewrite Hk|].
  rewrite lookup_insert_eq. eauto.
Qed.

Lemma touch_below (fs : fsmap) (cwd kd : list string) (path c : string) :
  resolve cwd path = Some (kd ++ [c]) ->
  fs !! kd = Some (Dir true) ->
  touch fs cwd path = inr (touched fs (kd ++ [c])).
Proof.
  intros Hk Hdir. unfold touch, touched. rewrite Hk.
  destruct (fs !! (kd ++ [c])); [reflexivity|].
  assert (Hp : parent_error fs (kd ++ [c]) path = None).
  { apply parent_error_writable; [now destruct kd|]. now rewrite removelast_last. }
  now rewrite Hp.
Qed.

Lemma prefix_snoc_inv (k l : list string) (x : string) :
  k `prefix_of` (l ++ [x]) -> k `prefix_of` l \/ k = l ++ [x].
Proof.
  intros [rest Hrest]. destruct rest as [|y r _] using rev_ind.
  - right. now rewrite app_nil_r in Hrest.
  - left. rewrite app_assoc in Hrest. apply app_inj_tail in Hrest as [-> _].
    now exists r.
Qed.

Lemma below_not_prefix (k : list string) (c : string) : ~ (k ++ [c]) `prefix_of` k.
Proof.
  intros Hpre. apply prefix_length in Hpre. rewrite length_app in Hpre.
  cbn in Hpre. lia.
Qed.

Lemma snoc_ne (k : list string) (c : string) : k <> k ++ [c].
Proof.
  intros Heq. apply (f_equal (@List.length string)) in Heq.
  rewrite length_app in Heq. cbn in Heq. lia.
Qed.

Lemma length_append (a b : string) :
  String.length (a +:+ b) = String.length a + String.length b.
Proof.
  induction a as [|c a IH]; [reflexivity|].
  change (String c a +:+ b) with (String c (a +:+ b)). cbn. now rewrite IH.
Qed.


Lemma touched_from (fs : fsmap) (k k' : list string) (n : node) :
  touched fs k !! k' = Some n -> fs !! k' = Some n \/ n = File EmptyString true.
Proof.
  unfold touched. destruct (fs !! k) eqn:Hk; [now left|].
  destruct (decide (k' = k)) as [->|Hne].
  - rewrite lookup_insert_eq. intros [= <-]. now right.
  - rewrite lookup_insert_ne by congruence. now left.
Qed.


(** Both artifacts there and both deletions working: the run of
    [clean_project]. *)
Lemma clean_both_run (name repository workspace : string) (cfg : config)
    (w : world) (n n' : node) (fs1 fs2 : fsmap) :
  let project_dir := path_str (project_dir_of repository name) in
  let workspace_file := path_str (workspace_file_of workspace name) in
  has_roots cfg repository workspace ->
  node_at (w_fs w) (w_cwd w) project_dir = Some n ->
  rmtree (w_fs w) (w_cwd w) project_dir = inr fs1 ->
  node_at fs1 (w_cwd w) workspace_file = Some n' ->
  unlink fs1 (w_cwd w) workspace_file = inr fs2 ->
  exists w',
    clean_project name cfg w = (Ok tt, w')
    /\ w_fs w' = fs2
    /\ w_cwd w' = w_cwd w
    /\ w_log w' = w_log w ++ ["clean - " +:+ project_dir; "clean - " +:+ workspace_file].
Proof.
  intros project_dir workspace_file Hroots Hdir Hrm Hws Hun.
  unfold clean_project. rewrite (run_roots _ _ _ _ _ Hroots).
  fold (project_dir_of repository name). fold project_dir.
  fold (workspace_file_of workspace name). fold workspace_file.
  run_step. rewrite Hdir, exists_some. world_simpl. do 3 run_step.
  rewrite Hdir, exists_some.
  rewrite run_except_bind. unfold os_rmtree. rewrite run_fs_call. world_simpl.
  rewrite Hrm. run_step. rewrite Hws, exists_some.
  rewrite run_except_bind. unfold os_unlink. rewrite run_fs_call. world_simpl.
  rewrite Hun. do 2 run_step.
  eexists. split; [reflexivity|]. world_simpl.
  rewrite <- !app_assoc. repeat split.
Qed.

Section BareName.

Variable E : env.

Variables (name repository workspace : string) (cfg : config) (w : world).
Variables (kR kW : list string) (fs2 : fsmap) (status : nat).

Let kd := kR ++ [name].
Let kw := kW ++ [name +:+ ".code-workspace"].
Let kr := kd ++ ["README.md"].
Let kg := kd ++ [".gitignore"].
Let project_dir := project_dir_of repository name.
Let workspace_file := workspace_file_of workspace name.
Let text := dumps 4 0 (workspace_data project_dir name).
Let fs4 := touched (touched fs2 kr) kg.

(** The configuration names the two roots and the argument is a bare name. *)
Hypothesis Hroots : has_roots cfg repository workspace.
Hypothesis Hname : match_name name = true.
(** Where the roots lie, and that the repository root is a directory new
    entries may be added to. *)
Hypothesis HkR : resolve (w_cwd w) (path_str (Path_of repository)) = Some kR.
Hypothesis HkW : resolve (w_cwd w) (path_str (Path_of workspace)) = Some kW.
Hypothesis Habove : dirs_along (w_fs w) [] kR = true.
Hypothesis HR : w_fs w !! kR = Some (Dir true).
(** Nothing of the project is there. *)
Hypothesis Habsent : forall k, kd `prefix_of` k -> w_fs w !! k = None.
(** What [git init] does: it keeps the new directory and changes nothing
    outside of it. *)
Hypothesis Hshell :
  shell E ("git init " +:+ path_str project_dir) (<[kd := Dir true]> (w_fs w)) (w_cwd w)
  = (fs2, status).
Hypothesis Hkeep : fs2 !! kd = Some (Dir true).
Hypothesis Hframe : forall k, ~ kd `prefix_of` k -> fs2 !! k = w_fs w !! k.

Local Lemma where_project_dir :
  resolve (w_cwd w) (path_str project_dir) = Some kd.
Proof.
  apply resolve_joinpath; [apply Path_of_ok | | exact HkR].
  now apply match_name_plain.
Qed.

Local Lemma where_workspace_file :
  resolve (w_cwd w) (path_str workspace_file) = Some kw.
Proof.
  apply resolve_joinpath; [apply Path_of_ok | | exact HkW].
  now apply match_name_plain.
Qed.

Local Lemma where_placeholder (c : string) :
  plain c = true ->
  resolve (w_cwd w) (path_str (joinpath project_dir c)) = Some (kd ++ [c]).
Proof.
  intros Hc. apply resolve_joinpath; [|exact Hc | exact where_project_dir].
  apply joinpath_ok; [apply Path_of_ok | now apply match_name_plain].
Qed.

(** The descriptor does not lie in the project directory unless the
    workspace root does. *)
Local Lemma descriptor_outside : ~ kd `prefix_of` kW -> ~ kd `prefix_of` kw.
Proof.
  intros HnW Hpre.
  apply prefix_snoc_inv in Hpre as [Hpre|Heq]; [now apply HnW|].
  unfold kd, kw in Heq. apply app_inj_tail in Heq as [_ Heq].
  apply (f_equal String.length) in Heq. rewrite length_append in Heq.
  cbn in Heq. lia.
Qed.

Local Lemma root_outside :
  is_Some (w_fs w !! kW) -> ~ kd `prefix_of` kW.
Proof.
  intros [n HW] Hpre. rewrite (Habsent kW Hpre) in HW. discriminate.
Qed.

(** The run up to the writing of the descriptor: the directory is made,
    [git init] runs, the two placeholders are touched. *)
Local Lemma create_bare_name_tree :
  exists w4,
    create_project E name cfg false w
    = write_descriptor project_dir workspace_file name w4
    /\ w_fs w4 = fs4 /\ w_cwd w4 = w_cwd w /\ w_log w4 = w_log w
    /\ fs4 !! kd = Some (Dir true)
    /\ (forall k, ~ kd `prefix_of` k -> fs4 !! k = w_fs w !! k).
Proof.
  assert (Hdir : node_at (w_fs w) (w_cwd w) (path_str project_dir) = None).
  { unfold node_at. rewrite where_project_dir. now apply Habsent. }
  assert (Hmk : mkdir_p (w_fs w) (w_cwd w) (path_str project_dir)
                = inr (<[kd := Dir true]> (w_fs w))).
  { unfold mkdir_p. rewrite where_project_dir.
    apply (mkdir_from_under _ name kR (w_fs w) []);
      [exact Habove | now apply Habsent | exact HR]. }
  assert (Ht1 : touch fs2 (w_cwd w) (path_str (joinpath project_dir "README.md"))
                = inr (touched fs2 kr)).
  { apply touch_below; [now apply where_placeholder | exact Hkeep]. }
  assert (Hkeep3 : touched fs2 kr !! kd = Some (Dir true)).
  { rewrite touched_other; [exact Hkeep | apply snoc_ne]. }
  assert (Ht2 : touch (touched fs2 kr) (w_cwd w)
                  (path_str (joinpath project_dir ".gitignore"))
                = inr fs4).
  { apply touch_below; [now apply where_placeholder | exact Hkeep3]. }
  eexists. split; [|split; [|split; [|split; [|split]]]].
  - exact (create_init_run E name repository workspace cfg w _ fs2 _ fs4 status
             Hroots Hdir Hmk Hshell Ht1 Ht2).
  - reflexivity.
  - cbn [w_cwd set_fs add_event].
    now rewrite (proj1 (proj2 (after_command_fs _ _ _ _))).
  - cbn [w_log set_fs add_event].
    now rewrite (proj1 (proj2 (proj2 (after_command_fs _ _ _ _)))).
  - unfold fs4. rewrite touched_other; [exact Hkeep3 | apply snoc_ne].
  - intros k Hk. unfold fs4.
    rewrite !touched_other; [now apply Hframe | |];
      intros ->; apply Hk; eexists; reflexivity.
Qed.

(** The whole run when the workspace root is a writable directory and the
    descriptor's place is free or holds a writable file. *)
Local Lemma create_bare_name_run :
  w_fs w !! kW = Some (Dir true) ->
  (w_fs w !! kw = None \/ exists content, w_fs w !! kw = Some (File content true)) ->
  exists w5,
    create_project E name cfg false w = (Ok tt, w5)
    /\ w_fs w5 = <[kw := File text true]> fs4
    /\ w_cwd w5 = w_cwd w
    /\ w_log w5 = w_log w ++ ["add + " +:+ path_str project_dir;
                              "add + " +:+ path_str workspace_file].
Proof.
  intros HW Hdesc.
  destruct create_bare_name_tree as (w4 & Hrun & Hfs & Hcwd & Hlog & _ & Hout4).
  assert (HkW_out : ~ kd `prefix_of` kW) by (apply root_outside; eauto).
  assert (Hw : write_file text (w_fs w4) (w_cwd w4) (path_str workspace_file)
               = inr (<[kw := File text true]> fs4)).
  { rewrite Hfs, Hcwd. unfold write_file.
    rewrite where_workspace_file, (Hout4 kw (descriptor_outside HkW_out)).
    destruct Hdesc as [Hnone|[content Hfile]].
    - rewrite Hnone.
      assert (Hp : parent_error fs4 kw (path_str workspace_file) = None).
      { apply parent_error_writable; [unfold kw; now destruct kW|].
        unfold kw. rewrite removelast_last, (Hout4 kW HkW_out). exact HW. }
      now rewrite Hp.
    - now rewrite Hfile. }
  rewrite Hrun, run_write_descriptor. fold text. rewrite Hw.
  eexists. split; [reflexivity|]. world_simpl.
  rewrite Hcwd, Hlog, <- app_assoc. repeat split.
Qed.

(** X15. Creating a project under a bare name, in a tree where the two
    roots are writable directories, nothing lies at the project's place,
    the descriptor's place is free or holds a writable file, and [git init]
    keeps to the project directory, the paths of the placeholders and of
    the descriptor being paths the system takes as they are written
    (within its limits on the length of a name and of a path, and without
    a [..] component): the run returns, both artifacts are logged, the
    project directory holds [README.md] and [.gitignore], the descriptor
    holds the workspace data, and every other entry outside the project
    directory is as it was. *)
Theorem create_project_bare_name :
  taken_as_written (path_str (joinpath project_dir ".gitignore")) = true ->
  taken_as_written (path_str workspace_file) = true ->
  w_fs w !! kW = Some (Dir true) ->
  (w_fs w !! kw = None \/ exists content, w_fs w !! kw = Some (File content true)) ->
  exists w',
    create_project E name cfg false w = (Ok tt, w')
    /\ w_cwd w' = w_cwd w
    /\ w_log w' = w_log w ++ ["add + " +:+ path_str project_dir;
                              "add + " +:+ path_str workspace_file]
    /\ w_fs w' !! kd = Some (Dir true)
    /\ is_Some (w_fs w' !! kr)
    /\ is_Some (w_fs w' !! kg)
    /\ w_fs w' !! kw = Some (File text true)
    /\ (forall k, ~ kd `prefix_of` k -> k <> kw -> w_fs w' !! k = w_fs w !! k).
Proof.
  intros _ _ HW Hdesc.
  destruct (create_bare_name_run HW Hdesc) as (w5 & Hrun & Hfs & Hcwd & Hlog).
  destruct create_bare_name_tree as (_ & _ & _ & _ & _ & Hkeep4 & Hout4).
  assert (HkW_out : ~ kd `prefix_of` kW) by (apply root_outside; eauto).
  pose proof (descriptor_outside HkW_out) as Hkw_out.
  assert (Hin : forall c, kd ++ [c] <> kw).
  { intros c Heq. apply Hkw_out. rewrite <- Heq. now eexists. }
  exists w5. rewrite Hfs.
  split; [exact Hrun|]. split; [exact Hcwd|]. split; [exact Hlog|].
  split; [|split; [|split; [|split]]].
  - rewrite lookup_insert_ne; [exact Hkeep4|].
    intros Heq. apply Hkw_out. rewrite Heq. exists []; now rewrite app_nil_r.
  - rewrite lookup_insert_ne by (intros Heq; now apply (Hin "README.md")).
    unfold fs4. rewrite touched_other; [apply touched_there|].
    unfold kr, kg. intros Heq. apply app_inj_tail in Heq as [_ Heq]. discriminate.
  - rewrite lookup_insert_ne by (intros Heq; now apply (Hin ".gitignore")).
    apply touched_there.
  - apply lookup_insert_eq.
  - intros k Hk Hne. rewrite lookup_insert_ne by congruence. now apply Hout4.
Qed.

(** X16. Creating a project under a bare name and then cleaning it gives
    back the tree the run started from: with the roots writable
    directories, nothing at the project's place or the descriptor's, a
    [git init] that keeps to the project directory and leaves no
    write-protected directory there, and the paths of the placeholders and
    of the descriptor taken by the system as they are written, both runs
    return, and not an entry is added, lost or changed. *)
Theorem create_then_clean_restores :
  taken_as_written (path_str (joinpath project_dir ".gitignore")) = true ->
  taken_as_written (path_str workspace_file) = true ->
  w_fs w !! kW = Some (Dir true) ->
  w_fs w !! kw = None ->
  (forall k, kd `prefix_of` k -> fs2 !! k <> Some (Dir false)) ->
  exists w1 w2,
    create_project E name cfg false w = (Ok tt, w1)
    /\ clean_project name cfg w1 = (Ok tt, w2)
    /\ w_fs w2 = w_fs w
    /\ w_cwd w2 = w_cwd w.
Proof.
  intros _ _ HW Hnew Hperm.
  destruct (create_bare_name_run HW (or_introl Hnew)) as (w5 & Hrun & Hfs & Hcwd & _).
  destruct create_bare_name_tree as (_ & _ & _ & _ & _ & Hkeep4 & Hout4).
  assert (HkW_out : ~ kd `prefix_of` kW) by (apply root_outside; eauto).
  pose proof (descriptor_outside HkW_out) as Hkw_out.
  assert (HkR_out : ~ kd `prefix_of` kR) by apply below_not_prefix.
  assert (Hkd : kd <> kw).
  { intros Heq. apply Hkw_out. rewrite Heq. exists []; now rewrite app_nil_r. }
  assert (HR5 : w_fs w5 !! kR = Some (Dir true)).
  { rewrite Hfs, lookup_insert_ne; [now rewrite Hout4|].
    intros Heq. rewrite <- Heq, Hnew in HR. discriminate. }
  set (fs6 := filter (fun kv : list string * node => ~ kd `prefix_of` kv.1) (w_fs w5)).
  assert (Hrm : rmtree (w_fs w5) (w_cwd w5) (path_str project_dir) = inr fs6).
  { unfold rmtree. rewrite Hcwd, where_project_dir.
    replace (w_fs w5 !! kd) with (Some (Dir true))
      by (rewrite Hfs, lookup_insert_ne by congruence; now rewrite Hkeep4).
    assert (Hp : parent_error (w_fs w5) kd (path_str project_dir) = None).
    { apply parent_error_writable; [unfold kd; now destruct kR|].
      unfold kd. now rewrite removelast_last. }
    rewrite Hp, bool_decide_eq_false_2; [reflexivity|].
    intros (d & nd & Hd & Hpre & -> & _).
    rewrite Hfs, lookup_insert_ne in Hd
      by (intros <-; now apply Hkw_out).
    unfold fs4 in Hd.
    apply touched_from in Hd as [Hd|]; [|discriminate].
    apply touched_from in Hd as [Hd|]; [|discriminate].
    now apply (Hperm d). }
  assert (Hws6 : fs6 !! kw = Some (File text true)).
  { unfold fs6. rewrite filter_outside by exact Hkw_out.
    rewrite Hfs. apply lookup_insert_eq. }
  assert (Hun : unlink fs6 (w_cwd w5) (path_str workspace_file)
                = inr (delete kw fs6)).
  { unfold unlink. rewrite Hcwd, where_workspace_file, Hws6.
    assert (Hp : parent_error fs6 kw (path_str workspace_file) = None).
    { apply parent_error_writable; [unfold kw; now destruct kW|].
      unfold kw. rewrite removelast_last. unfold fs6.
      rewrite filter_outside by exact HkW_out.
      rewrite Hfs, lookup_insert_ne
        by (intros Heq; symmetry in Heq; now apply snoc_ne in Heq).
      now rewrite Hout4. }
    now rewrite Hp. }
  assert (Hdir5 : node_at (w_fs w5) (w_cwd w5) (path_str project_dir)
                  = Some (Dir true)).
  { unfold node_at. rewrite Hcwd, where_project_dir.
    rewrite Hfs, lookup_insert_ne by congruence. exact Hkeep4. }
  assert (Hdesc6 : node_at fs6 (w_cwd w5) (path_str workspace_file)
                   = Some (File text true)).
  { unfold node_at. rewrite Hcwd, where_workspace_file. exact Hws6. }
  destruct (clean_both_run name repository workspace cfg w5 (Dir true)
              (File text true) fs6 (delete kw fs6) Hroots Hdir5 Hrm Hdesc6 Hun)
    as (w7 & Hclean & Hfs7 & Hcwd7 & _).
  exists w5, w7. split; [exact Hrun|]. split; [exact Hclean|].
  split; [|now rewrite Hcwd7].
  rewrite Hfs7. apply map_eq. intros k.
  destruct (decide (k = kw)) as [->|Hne].
  - now rewrite lookup_delete_eq, Hnew.
  - rewrite lookup_delete_ne by congruence. unfold fs6.
    destruct (decide (kd `prefix_of` k)) as [Hin|Hout].
    + now rewrite filter_inside, Habsent.
    + rewrite filter_outside by exact Hout.
      rewrite Hfs, lookup_insert_ne by congruence. now apply Hout4.
Qed.



End BareName.

(** *** The running example: project foo in the fresh tree *)

Lemma fresh_absent (k : list string) :
  ["r"; "foo"] `prefix_of` k -> w_fs ProjectSample.fresh !! k = None.
Proof.
  intros [rest ->]. cbn [w_fs ProjectSample.fresh ProjectSample.world_of app].
  unfold ProjectSample.base_fs.
  rewrite !lookup_insert_ne by discriminate.
  apply lookup_singleton_ne. discriminate.
Qed.

Lemma fresh_git_frame (k : list string) :
  ~ ["r"; "foo"] `prefix_of` k ->
  MoreSample.foo_initialised !! k = w_fs ProjectSample.fresh !! k.
Proof.
  intros Hout. unfold MoreSample.foo_initialised.
  rewrite !lookup_insert_ne; [reflexivity | |];
    intros <-; apply Hout; eexists; reflexivity.
Qed.

Lemma fresh_git_permits (k : list string) :
  ["r"; "foo"] `prefix_of` k -> MoreSample.foo_initialised !! k <> Some (Dir false).
Proof.
  intros Hin. unfold MoreSample.foo_initialised.
  destruct (decide (k = ["r"; "foo"; ".git"])) as [->|Hne1]; [discriminate|].
  rewrite lookup_insert_ne by congruence.
  destruct (decide (k = ["r"; "foo"])) as [->|Hne2]; [discriminate|].
  rewrite lookup_insert_ne by congruence.
  change (ProjectSample.base_fs !! k) with (w_fs ProjectSample.fresh !! k).
  now rewrite fresh_absent.
Qed.

Lemma sample_roots : has_roots ProjectSample.roots "/r" "/w".
Proof. eexists. repeat split; reflexivity. Qed.

Lemma create_project_bare_name_witness :
  exists w',
    create_project ProjectSample.env_works "foo" ProjectSample.roots false
      ProjectSample.fresh = (Ok tt, w')
    /\ w_fs w' !! ["r"; "foo"] = Some (Dir true)
    /\ is_Some (w_fs w' !! ["r"; "foo"; "README.md"])
    /\ is_Some (w_fs w' !! ["r"; "foo"; ".gitignore"])
    /\ w_fs w' !! ["w"; "foo.code-workspace"]
       = Some (File ProjectSample.foo_descriptor true)
    /\ w_fs w' !! ["opt"; "tools"; "config.ini"]
       = Some (File ProjectSample.config_text true).
Proof.
  destruct (create_project_bare_name ProjectSample.env_works "foo" "/r" "/w"
              ProjectSample.roots ProjectSample.fresh ["r"] ["w"]
              MoreSample.foo_initialised 0
              sample_roots eq_refl eq_refl eq_refl eq_refl eq_refl
              fresh_absent eq_refl eq_refl fresh_git_frame
              eq_refl eq_refl eq_refl (or_introl eq_refl))
    as (w' & Hrun & _ & _ & Hd & Hr & Hg & Hw & Hframe).
  exists w'. split; [exact Hrun|]. split; [exact Hd|]. split; [exact Hr|].
  split; [exact Hg|]. split; [exact Hw|].
  rewrite Hframe; [reflexivity | | discriminate].
  intros [rest Hrest]. discriminate Hrest.
Defined.

Lemma create_then_clean_restores_witness :
  exists w1 w2,
    create_project ProjectSample.env_works "foo" ProjectSample.roots false
      ProjectSample.fresh = (Ok tt, w1)
    /\ clean_project "foo" ProjectSample.roots w1 = (Ok tt, w2)
    /\ w_fs w2 = ProjectSample.base_fs.
Proof.
  destruct (create_then_clean_restores ProjectSample.env_works "foo" "/r" "/w"
              ProjectSample.roots ProjectSample.fresh ["r"] ["w"]
              MoreSample.foo_initialised 0
              sample_roots eq_refl eq_refl eq_refl eq_refl eq_refl
              fresh_absent eq_refl eq_refl fresh_git_frame
              eq_refl eq_refl eq_refl eq_refl fresh_git_permits)
    as (w1 & w2 & Hcreate & Hclean & Hfs & _).
  exists w1, w2. repeat split; assumption.
Defined.



End VscodeProjectMore.
